(* ===== verification/_CoqProject ===== *)
-Q . S2P
Prelude.v
JsString.v
DocTree.v
Seed.v
Archive.v
Download.v
Json.v
JsonFacts.v
Types.v
Schema.v
Backend.v
Cycle.v
Reducer.v
Controller.v
Panels.v
Settings.v
FileViewer.v
ChatPanel.v
FileTree.v
Widgets.v
