(* ===== verification/Prelude.v ===== *)
(** * AGENTX: a verification library for Numtema/Agentx

    AGENTX is a browser application in which a language model fills a tree
    of project-documentation files.  Its parts, and how they interact:

    - the Document Tree Store ([src/types.ts] DocNode, [src/utils.ts]
      findNodeByPath / findAndUpdateFile, and getFileTree of
      [src/services/geminiService.ts]): an immutable tree of folders and
      markdown files, addressed by slash-separated paths, updated copy on
      write;
    - the Agent Cycle protocol ([src/services/geminiService.ts]
      streamAgentCycle): one call to a model backend whose whole reply is
      buffered, split at the sentinel [|||AGENT_RESPONSE_JSON|||] into a
      chat part and a JSON part, the JSON part stripped of a markdown fence,
      parsed and checked, and turned into the events [chunk], [update] and
      [error];
    - the two backends (the Google SDK, the OpenRouter server-sent events),
      which both reduce to a text buffer;
    - the reducer ([src/state.ts] appReducer) over the application state
      ([src/types.ts] AppState, [src/constants.ts] INITIAL_STATE);
    - the session controller ([src/App.tsx] handleSendMessage, handleStop,
      the auto-continuation effect): a running flag, a pending continuation
      prompt and its timer, and the cycles in flight.  It starts a cycle,
      feeds the cycle's events to the reducer, and re-prompts the model;
    - the archive export ([src/utils.ts] addNodeToZip, [src/App.tsx]
      handleDownloadScaffold), which writes the tree into a JSZip archive,
      and [saveAs] of [src/utils.ts], which downloads it through a
      temporary anchor of the page;
    - the schema panels ([src/components/AgentConfigPanel.tsx],
      [src/components/ReasoningPanel.tsx]), which render the stored agent
      schema, whose interface is [AgentSchema] of [src/types.ts];
    - the settings persistence ([src/App.tsx] lines 35 to 90): the
      provider, the API keys and the theme, kept in localStorage;
    - the file viewer ([src/components/FileViewer.tsx]), which shows and
      edits the selected file and saves it through the reducer;
    - the chat panel ([src/components/ChatPanel.tsx]), which renders the
      history, turns the follow-up questions the instruction asks for into
      buttons, and sends messages to the controller;
    - the tree panel ([src/components/FileTree.tsx]), whose rows select a
      path, and the header, the tabs and the settings panel
      ([src/components/Header.tsx], [Tabs.tsx], [SettingsPanel.tsx]),
      which call the download, the theme toggle, the tab switch and the
      settings actions.

    Files, in dependency order, and what they model:
    - [Prelude]: notations ([agentx_scope]: [p ⊑ₛ s] for a prefix, [==ₛ]
      for string equality, [x ←ₑ m; k] for the error monad of code that
      throws, with [map_sum] for a [map] whose callback throws), the tactics [invc] and [destr_streqb], the
      hint databases [agentx] and [agentx_str], and lemmas on strings,
      options and lists.
    - [JsString]: the JavaScript built-ins the code calls on strings
      (split, join, indexOf, substring, trim, startsWith, includes),
      written from ECMA-262; the split/join round trip and the
      characterisation of indexOf as the first occurrence.
    - [DocTree] (Module [DocTree]): [DocNode]; [walk] is the loop of
      [findNodeByPath]; [recurse] is the inner function of
      [findAndUpdateFile]; [getFileTree].  [wf_doc] and [root_wf] state the
      spec's invariant: unique sibling names, no separator in a name, a
      folder at the root.
    - [Seed]: [documentationStructure] of [src/documentationData.ts],
      transcribed, one definition per top-level child; it is well formed.
    - [Archive] (Module [Archive]): the JSZip store as a list of keyed
      entries in insertion order, with [folder] and [file] as the library
      implements them (parent folders first, an existing key overwritten in
      place); [addNodeToZip] and [handleDownloadScaffold] on it.
      [ensureParents] runs with the name's length as fuel, since each
      parent is shorter than its child; when the archive of a tree is
      written, the parent of every entry is already there, so the first
      unit returns ([ensureParents_present]).
    - [Download] (Module [Download]): the page as [saveAs] sees it (the
      body's children, the anchors created, the live object URLs, the
      downloads started), the DOM calls of [saveAs] in the order of the
      code, and [download_scaffold], the [then] of [handleDownloadScaffold].
    - [Json] (Module [Json]): JSON values and the JavaScript operations on
      them: property reads that throw on null, truthiness, [typeof], and
      [String(v)].  [JSON.parse] is the typeclass [JsonParse], so every
      protocol theorem holds for any parser.  Its instance [parse_json] is
      a recursive-descent parser over a subset: integer numbers only, and
      [\u] escapes below 256.  It is run with fuel [2 * length + 1]:
      [parse_elems] hands the text it was given to [parse_value], so an
      opening bracket costs two units, and a nest of brackets needs twice
      its length ([Cycle.json_parse_terminates] proves it is enough).
      [json_stringify] is [JSON.stringify(v)], [json_stringify2] is
      [JSON.stringify(v, null, 2)].
    - [JsonFacts] (Module [JsonFacts]): [parse_json] reads back every value
      [json_stringify] prints; and on every text its fuel is enough: each
      call of the parser leaves a strictly shorter rest, so beyond
      [2 * length + 1] the result no longer depends on the fuel and is
      never the out-of-fuel error.
    - [Types] (Module [Types]): Message, LLMProvider (with its
      [EqDecision] and [Countable] instances, so [apiKeys] is a
      [gmap LLMProvider string]), AgentStreamEvent, AppState.
    - [Schema] (Module [Schema]): the interfaces of the agent schema and of
      the update payload as records; [decode_schema] and [decode_payload]
      check that a JSON value has the interface's type, [encode_schema]
      prints a typed schema.
    - [Backend] (Module [Backend]): the network is an input.  A [Network]
      answers each request: with the texts of the SDK chunks, with the
      decoded network chunks of the fetch response, or with a thrown
      error.  The model covers what the code does with these answers.
    - [Cycle] (Module [Cycle]): [process_buffer] models lines 147 to 178.
      [fence_match] models the fence regex, trying its alternatives in the
      backtracking order of the matcher.  [collect_buffer] models the
      [try] block up to the buffer, with every error path.
      [streamAgentCycle] is the whole generator, as the list of the events
      it yields.
    - [Reducer] (Module [Reducer]): every action of [appReducer].  The
      result is an error when the code would throw.
    - [Controller] (Module [Controller]): [App] as a step function over
      the inputs [UserSend], [Deliver] (the reply of a cycle in flight),
      [TimerFire], [Stop], and the editing inputs ([SaveFile] is
      [handleSaveFile]); [run] runs a list of
      inputs.  All the events of one reply are handled in one step: once
      the reply is there, the generator yields without awaiting the
      network, so no input can come in between.  The 2500 ms delay is the
      [TimerFire] input: only the order of events matters here, not time.
    - [Panels] (Module [Panels]): [AgentConfigPanel] and [ReasoningPanel]
      as functions from the stored schema to the texts they render, or to
      the TypeError their render throws.  The JavaScript they run
      (property reads, [map], [join], [length], template literals, and
      React's rule that an object is not a valid child) is written out.
      The Mission panel computes its children first, then each
      [ConfigItem] renders [{children || 'N/A'}], in the code's order.
    - [Settings] (Module [Settings]): localStorage is a function from keys
      to strings, compared pointwise ([storage_equiv], with [Proper]
      instances for rewriting).  [load_settings] and [save_settings] are
      the two effects, [handleToggleTheme] the theme button; [mount] runs
      them in React's order: the first save sees the initial state, the
      loaded actions are applied, and the save runs again when its
      dependencies changed.
    - [FileViewer] (Module [FileViewer]): the viewer's three states, its
      effect on the node prop, its handlers and its render, and [Ui], the
      controller and the viewer together.  React re-runs the effect when
      the node prop is a new object; [node_renewed] derives that from the
      branches of [findAndUpdateFile] that allocate and from the selected
      path.  showdown's [makeHtml] is a parameter of the render, applied
      to [converter], the options the component builds it with.
    - [ChatPanel] (Module [ChatPanel]): the suggestion regex as tokens
      matched with the engine's backtracking alternatives ([\s*] greedy,
      [$] at the end, start positions from the left), the render of each
      message and the two handlers.
    - [FileTree] (Module [FileTree]): the rows of [TreeNode], with React's
      expansion state per mounted instance (lost when a folder collapses),
      and [click_row], a click on a rendered row.
    - [Widgets] (Module [Widgets]): the header's buttons, the tabs and
      [TABS], the settings panel and its two inputs, and [side_panel], the
      panel of the right column for the active tab.

    What the theorems show (claim ids C1 to C40):
    - the controller: the auto-continuation never fires and the session
      stays busy until Stop (C1); Stop does not discard a late reply,
      which restarts the loop (C2) or runs beside a new cycle (C18); the
      concurrency guard (C3); at most one cycle in flight in stop-free
      sessions (C4); a terminal event clears the flags (C17);
    - the protocol: one chunk and one update for a well-delimited reply
      (C5, and C9 for the whole cycle with arbitrary chunk boundaries); one
      error without the sentinel (C6) or with a missing field (C7); the
      sentinel's self-overlap (C8); the missing key (C22); the window of
      six messages (C23); the header-error message (C24);
    - the store: its functional contract (C10), round trip (C11),
      idempotence (C12), no-op on a missing path (C13);
    - the JSON parser the protocol and the settings call: its fuel is
      enough on every text, so [JSON.parse] is total (C26);
    - the reducer: the apply-update semantics with its empty-content skip
      (C14), and two invariants over all actions: the tree stays well
      formed (C15), and only the last message can be a placeholder (C16);
    - the backends: the OpenRouter decoder loses a line split across
      chunks (C19) but is boundary-independent when chunks end at line
      ends (C20); a Gemini chunk without text appends "undefined" (C21);
    - the archive: on a well-formed tree with no empty name it holds a
      file entry exactly for each path [findNodeByPath] resolves to a file,
      with its content (C27, a refinement of the tree by the archive), in
      the order of [getFileTree] and with no key written twice (C28); the
      download button starts exactly one download of it, under its name,
      and leaves no anchor attached and no object URL alive (C25);
    - the schema: decoding an encoded schema gives it back (C29); a value
      of the interface's type renders in both panels (C30), while an
      update the protocol accepts with a schema lacking [wm] and [exp] is
      stored and makes both panels throw (C31);
    - the settings: a mount on saved settings restores the provider and the
      keys and leaves the store as saved (C32); after any mount the store
      agrees with the state (C33); the theme toggle alternates and is read
      back (C34);
    - the viewer: its dirty flag always agrees with the edit (C35); Save
      writes the edit into the file and resets the viewer (C36); an update
      event that writes a file drops unsaved edits (C37); the preview
      shows the stored content, never the edit (C38);
    - the chat panel: the instruction asks for the three questions at the
      end of the message, and the panel turns them into buttons only when
      nothing, not even a line break, follows them (C39);
    - the tree panel: every row it renders, whatever is expanded, selects
      the path that resolves to the row's node (C40).

    Not modelled: the icons, the CSS classes and the layout of the
    components; the scroll effect of the chat panel and the class toggle on
    the document element (DOM only); the network transports
    themselves (their answers are inputs); JSZip's [generateAsync], which
    only serialises the store (the blob [saveAs] downloads is the store);
    showdown's Markdown conversion, a parameter of the viewer.  The
    browser built-ins the code calls ([JSON.parse], [JSON.stringify], the
    DOM calls of [saveAs]) are written from their standards; they are
    not code of the repository.  The parser is proved to read back the
    compact [JSON.stringify] only, not the indented one.

    Strings are [string] of the Standard Library: 8-bit code units where
    JavaScript has 16-bit ones.  Non-ASCII characters of the sources'
    literals are kept as their UTF-8 bytes.  The literals the code compares
    against are ASCII, except the emoji of the suggestion regex; on text
    that is valid UTF-8, matching an emoji's bytes agrees with matching
    the character, since no byte sequence of one character starts inside
    another. *)

From stdpp Require Export base list.
From Stdlib Require Export String Ascii Lia.

Declare Scope agentx_scope.
Delimit Scope agentx_scope with ax.
Open Scope string_scope.

(** ** Notations of the development *)

(** [p ⊑ₛ s]: the string [p] is a prefix of [s] (JS [s.startsWith(p)]). *)
Notation "p ⊑ₛ s" := (String.prefix p s = true) (at level 70) : agentx_scope.
(** JS strict equality on strings, as a boolean. *)
Notation "x ==ₛ y" := (String.eqb x y) (at level 70) : agentx_scope.

(** The error monad of code that throws: [inl] is the exception. *)
Definition sbind {E A B} (m : E + A) (k : A -> E + B) : E + B :=
  match m with inl e => inl e | inr a => k a end.
Notation "x ←ₑ m ; k" := (sbind m (fun x => k))
  (at level 20, m at level 100, k at level 200, right associativity) : agentx_scope.

(** [xs.map(f)] with a callback that may throw: the first exception. *)
Fixpoint map_sum {E A B} (f : A -> E + B) (l : list A) : E + list B :=
  match l with
  | [] => inr []
  | x :: l' => (y ←ₑ f x; ys ←ₑ map_sum f l'; inr (y :: ys))%ax
  end.

Open Scope agentx_scope.

(** ** Tactics *)

Ltac invc H := inversion H; subst; clear H.

(** Case on every string equality test of the goal, as a Prop. *)
Ltac destr_streqb :=
  repeat match goal with
  | |- context [String.eqb ?x ?y] => destruct (String.eqb_spec x y); subst
  end.

Create HintDb agentx.
Create Rewrite HintDb agentx_str.

(** ** Strings: append, length and prefix *)

Lemma str_app_assoc (a b c : string) : (a ++ b) ++ c = a ++ (b ++ c).
Proof. induction a as [|x a IH]; simpl; [done | by rewrite IH]. Qed.

Lemma str_app_nil_r (a : string) : a ++ "" = a.
Proof. induction a as [|x a IH]; simpl; [done | by rewrite IH]. Qed.

Lemma str_length_app (a b : string) : String.length (a ++ b) = String.length a + String.length b.
Proof. induction a as [|x a IH]; simpl; [done | by rewrite IH]. Qed.

Lemma str_app_cons (x : ascii) (a b : string) : String x a ++ b = String x (a ++ b).
Proof. done. Qed.

#[export] Hint Rewrite str_app_assoc str_app_nil_r str_length_app : agentx_str.

Lemma prefix_app (p s : string) : p ⊑ₛ p ++ s.
Proof.
  induction p as [|x p IH]; simpl; [by destruct s |].
  destruct (ascii_dec x x); [done | congruence].
Qed.

Lemma prefix_spec (p s : string) : p ⊑ₛ s <-> exists r, s = p ++ r.
Proof.
  split.
  - revert s; induction p as [|x p IH]; intros [|y s]; simpl; try discriminate.
    + by exists "".
    + by exists (String y s).
    + destruct (ascii_dec x y) as [->|]; [|discriminate].
      intros Hp. destruct (IH s Hp) as [r ->]. by exists r.
  - intros [r ->]. apply prefix_app.
Qed.

Lemma prefix_length (p s : string) : p ⊑ₛ s -> String.length p <= String.length s.
Proof. intros [r ->]%prefix_spec. rewrite str_length_app. lia. Qed.

Lemma str_app_inv_l (a b c : string) : a ++ b = a ++ c -> b = c.
Proof. induction a as [|x a IH]; simpl; [done|]. intros H. invc H. auto. Qed.

Lemma str_app_eq_nil (a b : string) : a ++ b = "" -> a = "" /\ b = "".
Proof. destruct a; simpl; [done | discriminate]. Qed.

#[export] Hint Resolve prefix_app prefix_length : agentx.

(** ** Options *)

Lemma option_map_Some {A B} (f : A -> B) (o : option A) (b : B) :
  option_map f o = Some b <-> exists a, o = Some a /\ f a = b.
Proof. destruct o; simpl; split; [intros [=]; eauto | by intros (? & [= ->] & <-) | done | by intros (? & ? & _)]. Qed.

(** A double quote, for the texts of the sources that hold one. *)
Definition dq : string := String (ascii_of_nat 34) EmptyString.

#[export] Instance string_eq_dec : EqDecision string := string_dec.

Lemma prefix_app_l (a b s : string) : (a ++ b) ⊑ₛ s -> a ⊑ₛ s.
Proof. intros [r ->]%prefix_spec. rewrite str_app_assoc. apply prefix_app. Qed.

(** ** Lists *)

(** [find] through a [map] that does not change what the test looks at. *)
Lemma find_map_pres {A B} (P : A -> bool) (Q : B -> bool) (f : A -> B) (l : list A) :
  (forall x, Q (f x) = P x) -> List.find Q (map f l) = option_map f (List.find P l).
Proof. intros HPQ. induction l as [|x l IH]; simpl; [done|]. rewrite HPQ. by destruct (P x). Qed.

Lemma forallb_map_ext {A B} (f : A -> B) (g : B -> bool) (h : A -> bool) (l : list A) :
  (forall x, In x l -> g (f x) = h x) -> forallb g (map f l) = forallb h l.
Proof. induction l as [|x l IH]; simpl; [done|]. intros H. rewrite H, IH; auto. Qed.

Lemma map_flat_map {A B C} (f : B -> C) (g : A -> list B) (l : list A) :
  map f (flat_map g l) = flat_map (fun x => map f (g x)) l.
Proof. induction l as [|x l IH]; simpl; [done|]. by rewrite map_app, IH. Qed.

Lemma flat_map_ext_In {A B} (f g : A -> list B) (l : list A) :
  (forall x, In x l -> f x = g x) -> flat_map f l = flat_map g l.
Proof. induction l as [|x l IH]; simpl; [done|]. intros H. rewrite H, IH; auto. Qed.

Lemma mapM_map_inv {A B} (d : B -> option A) (e : A -> B) (l : list A) :
  (forall x, In x l -> d (e x) = Some x) -> mapM d (map e l) = Some l.
Proof.
  induction l as [|x l IH]; simpl; [done|]. intros H.
  rewrite H by auto. simpl. rewrite IH by auto. done.
Qed.

Lemma map_sum_inr {E A B} (f : A -> E + B) (l : list A) :
  (forall x, In x l -> exists y, f x = inr y) -> exists ys, map_sum f l = inr ys.
Proof.
  induction l as [|x l IH]; simpl; [eauto|]. intros H.
  destruct (H x (or_introl eq_refl)) as [y ->]. destruct IH as [ys ->]; [auto|]. simpl. eauto.
Qed.
