(* ===== verification/JsString.v ===== *)
(** * The JavaScript string primitives the sources call

    [String.prototype.split] on a one-character separator, [indexOf],
    [substring], [trim], [startsWith], [includes] and [Array.prototype.join],
    on strings of 8-bit code units ([string] of the Standard Library).  These
    are built-ins of the JavaScript runtime, not code of the repository: they
    are written from the ECMAScript definitions, and the lemmas here are what
    the components use of them. *)

From S2P Require Import Prelude.

(** ** take and drop on strings *)

Fixpoint str_take (n : nat) (s : string) : string :=
  match n, s with
  | 0, _ | _, EmptyString => EmptyString
  | S n', String c s' => String c (str_take n' s')
  end.

Fixpoint str_drop (n : nat) (s : string) : string :=
  match n, s with
  | 0, _ => s
  | _, EmptyString => EmptyString
  | S n', String _ s' => str_drop n' s'
  end.

(** [s.substring(a, b)]: the bounds are clamped to the length and swapped
    when [a > b] (ECMA-262, String.prototype.substring). *)
Definition js_substring (s : string) (a b : nat) : string :=
  let lo := Nat.min a b in let hi := Nat.max a b in
  str_take (hi - lo) (str_drop lo s).

(** [s.substring(a)]: from [a] to the end. *)
Definition js_substring_from (s : string) (a : nat) : string := str_drop a s.

(** [s.indexOf(p)], with [-1] as [None]. *)
Fixpoint index_of (p s : string) : option nat :=
  if String.prefix p s then Some 0 else
  match s with
  | EmptyString => None
  | String _ s' => option_map S (index_of p s')
  end.

(** [s.lastIndexOf(c)] for a one-character [c], with [-1] as [None]. *)
Fixpoint last_index_of (c : ascii) (s : string) : option nat :=
  match s with
  | EmptyString => None
  | String c' s' =>
      match last_index_of c s' with
      | Some i => Some (S i)
      | None => if Ascii.eqb c' c then Some 0 else None
      end
  end.

(** [s.slice(-1)], the last character. *)
Definition last_char (s : string) : option ascii := String.get (String.length s - 1) s.

(** [s.includes(p)]. *)
Definition js_includes (s p : string) : bool :=
  match index_of p s with Some _ => true | None => false end.

(** ** split and join on a one-character separator *)

Fixpoint js_split (c : ascii) (s : string) : list string :=
  match s with
  | EmptyString => [EmptyString]
  | String x s' =>
      if Ascii.eqb x c then EmptyString :: js_split c s'
      else match js_split c s' with
           | [] => [String x EmptyString]
           | h :: t => String x h :: t
           end
  end.

Fixpoint js_join (c : ascii) (l : list string) : string :=
  match l with
  | [] => EmptyString
  | [x] => x
  | x :: l' => x ++ String c (js_join c l')
  end.

(** ** trim: the white space of ECMA-262 that 8-bit code units can hold
    (tab, line feed, vertical tab, form feed, carriage return, space, and
    the no-break space U+00A0). *)

Definition is_js_space (c : ascii) : bool :=
  match nat_of_ascii c with
  | 9 | 10 | 11 | 12 | 13 | 32 | 160 => true
  | _ => false
  end.

Fixpoint trim_start (s : string) : string :=
  match s with
  | EmptyString => EmptyString
  | String c s' => if is_js_space c then trim_start s' else s
  end.

Fixpoint trim_end (s : string) : string :=
  match s with
  | EmptyString => EmptyString
  | String c s' =>
      let r := trim_end s' in
      if is_js_space c && String.eqb r EmptyString then EmptyString else String c r
  end.

Definition js_trim (s : string) : string := trim_end (trim_start s).

Definition js_newline : ascii := Ascii.ascii_of_nat 10.

(** ** Lemmas on take, drop and indexOf *)

Lemma str_take_app_length (a b : string) : str_take (String.length a) (a ++ b) = a.
Proof. induction a as [|x a IH]; simpl; [done | by rewrite IH]. Qed.

Lemma str_drop_app_length (a b : string) : str_drop (String.length a) (a ++ b) = b.
Proof. induction a as [|x a IH]; simpl; [done | by rewrite IH]. Qed.

Lemma str_drop_nil (n : nat) : str_drop n "" = "".
Proof. by destruct n. Qed.

Lemma str_drop_app_le (j : nat) (a b : string) :
  j <= String.length a -> str_drop j (a ++ b) = str_drop j a ++ b.
Proof.
  revert j; induction a as [|x a IH]; intros [|j] Hj; simpl in *; try done; try lia.
  apply IH. lia.
Qed.

Lemma prefix_nil_inv (p : string) : p ⊑ₛ "" -> p = "".
Proof. by destruct p. Qed.

#[export] Hint Rewrite str_take_app_length str_drop_app_length str_drop_nil : agentx_str.

(** [indexOf] returns the first position at which [p] occurs. *)
Lemma index_of_spec (p s : string) (i : nat) :
  index_of p s = Some i <->
  p ⊑ₛ str_drop i s /\ (forall j, j < i -> ~ p ⊑ₛ str_drop j s).
Proof.
  revert i; induction s as [|x s IH]; intros i; cbn [index_of].
  - destruct (String.prefix p "") eqn:Hp.
    + split; [intros [= <-]; split; [done | lia] |].
      intros [_ Hj]. destruct i; [done|]. exfalso. apply (Hj 0); [lia | done].
    + split; [done|]. intros [H _]. rewrite str_drop_nil in H. congruence.
  - destruct (String.prefix p (String x s)) eqn:Hp.
    + split; [intros [= <-]; split; [done | lia] |].
      intros [_ Hj]. destruct i; [done|]. exfalso. apply (Hj 0); [lia | done].
    + rewrite option_map_Some. split.
      * intros (i' & Hi & <-). apply IH in Hi as [Hi Hj]. split; [done|].
        intros [|j] Hlt; [cbn [str_drop]; by rewrite Hp | apply Hj; lia].
      * intros [Hi Hj]. destruct i as [|i]; [cbn [str_drop] in Hi; congruence|].
        exists i. split; [|done]. apply IH. split; [done|].
        intros j Hlt. apply (Hj (S j)). lia.
Qed.

Lemma index_of_None (p s : string) :
  index_of p s = None -> forall j, ~ p ⊑ₛ str_drop j s.
Proof.
  revert p; induction s as [|x s IH]; intros p; cbn [index_of].
  - destruct (String.prefix p "") eqn:Hp; [done|]. intros _ j. by rewrite str_drop_nil, Hp.
  - destruct (String.prefix p (String x s)) eqn:Hp; [done|].
    destruct (index_of p s) eqn:Hs; [done|]. intros _ [|j]; [cbn [str_drop]; by rewrite Hp|]. by apply IH.
Qed.

(** The occurrence found by [indexOf] splits the string around [p]. *)
Lemma str_take_drop (n : nat) (s : string) : str_take n s ++ str_drop n s = s.
Proof. revert s; induction n as [|n IH]; intros [|x s]; simpl; try done. by rewrite IH. Qed.

Lemma str_drop_drop (m n : nat) (s : string) : str_drop n (str_drop m s) = str_drop (m + n) s.
Proof. revert s; induction m as [|m IH]; intros [|x s]; simpl; try done. by rewrite str_drop_nil. Qed.

#[export] Hint Rewrite str_take_drop str_drop_drop : agentx_str.

(** The occurrence found by [indexOf] splits the string around [p]. *)
Lemma index_of_split (p s : string) (i : nat) :
  index_of p s = Some i ->
  s = str_take i s ++ p ++ str_drop (i + String.length p) s.
Proof.
  intros [Hp _]%index_of_spec. apply prefix_spec in Hp as [r Hr].
  rewrite <- str_drop_drop, Hr, str_drop_app_length, <- Hr. by rewrite str_take_drop.
Qed.

(** [indexOf] on [a ++ b] finds [p] at the length of [a] when [b] starts
    with [p] and [p] starts at no earlier position. *)
Lemma index_of_app (p a b : string) :
  p ⊑ₛ b ->
  (forall j, j < String.length a -> ~ p ⊑ₛ str_drop j (a ++ b)) ->
  index_of p (a ++ b) = Some (String.length a).
Proof. intros Hb Hj. apply index_of_spec. by rewrite str_drop_app_length. Qed.

(** ** split and join *)

(** [str_has c s]: the character [c] occurs in [s]. *)
Fixpoint str_has (c : ascii) (s : string) : bool :=
  match s with
  | EmptyString => false
  | String x s' => Ascii.eqb x c || str_has c s'
  end.

Lemma js_split_nonempty (c : ascii) (s : string) : js_split c s <> [].
Proof.
  destruct s as [|x s]; simpl; [done|].
  destruct (Ascii.eqb x c); [done|]. by destruct (js_split c s).
Qed.

Lemma js_split_no_sep (c : ascii) (s : string) :
  str_has c s = false -> js_split c s = [s].
Proof.
  induction s as [|x s IH]; simpl; [done|].
  intros [Hx Hs]%orb_false_iff. by rewrite Hx, IH.
Qed.

Lemma js_split_app_sep (c : ascii) (a b : string) :
  js_split c (a ++ String c b) = (js_split c a ++ js_split c b)%list.
Proof.
  induction a as [|x a IH]; simpl; [by rewrite Ascii.eqb_refl|].
  rewrite IH. destruct (Ascii.eqb x c); [done|].
  destruct (js_split c a) eqn:E; [by apply js_split_nonempty in E | done].
Qed.

Lemma js_join_cons2 (c : ascii) (x y : string) (l : list string) :
  js_join c (x :: y :: l) = x ++ String c (js_join c (y :: l)).
Proof. done. Qed.

(** Joining the pieces of a split gives the string back. *)
Lemma js_join_split (c : ascii) (s : string) : js_join c (js_split c s) = s.
Proof.
  induction s as [|x s IH]; simpl; [done|].
  destruct (Ascii.eqb_spec x c) as [->|Hx].
  - destruct (js_split c s) as [|h t] eqn:E; [by apply js_split_nonempty in E|].
    by rewrite js_join_cons2, <- IH.
  - destruct (js_split c s) as [|h [|h' t]] eqn:E; [by apply js_split_nonempty in E | |];
      simpl in *; by rewrite IH.
Qed.

Lemma js_join_app (c : ascii) (l1 l2 : list string) :
  l1 <> [] -> l2 <> [] -> js_join c (l1 ++ l2)%list = js_join c l1 ++ String c (js_join c l2).
Proof.
  intros H1 H2. induction l1 as [|x [|y l1] IH]; [done| |].
  - simpl. destruct l2; done.
  - change ((x :: y :: l1) ++ l2)%list with (x :: (y :: l1) ++ l2)%list.
    change ((y :: l1) ++ l2)%list with (y :: (l1 ++ l2))%list at 1.
    rewrite js_join_cons2. change (y :: (l1 ++ l2))%list with ((y :: l1) ++ l2)%list.
    rewrite IH by done. by rewrite js_join_cons2, str_app_assoc.
Qed.

(** Splitting a join of separator-free pieces gives the pieces back. *)
Lemma js_split_join (c : ascii) (l : list string) :
  l <> [] -> Forall (fun x => str_has c x = false) l -> js_split c (js_join c l) = l.
Proof.
  intros Hne Hl. induction Hl as [|x l Hx Hl IH]; [done|].
  destruct l as [|y l]; [by apply js_split_no_sep|].
  rewrite js_join_cons2, js_split_app_sep, js_split_no_sep by done.
  by rewrite IH.
Qed.

Lemma js_split_pieces (c : ascii) (s : string) :
  Forall (fun x => str_has c x = false) (js_split c s).
Proof.
  induction s as [|x s IH]; simpl; [by repeat constructor|].
  destruct (Ascii.eqb x c) eqn:Hx; [by constructor|].
  destruct (js_split c s) as [|h t] eqn:E; [by apply js_split_nonempty in E|].
  apply Forall_cons in IH as [Hh Ht]. constructor; [|done]. simpl. by rewrite Hx, Hh.
Qed.

(** For separator-free pieces, [join] is injective. *)
Lemma js_join_inj (c : ascii) (l1 l2 : list string) :
  l1 <> [] -> l2 <> [] ->
  Forall (fun x => str_has c x = false) l1 -> Forall (fun x => str_has c x = false) l2 ->
  js_join c l1 = js_join c l2 -> l1 = l2.
Proof. intros ? ? ? ? H. by rewrite <- (js_split_join c l1), H, js_split_join. Qed.

Definition nl : string := String js_newline EmptyString.

(** [s] consists of white space only (the regex [\s*$]). *)
Fixpoint all_space (s : string) : bool :=
  match s with
  | EmptyString => true
  | String c s' => is_js_space c && all_space s'
  end.

(** ** More on prefixes, take and drop *)

Lemma prefix_app_long (p a r : string) :
  String.length p <= String.length a -> p ⊑ₛ a ++ r -> p ⊑ₛ a.
Proof.
  revert a; induction p as [|x p IH]; intros [|y a] Hl Hp; simpl in *; [done|done|lia|].
  destruct (ascii_dec x y); [|done]. apply IH; [lia | done].
Qed.

Lemma prefix_app_r (p a b : string) : p ⊑ₛ a -> p ⊑ₛ a ++ b.
Proof. intros [r ->]%prefix_spec. rewrite str_app_assoc. apply prefix_app. Qed.

Lemma str_take_app_le (n : nat) (a b : string) :
  n <= String.length a -> str_take n (a ++ b) = str_take n a.
Proof.
  revert n; induction a as [|x a IH]; intros [|n] Hn; simpl in *; try done; [lia|].
  rewrite IH; [done | lia].
Qed.

Lemma str_length_drop (n : nat) (s : string) :
  String.length (str_drop n s) = String.length s - n.
Proof. revert s; induction n as [|n IH]; intros [|x s]; simpl; done. Qed.

Lemma js_substring_0 (s : string) (i : nat) : js_substring s 0 i = str_take i s.
Proof. unfold js_substring. simpl. by rewrite Nat.sub_0_r. Qed.

(** [indexOf] is [None] exactly when [p] occurs nowhere. *)
Lemma index_of_None_iff (p s : string) :
  index_of p s = None <-> forall a b, s <> a ++ p ++ b.
Proof.
  split.
  - intros Hn a b ->. apply (index_of_None _ _ Hn (String.length a)).
    rewrite str_drop_app_length. apply prefix_app.
  - intros H. destruct (index_of p s) as [i|] eqn:Hi; [|done].
    exfalso. apply index_of_split in Hi. eapply H, Hi.
Qed.

#[export] Hint Rewrite js_substring_0 str_length_drop : agentx_str.

Lemma js_includes_app (a p b : string) : js_includes (a ++ p ++ b) p = true.
Proof.
  unfold js_includes. destruct (index_of p (a ++ p ++ b)) eqn:E; [done|].
  exfalso. by apply (proj1 (index_of_None_iff _ _) E a b).
Qed.

Lemma js_includes_app_l (a s p : string) : js_includes s p = true -> js_includes (a ++ s) p = true.
Proof.
  unfold js_includes. destruct (index_of p s) eqn:E; [|done]. intros _.
  apply index_of_split in E. rewrite E, <- str_app_assoc. apply js_includes_app.
Qed.

(** ** lastIndexOf and the last character *)

Lemma last_index_of_none (c : ascii) (s : string) :
  str_has c s = false -> last_index_of c s = None.
Proof.
  induction s as [|x s IH]; simpl; [done|]. intros [Hx Hs]%orb_false_iff.
  by rewrite IH, Hx.
Qed.

Lemma last_index_of_app (c : ascii) (a b : string) :
  str_has c b = false -> last_index_of c (a ++ String c b) = Some (String.length a).
Proof.
  intros Hb. induction a as [|x a IH]; simpl.
  - by rewrite last_index_of_none, Ascii.eqb_refl.
  - by rewrite IH.
Qed.

Lemma last_char_app (a b : string) : b <> "" -> last_char (a ++ b) = last_char b.
Proof.
  intros Hb. unfold last_char. rewrite str_length_app.
  replace (String.length a + String.length b - 1) with (String.length b - 1 + String.length a)
    by (destruct b; [done|simpl; lia]).
  by rewrite <- String.append_correct2.
Qed.

Lemma last_char_single (c : ascii) : last_char (String c "") = Some c.
Proof. done. Qed.

Lemma get_str_has (n : nat) (c : ascii) (s : string) : String.get n s = Some c -> str_has c s = true.
Proof.
  revert n; induction s as [|x s IH]; intros [|n]; simpl; try done.
  - intros [= ->]. by rewrite Ascii.eqb_refl.
  - intros H. rewrite (IH n H). apply orb_true_r.
Qed.

Lemma last_char_has (c : ascii) (s : string) : last_char s = Some c -> str_has c s = true.
Proof. apply get_str_has. Qed.

Lemma str_has_app (c : ascii) (a b : string) : str_has c (a ++ b) = str_has c a || str_has c b.
Proof. induction a as [|x a IH]; simpl; [done|]. by rewrite IH, orb_assoc. Qed.

#[export] Hint Rewrite str_has_app : agentx_str.

Lemma get_lt (n : nat) (s : string) : n < String.length s -> exists c, String.get n s = Some c.
Proof.
  revert n; induction s as [|x s IH]; intros [|n]; simpl; try lia; [eauto|].
  intros H. apply IH. lia.
Qed.
