(* ===== verification/DocTree.v ===== *)
(** * Document Tree Store: [src/types.ts] (DocNode) and [src/utils.ts]

    The documentation tree as the sources declare it ([DocFolder] with its
    ordered children, [DocFile] with its markdown [exampleContent]); path
    resolution [findNodeByPath], the copy-on-write update
    [findAndUpdateFile], and the file listing [getFileTree] of
    [src/services/geminiService.ts].  Paths are strings, split and compared
    the way the code splits and compares them. *)

From S2P Require Import Prelude JsString.

Module DocTree.

(** [type DocNode = DocFolder | DocFile] (types.ts). *)
#[warnings="-register-all"]
Inductive DocNode : Type :=
| DocFolder (name description : string) (children : list DocNode)
| DocFile (name description exampleContent : string).

(** Induction with a hypothesis on every child of a folder. *)
Fixpoint DocNode_ind' (P : DocNode -> Prop)
    (Hfile : forall n d c, P (DocFile n d c))
    (Hfolder : forall n d ch, Forall P ch -> P (DocFolder n d ch))
    (t : DocNode) : P t :=
  match t with
  | DocFile n d c => Hfile n d c
  | DocFolder n d ch =>
      Hfolder n d ch
        ((fix go (l : list DocNode) : Forall P l :=
            match l with
            | [] => @List.Forall_nil DocNode P
            | x :: l' => @List.Forall_cons DocNode P x l' (DocNode_ind' P Hfile Hfolder x) (go l')
            end) ch)
  end.

Definition node_name (n : DocNode) : string :=
  match n with DocFolder nm _ _ | DocFile nm _ _ => nm end.

Definition is_folder (n : DocNode) : bool :=
  match n with DocFolder _ _ _ => true | DocFile _ _ _ => false end.

Definition slash : ascii := "/"%char.

(** [findNodeByPath], the loop over the segments after the root's. *)
Fixpoint walk (cur : DocNode) (segs : list string) : option DocNode :=
  match segs with
  | [] => Some cur
  | seg :: rest =>
      match cur with
      | DocFile _ _ _ => None
      | DocFolder _ _ children =>
          match List.find (fun child => node_name child ==ₛ seg) children with
          | None => None
          | Some next => walk next rest
          end
      end
  end.

(** [findNodeByPath(root, path)]: null for an empty path, null when the
    first segment is not the root's name, else the loop. *)
Definition findNodeByPath (root : DocNode) (path : string) : option DocNode :=
  if path ==ₛ "" then None else
  match js_split slash path with
  | [] => None
  | seg0 :: rest => if node_name root ==ₛ seg0 then walk root rest else None
  end.

(** The inner [recurse] of [findAndUpdateFile], for a fixed target and
    content. *)
Fixpoint recurse (targetPath content : string) (current : DocNode) (currentPath : string)
    : DocNode :=
  if currentPath ==ₛ targetPath then
    match current with
    | DocFile nm d _ => DocFile nm d content
    | DocFolder _ _ _ => current
    end
  else
    match current with
    | DocFolder nm d children =>
        if String.prefix (currentPath ++ "/") targetPath then
          DocFolder nm d
            (map (fun child => recurse targetPath content child
                                 (currentPath ++ "/" ++ node_name child)) children)
        else current
    | DocFile _ _ _ => current
    end.

(** [findAndUpdateFile(node, targetPath, content)]. *)
Definition findAndUpdateFile (node : DocNode) (targetPath content : string) : DocNode :=
  recurse targetPath content node (node_name node).

(** [getFileTree(node, path = '')] of geminiService.ts: the paths of the
    files, depth first. *)
Fixpoint getFileTree (node : DocNode) (path : string) : list string :=
  let currentPath := if path ==ₛ "" then node_name node else path ++ "/" ++ node_name node in
  match node with
  | DocFolder _ _ children => flat_map (fun child => getFileTree child currentPath) children
  | DocFile _ _ _ => [currentPath]
  end.

(** ** Well-formed trees (the invariant of the spec's data model)

    Sibling names are unique and no name contains the separator. *)

Fixpoint names_unique (l : list string) : bool :=
  match l with
  | [] => true
  | x :: l' => negb (existsb (String.eqb x) l') && names_unique l'
  end.

Fixpoint wf_doc (n : DocNode) : bool :=
  negb (str_has slash (node_name n)) &&
  match n with
  | DocFolder _ _ ch => names_unique (map node_name ch) && forallb wf_doc ch
  | DocFile _ _ _ => true
  end.

(** The root is a folder ([docStructure: DocFolder]). *)
Definition root_wf (t : DocNode) : bool := is_folder t && wf_doc t.

(** The content of a resolved node when it is a file. *)
Definition file_content (o : option DocNode) : option string :=
  match o with Some (DocFile _ _ c) => Some c | _ => None end.

(** The path string of the node reached from a node at path [cp] by the
    segments [segs]. *)
Definition path_of (cp : string) (segs : list string) : string := js_join slash (cp :: segs).

(** ** Lemmas on paths *)

Lemma path_of_cons (cp seg : string) (rest : list string) :
  path_of cp (seg :: rest) = path_of (cp ++ "/" ++ seg) rest.
Proof.
  unfold path_of. destruct rest as [|r rest]; [done|].
  rewrite !js_join_cons2, str_app_assoc. done.
Qed.

Lemma path_of_ext (cp : string) (segs : list string) :
  segs <> [] -> path_of cp segs = cp ++ "/" ++ js_join slash segs.
Proof. unfold path_of. destruct segs; [done|]. by rewrite js_join_cons2. Qed.

Lemma path_of_split (q : string) (seg0 : string) (rest : list string) :
  js_split slash q = seg0 :: rest -> path_of seg0 rest = q.
Proof. unfold path_of. intros <-. apply js_join_split. Qed.

(** ** The update's recursion *)

Section Recurse.
Context (tp c : string).

Lemma node_name_recurse (n : DocNode) (cp : string) :
  node_name (recurse tp c n cp) = node_name n.
Proof.
  destruct n; simpl; destruct (cp ==ₛ tp); [done|..|done|done].
  by destruct (String.prefix _ _).
Qed.

Lemma recurse_file (nm d x cp : string) :
  exists x', recurse tp c (DocFile nm d x) cp = DocFile nm d x'.
Proof. simpl. destruct (cp ==ₛ tp); eauto. Qed.

Lemma recurse_id (n : DocNode) (cp : string) :
  cp <> tp -> ~ (cp ++ "/") ⊑ₛ tp -> recurse tp c n cp = n.
Proof.
  intros H1 H2. destruct n; simpl; destruct (String.eqb_spec cp tp); try done.
  destruct (String.prefix (cp ++ "/") tp); [done | done].
Qed.

(** Nodes below a path that the target does not extend are untouched. *)
Lemma recurse_far (m : DocNode) (cp X : string) :
  ~ (cp ++ "/") ⊑ₛ tp -> recurse tp c m (cp ++ "/" ++ X) = m.
Proof.
  intros Hp. apply recurse_id.
  - intros <-. apply Hp. rewrite <- str_app_assoc. apply prefix_app.
  - intros H. apply Hp. apply (prefix_app_l _ (X ++ "/")).
    by rewrite !str_app_assoc in *.
Qed.

(** Nodes strictly below the target are untouched. *)
Lemma recurse_below (m : DocNode) (X : string) : recurse tp c m (tp ++ "/" ++ X) = m.
Proof.
  apply recurse_id.
  - intros H. apply (f_equal String.length) in H. rewrite str_length_app in H. simpl in H. lia.
  - intros H%prefix_length. rewrite !str_length_app in H. simpl in H. lia.
Qed.

Lemma recurse_under (m : DocNode) (cp : string) (segs : list string) :
  (cp = tp \/ ~ (cp ++ "/") ⊑ₛ tp) -> segs <> [] ->
  recurse tp c m (path_of cp segs) = m.
Proof.
  intros [->|Hp] Hs; rewrite path_of_ext by done; [apply recurse_below | by apply recurse_far].
Qed.

(** Walking the updated tree reaches the update of the node the walk
    reaches in the original tree, at its own path. *)
Lemma walk_recurse (segs : list string) (n : DocNode) (cp : string) :
  walk (recurse tp c n cp) segs =
  option_map (fun m => recurse tp c m (path_of cp segs)) (walk n segs).
Proof.
  revert n cp; induction segs as [|seg rest IH]; intros n cp; [done|].
  destruct n as [nm d ch | nm d x]; [|by destruct (recurse_file nm d x cp) as [? ->]].
  cbn [recurse]. destruct (String.eqb_spec cp tp) as [->|Hne].
  - cbn [walk]. destruct (List.find _ ch) as [next|]; [|done].
    destruct (walk next rest) eqn:E; [|done]. simpl. by rewrite recurse_under by auto.
  - destruct (String.prefix (cp ++ "/") tp) eqn:Hp.
    + cbn [walk]. rewrite (find_map_pres (fun child => node_name child ==ₛ seg))
        by (intros; by rewrite node_name_recurse).
      destruct (List.find _ ch) as [next|] eqn:Hf; [|done]. simpl.
      apply List.find_some in Hf as [_ Hn]. apply String.eqb_eq in Hn.
      by rewrite IH, path_of_cons, Hn.
    + cbn [walk]. destruct (List.find _ ch) as [next|]; [|done].
      destruct (walk next rest) eqn:E; [|done]. simpl.
      rewrite recurse_under by (auto || (right; congruence)). done.
Qed.

Lemma recurse_idem (n : DocNode) (cp : string) :
  recurse tp c (recurse tp c n cp) cp = recurse tp c n cp.
Proof.
  revert cp. induction n as [nm d x | nm d ch IH] using DocNode_ind'; intros cp.
  - cbn [recurse]. destruct (cp ==ₛ tp) eqn:E; cbn [recurse]; by rewrite E.
  - cbn [recurse]. destruct (cp ==ₛ tp) eqn:E; [cbn [recurse]; by rewrite E|].
    destruct (String.prefix (cp ++ "/") tp) eqn:Hp; cbn [recurse]; rewrite E, Hp; [|done].
    rewrite map_map. f_equal. apply map_ext_in. intros ch0 Hin.
    rewrite node_name_recurse. rewrite List.Forall_forall in IH. by apply IH.
Qed.

End Recurse.

(** ** Well-formedness lemmas *)

Lemma wf_doc_name (n : DocNode) : wf_doc n = true -> str_has slash (node_name n) = false.
Proof. destruct n; simpl; intros [H _]%andb_prop; by apply negb_true_iff. Qed.

Lemma wf_doc_children (nm d : string) (ch : list DocNode) :
  wf_doc (DocFolder nm d ch) = true ->
  names_unique (map node_name ch) = true /\ forall x, In x ch -> wf_doc x = true.
Proof.
  simpl. intros [_ [Hu Hf]%andb_prop]%andb_prop. split; [done|]. by apply forallb_forall.
Qed.

(** With unique sibling names, [find] by name returns the child itself. *)
Lemma names_unique_find (l : list DocNode) (x : DocNode) :
  names_unique (map node_name l) = true -> In x l ->
  List.find (fun y => node_name y ==ₛ node_name x) l = Some x.
Proof.
  induction l as [|a l IH]; simpl; [done|]. intros [Hn Hu]%andb_prop [->|Hin].
  - by rewrite String.eqb_refl.
  - destruct (String.eqb_spec (node_name a) (node_name x)) as [E|]; [|by apply IH].
    exfalso. apply negb_true_iff in Hn. rewrite (proj2 (existsb_exists _ _)) in Hn; [done|].
    exists (node_name x). split; [by apply in_map | by rewrite E, String.eqb_refl].
Qed.

(** The segments of a successful walk in a well-formed tree are names, so
    they hold no separator. *)
Lemma walk_segs_clean (segs : list string) (n m : DocNode) :
  wf_doc n = true -> walk n segs = Some m ->
  Forall (fun s => str_has slash s = false) segs /\ wf_doc m = true.
Proof.
  revert n; induction segs as [|seg rest IH]; intros n Hwf Hw; simpl in Hw.
  - injection Hw as <-. by split.
  - destruct n as [nm d ch|]; [|done].
    destruct (List.find _ ch) as [next|] eqn:Hf; [|done].
    apply List.find_some in Hf as [Hin Hn]. apply String.eqb_eq in Hn as <-.
    apply wf_doc_children in Hwf as [_ Hwf]. specialize (Hwf _ Hin).
    destruct (IH next Hwf Hw) as [Hs Hm]. split; [|done].
    constructor; [by apply wf_doc_name | done].
Qed.

Section Update.
Context (p c : string).

(** Without a file at any path equal to the target, the update keeps the
    subtree. *)
Lemma recurse_untouched (n : DocNode) (cp : string) :
  wf_doc n = true ->
  (forall segs nm d x, walk n segs = Some (DocFile nm d x) -> path_of cp segs <> p) ->
  recurse p c n cp = n.
Proof.
  revert cp. induction n as [nm d x | nm d ch IH] using DocNode_ind'; intros cp Hwf Hno.
  - cbn [recurse]. destruct (String.eqb_spec cp p) as [<-|]; [|done].
    exfalso. by apply (Hno [] nm d x).
  - cbn [recurse]. destruct (String.eqb_spec cp p); [done|].
    destruct (String.prefix _ _); [|done]. f_equal.
    apply wf_doc_children in Hwf as [Hu Hwf]. rewrite <- (map_id ch) at 2.
    apply map_ext_in. intros ch0 Hin. rewrite List.Forall_forall in IH.
    apply IH; [done | by apply Hwf |]. intros segs nm' d' x' Hw.
    rewrite <- path_of_cons. apply (Hno _ nm' d' x'). simpl.
    by rewrite names_unique_find.
Qed.

End Update.

(** ** The store's contract *)

(** Resolving in the updated tree gives the update of what resolving in the
    original tree gives: the update keeps the shape of the tree. *)
Lemma findNodeByPath_update (t : DocNode) (p c q : string) :
  findNodeByPath (findAndUpdateFile t p c) q =
  option_map (fun m => recurse p c m q) (findNodeByPath t q).
Proof.
  unfold findNodeByPath, findAndUpdateFile.
  destruct (q ==ₛ ""); [done|].
  destruct (js_split slash q) as [|seg0 rest] eqn:Hs; [done|].
  rewrite node_name_recurse. destruct (String.eqb_spec (node_name t) seg0) as [Hn|]; [|done].
  rewrite walk_recurse, Hn. by rewrite (path_of_split q seg0 rest Hs).
Qed.

Lemma file_content_recurse (p c q : string) (m : DocNode) :
  file_content (Some (recurse p c m q)) =
  match m with DocFile _ _ x => Some (if q ==ₛ p then c else x) | DocFolder _ _ _ => None end.
Proof.
  destruct m; cbn [recurse]; destruct (q ==ₛ p); [done | | done | done].
  by destruct (String.prefix _ _).
Qed.

Lemma wf_doc_recurse (p c : string) (n : DocNode) (cp : string) :
  wf_doc (recurse p c n cp) = wf_doc n.
Proof.
  revert cp. induction n as [nm d x | nm d ch IH] using DocNode_ind'; intros cp.
  - by destruct (recurse_file p c nm d x cp) as [? ->].
  - cbn [recurse]. destruct (cp ==ₛ p); [done|]. destruct (String.prefix _ _); [|done].
    cbn [wf_doc node_name]. rewrite !map_map.
    erewrite map_ext by (intros; apply node_name_recurse).
    rewrite List.Forall_forall in IH. rewrite (forallb_map_ext _ _ wf_doc); [done|]. intros; by apply IH.
Qed.

Lemma root_wf_update (t : DocNode) (p c : string) :
  root_wf t = true -> root_wf (findAndUpdateFile t p c) = true.
Proof.
  unfold root_wf, findAndUpdateFile. rewrite wf_doc_recurse.
  intros [Hf ->]%andb_prop. rewrite andb_true_r.
  destruct t as [nm d ch|]; [|done]. cbn [recurse].
  destruct (_ ==ₛ p); [done|]. by destruct (String.prefix _ _).
Qed.

(** ** Properties of the store *)

(** C10 (functional). After [findAndUpdateFile t p c], the file content at
    any path [q] is [c] when [q] is the target [p] and a file was there,
    the old content when another file is at [q], and there is no file at
    [q] when there was none before: the update changes at most the one
    file at [p], whatever the tree. *)
Theorem file_content_update (t : DocNode) (p c q : string) :
  file_content (findNodeByPath (findAndUpdateFile t p c) q) =
  match file_content (findNodeByPath t q) with
  | Some x => Some (if q ==ₛ p then c else x)
  | None => None
  end.
Proof.
  rewrite findNodeByPath_update. destruct (findNodeByPath t q) as [m|]; [|done].
  cbn [option_map]. rewrite file_content_recurse. by destruct m.
Qed.

(** C11 (roundtrip). When [p] resolves to a file, resolving [p] after the
    update gives that file, with its name and description, holding the new
    content. *)
Theorem findAndUpdateFile_roundtrip (t : DocNode) (p c nm d x : string) :
  findNodeByPath t p = Some (DocFile nm d x) ->
  findNodeByPath (findAndUpdateFile t p c) p = Some (DocFile nm d c).
Proof.
  intros H. rewrite findNodeByPath_update, H. cbn [option_map recurse].
  by rewrite String.eqb_refl.
Qed.

(** C12 (functional). Applying the same update twice gives the tree of
    applying it once. *)
Theorem findAndUpdateFile_idempotent (t : DocNode) (p c : string) :
  findAndUpdateFile (findAndUpdateFile t p c) p c = findAndUpdateFile t p c.
Proof. unfold findAndUpdateFile. rewrite node_name_recurse. apply recurse_idem. Qed.

(** C13 (error). On a well-formed tree, an update whose path resolves to no
    file (a folder or nothing) returns the tree unchanged: no error, no
    change (the best-effort merge policy). *)
Theorem findAndUpdateFile_noop (t : DocNode) (p c : string) :
  root_wf t = true -> file_content (findNodeByPath t p) = None ->
  findAndUpdateFile t p c = t.
Proof.
  unfold root_wf. intros [Hfold Hwf]%andb_prop Hnone.
  apply recurse_untouched; [done|]. intros segs nm d x Hw Hp.
  destruct segs as [|s0 rest]; [cbn in Hw; injection Hw as ->; discriminate Hfold|].
  destruct (walk_segs_clean _ _ _ Hwf Hw) as [Hclean _].
  assert (Hs : js_split slash p = node_name t :: s0 :: rest).
  { rewrite <- Hp. apply js_split_join; [done|]. constructor; [by apply wf_doc_name | done]. }
  assert (Hne : p <> "").
  { rewrite <- Hp, path_of_ext by done. by destruct (node_name t). }
  apply Hne. revert Hnone. unfold findNodeByPath.
  destruct (String.eqb_spec p "") as [|_]; [done|]. by rewrite Hs, String.eqb_refl, Hw.
Qed.

End DocTree.
