(* ===== verification/Seed.v ===== *)
(** * The seed document tree: [src/documentationData.ts]

    [documentationStructure], the template the session starts from,
    transcribed node by node, and the facts about it that the other files
    use: it is a well-formed tree. *)

From S2P Require Import Prelude JsString DocTree.
Import DocTree.

(** The README of [docs] (lines 8 to 19). *)
Definition readme_file : DocNode :=
    DocFile "README.md"
      "The entry point for the documentation."
      ("<!-- AI: Generate a high-level README for the project. Include a brief overview, a link to the architecture overview, and a summary of the project's purpose. -->
# Project Documentation

Welcome! This is the central documentation repository for the project.

Select a file from the list on the left to view its contents.
").

(** The folder [analysis] (lines 20 to 50). *)
Definition analysis_folder : DocNode :=
    DocFolder "analysis"
      "Contains documents related to understanding the problem and the business domain."
      [
      DocFile "domain_model.md"
        "Defines the key business concepts (entities) and their relationships."
        ("<!-- AI: Describe the main entities of the project, their key attributes, and how they relate to each other. For example: User, Product, Order. -->
# Domain Model
");
      DocFile "glossary.md"
        "A list of definitions for key terms specific to the project."
        ("<!-- AI: Define any technical or business terms that are specific to this project to ensure everyone on the team has a shared understanding. -->
# Project Glossary
");
      DocFile "initial_research.md"
        "A summary of preliminary studies or market analysis."
        ("<!-- AI: If the user provided any market research, competitor analysis, or initial findings, summarize them here. -->
# Initial Research Summary
")
      ].

(** The folder [requirements] (lines 51 to 81). *)
Definition requirements_folder : DocNode :=
    DocFolder "requirements"
      "Defines what the system must do."
      [
      DocFile "functional_requirements.md"
        "Details the specific behaviors and functions of the system."
        ("<!-- AI: List the key functional requirements based on the user's project description. Use a format like FR-1.1, FR-1.2. -->
# Functional Requirements
");
      DocFile "non_functional_requirements.md"
        "Specifies the quality attributes like performance, security, etc."
        ("<!-- AI: List key non-functional requirements. Focus on performance (e.g., page load time), security (e.g., password hashing), and usability. -->
# Non-Functional Requirements
");
      DocFile "user_stories.md"
        "Describes functionalities from an end-user perspective."
        ("<!-- AI: Create a few core user stories based on the project's main goals. Use the format: " ++ dq ++ "As a [type of user], I want [an action] so that [a benefit]." ++ dq ++ " and include acceptance criteria. -->
# User Stories
")
      ].

(** The folder [design] and its [uml] subtree (lines 82 to 142). *)
Definition design_folder : DocNode :=
    DocFolder "design"
      "Contains technical design documents."
      [
      DocFile "api_design.md"
        "Specifications for the system's APIs (e.g., REST)."
        ("<!-- AI: Design a basic REST API for the project. Specify key resources and endpoints (e.g., GET /users, POST /orders) and show example request/response JSON. -->
# API Design (REST)
");
      DocFile "database_schema.md"
        "Describes the database structure."
        ("<!-- AI: Propose a database schema. List the main tables, their columns, data types, and primary/foreign key relationships. -->
# Database Schema
");
      DocFolder "uml"
        "Contains UML diagrams for visual modeling."
        [
        DocFile "use_case_diagram.md"
          "Visualizes the interactions between actors and use cases."
          ("<!-- AI: Generate a Use Case diagram in Mermaid syntax. Identify the main actors (e.g., User, Admin) and the primary use cases. -->
# Use Case Diagram
");
        DocFile "class_diagram.md"
          "Represents the static structure of the system."
          ("<!-- AI: Generate a Class Diagram in Mermaid syntax showing the core classes (from the domain model), their attributes, and relationships. -->
# Class Diagram
");
        DocFolder "sequence_diagrams"
          "Folder to hold multiple sequence diagrams."
          [
          DocFile "user_login_sequence.md"
            "Shows the sequence of interactions for a user logging in."
            ("<!-- AI: Generate a Sequence Diagram in Mermaid syntax for a critical flow, like a user login or placing an order. -->
# User Login Sequence Diagram
")
          ]
        ]
      ].

(** The folder [architecture] (lines 143 to 172). *)
Definition architecture_folder : DocNode :=
    DocFolder "architecture"
      "Documents describing the high-level structure."
      [
      DocFile "architecture_overview.md"
        "A high-level description of the chosen architectural style."
        ("<!-- AI: Propose a high-level architecture (e.g., 3-Tier, Microservices). Describe the main components and create a simple diagram in Mermaid syntax. -->
# Architecture Overview
");
      DocFolder "decision_records"
        "A collection of Architectural Decision Records (ADRs)."
        [
        DocFile "adr_001_database_choice.md"
          "An example ADR for choosing the primary database."
          ("<!-- AI: Write an Architectural Decision Record (ADR) for a key technology choice, like the primary database (e.g., PostgreSQL vs. MongoDB). Justify the decision. -->
# ADR-001: Choice of Primary Database
")
        ]
      ].

(** The folder [meetings] (lines 173 to 187). *)
Definition meetings_folder : DocNode :=
    DocFolder "meetings"
      "A record of meeting notes."
      [
      DocFile "2024-01-01_project_kickoff.md"
        "Example notes from a project kick-off meeting."
        ("<!-- AI: Create a sample meeting notes document for a project kickoff. Include attendees, agenda, and key decisions made. -->
# Project Kick-off Meeting Notes
")
      ].

(** [export const documentationStructure: DocFolder]. *)
Definition documentationStructure : DocNode :=
  DocFolder "docs"
    "Root folder for all project documentation."
    [readme_file; analysis_folder; requirements_folder; design_folder;
     architecture_folder; meetings_folder].

(** The seed tree satisfies the store's invariant. *)
Lemma documentationStructure_wf : root_wf documentationStructure = true.
Proof. vm_compute. reflexivity. Qed.

#[export] Hint Resolve documentationStructure_wf : agentx.

(** The example of the spec on the seed tree:
    [docs/README.md] resolves to the README file and [docs/MISSING.md] to
    nothing; the root's own path resolves to the root. *)
Example findNodeByPath_seed :
  (exists d x, findNodeByPath documentationStructure "docs/README.md"
               = Some (DocFile "README.md" d x)) /\
  findNodeByPath documentationStructure "docs/MISSING.md" = None /\
  findNodeByPath documentationStructure "docs" = Some documentationStructure.
Proof. split; [do 2 eexists; cbv; reflexivity | split; vm_compute; reflexivity]. Qed.

(** Applying the store's theorems to the seed tree. *)

Lemma findAndUpdateFile_roundtrip_witness :
  exists nm d x,
    findNodeByPath documentationStructure "docs/design/uml/class_diagram.md"
      = Some (DocFile nm d x) /\
    findNodeByPath (findAndUpdateFile documentationStructure
                      "docs/design/uml/class_diagram.md" "# Classes")
      "docs/design/uml/class_diagram.md" = Some (DocFile nm d "# Classes").
Proof.
  do 3 eexists. split; [cbv; reflexivity|].
  eapply findAndUpdateFile_roundtrip. cbv. reflexivity.
Defined.

Lemma findAndUpdateFile_noop_witness :
  root_wf documentationStructure = true /\
  file_content (findNodeByPath documentationStructure "docs/design") = None /\
  findAndUpdateFile documentationStructure "docs/design" "x" = documentationStructure.
Proof.
  split; [vm_compute; reflexivity|]. split; [vm_compute; reflexivity|].
  apply findAndUpdateFile_noop; vm_compute; reflexivity.
Defined.

