(* ===== verification/Archive.v ===== *)
(** * Archive export: [addNodeToZip] of [src/utils.ts] over a JSZip store

    [handleDownloadScaffold] of [src/App.tsx] creates an empty JSZip
    archive, calls [addNodeToZip(state.docStructure, zip)] and downloads the
    generated archive.  JSZip is a library the code calls, so its store is
    modelled here as the code relies on it:
    - the archive is the object [files], shared by every folder handle and
      holding each entry under its full path, in insertion order.
      Assigning a key that is already present keeps its position.
    - a handle is the [root] prefix of a folder.
    - [folder(name)] returns the same handle for an empty name.  Otherwise
      it adds the folder entry [root + name + "/"] if it is missing, and
      returns a handle rooted there.
    - [file(name, data)] sets the entry [root + name].
    - [folder] and [file] first add the missing parent folders of the
      entry ([createFolders], the default).

    The main result is a refinement.  On a well-formed tree whose names are
    not empty, the archive is the preorder listing [entries] of the tree: a
    folder entry per folder and a file entry per file.  Its file entries
    are exactly the files that [findNodeByPath] resolves, with their
    contents, in the order of [getFileTree]. *)

From S2P Require Import Prelude JsString DocTree Seed.
Import DocTree.

Module Archive.

(** ** The JSZip store *)

Inductive ZipEntry := ZDir | ZFile (data : string).

(** [this.files]: full path to entry, in insertion order. *)
Definition Store := list (string * ZipEntry).

(** A JSZip handle: the [root] prefix of its folder. *)
Record JSZip := mkJSZip { root : string }.

Fixpoint zget (k : string) (s : Store) : option ZipEntry :=
  match s with
  | [] => None
  | (k', v) :: s' => if k' ==ₛ k then Some v else zget k s'
  end.

(** [this.files[k] = v]: in place when present, appended otherwise. *)
Fixpoint zset (k : string) (v : ZipEntry) (s : Store) : Store :=
  match s with
  | [] => [(k, v)]
  | (k', v') :: s' => if k' ==ₛ k then (k, v) :: s' else (k', v') :: zset k v s'
  end.

(** [forceTrailingSlash]. *)
Definition forceTrailingSlash (path : string) : string :=
  match last_char path with
  | Some c => if Ascii.eqb c slash then path else path ++ "/"
  | None => path ++ "/"
  end.

(** [parentFolder]: the path before the last separator, ignoring a
    trailing one; [""] when there is none, or only at position 0. *)
Definition parentFolder (path : string) : string :=
  let path :=
    match last_char path with
    | Some c => if Ascii.eqb c slash then js_substring path 0 (String.length path - 1) else path
    | None => path
    end in
  match last_index_of slash path with
  | Some i => if Nat.ltb 0 i then js_substring path 0 i else ""
  | None => ""
  end.

(** The [createFolders] step of [fileAdd]: [folderAdd(parentFolder(name))]
    when there is a parent, which recursively adds its own parents.  Each
    parent is shorter than its child, so the length of the name is enough
    fuel. *)
Fixpoint ensureParents (fuel : nat) (name : string) (s : Store) : Store :=
  match fuel with
  | O => s
  | S f =>
      let parent := parentFolder name in
      if parent ==ₛ "" then s else
      let p := forceTrailingSlash parent in
      match zget p s with
      | Some _ => s
      | None => zset p ZDir (ensureParents f p s)
      end
  end.

(** [fileAdd(name, data)]. *)
Definition fileAdd (name : string) (v : ZipEntry) (s : Store) : Store :=
  zset name v (ensureParents (String.length name) name s).

(** [folderAdd(name)]: only when the folder is missing. *)
Definition folderAdd (name : string) (s : Store) : Store :=
  let name := forceTrailingSlash name in
  match zget name s with
  | Some _ => s
  | None => fileAdd name ZDir s
  end.

(** [zip.folder(arg)], typed [JSZip | null]: the same handle for an empty
    name, else a handle rooted at the new folder. *)
Definition folder (z : JSZip) (arg : string) (s : Store) : option (JSZip * Store) :=
  if arg ==ₛ "" then Some (z, s)
  else
    let name := root z ++ arg in
    Some (mkJSZip (forceTrailingSlash name), folderAdd name s).

(** [zip.file(name, data)]. *)
Definition file (z : JSZip) (name data : string) (s : Store) : Store :=
  fileAdd (root z ++ name) (ZFile data) s.

(** ** [addNodeToZip] *)

Fixpoint addNodeToZip (node : DocNode) (currentFolder : JSZip) (s : Store) : Store :=
  match node with
  | DocFolder nm _ children =>
      match folder currentFolder nm s with
      | Some (newFolder, s') =>
          fold_left (fun acc child => addNodeToZip child newFolder acc) children s'
      | None => s
      end
  | DocFile nm _ content => file currentFolder nm content s
  end.

Definition scaffold_file_name : string := "mon_super_projet_docs.zip".

(** [handleDownloadScaffold]: the name of the download and the entries of
    the generated archive. *)
Definition handleDownloadScaffold (docStructure : DocNode) : string * Store :=
  (scaffold_file_name, addNodeToZip docStructure (mkJSZip "") []).

(** ** The abstract archive of a tree

    The preorder listing of a node whose parent folder is at [prefix]. *)
Fixpoint entries (n : DocNode) (prefix : string) : Store :=
  match n with
  | DocFolder nm _ ch =>
      (prefix ++ nm ++ "/", ZDir) :: flat_map (fun c => entries c (prefix ++ nm ++ "/")) ch
  | DocFile nm _ c => [(prefix ++ nm, ZFile c)]
  end.

(** The file entries of an archive, as (path, content). *)
Fixpoint zip_files (s : Store) : list (string * string) :=
  match s with
  | [] => []
  | (k, ZFile c) :: s' => (k, c) :: zip_files s'
  | (_, ZDir) :: s' => zip_files s'
  end.

(** No name is empty (JSZip's [folder("")] returns its own handle). *)
Fixpoint names_nonempty (n : DocNode) : bool :=
  negb (node_name n ==ₛ "") &&
  match n with
  | DocFolder _ _ ch => forallb names_nonempty ch
  | DocFile _ _ _ => true
  end.

(** ** The store's lemmas *)

Lemma zget_app (k : string) (s t : Store) :
  zget k (s ++ t)%list = match zget k s with Some v => Some v | None => zget k t end.
Proof. induction s as [|[k' v] s IH]; simpl; [done|]. by destruct (k' ==ₛ k). Qed.

Lemma zget_notin (k : string) (s : Store) : zget k s = None <-> k ∉ map fst s.
Proof.
  induction s as [|[k' v] s IH]; simpl; [split; [intros _; apply not_elem_of_nil|done]|].
  rewrite not_elem_of_cons, <- IH.
  destruct (String.eqb_spec k' k) as [->|Hne]; split; [done|by intros []|by auto|by intros []].
Qed.

Lemma zset_fresh (k : string) (v : ZipEntry) (s : Store) :
  zget k s = None -> zset k v s = (s ++ [(k, v)])%list.
Proof.
  induction s as [|[k' v'] s IH]; simpl; [done|].
  destruct (k' ==ₛ k); [done|]. intros H. by rewrite IH.
Qed.

(** ** Paths of entries

    A name that is not empty and holds no separator. *)
Definition name_ok (nm : string) : Prop := nm <> "" /\ str_has slash nm = false.

(** The root prefix of a handle: empty, or a folder path ending in one
    separator. *)
Definition prefix_ok (P : string) : Prop :=
  P = "" \/ exists q c, P = q ++ "/" /\ last_char q = Some c /\ c <> slash.

Lemma last_char_name (nm : string) :
  name_ok nm -> exists c, last_char nm = Some c /\ c <> slash.
Proof.
  intros [Hne Hs]. destruct (last_char nm) as [c|] eqn:E.
  - exists c. split; [done|]. intros ->. apply last_char_has in E. congruence.
  - exfalso. destruct (get_lt (String.length nm - 1) nm) as [c Hc].
    + destruct nm; [done|simpl; lia].
    + unfold last_char in E. congruence.
Qed.

Lemma fts_name (P nm : string) : name_ok nm -> forceTrailingSlash (P ++ nm) = P ++ nm ++ "/".
Proof.
  intros Hn. destruct (last_char_name nm Hn) as (c & Hc & Hcs).
  unfold forceTrailingSlash. rewrite last_char_app, Hc by apply Hn.
  destruct (Ascii.eqb_spec c slash); [done|]. by rewrite str_app_assoc.
Qed.

Lemma prefix_ok_child (P nm : string) : name_ok nm -> prefix_ok (P ++ nm ++ "/").
Proof.
  intros Hn. right. destruct (last_char_name nm Hn) as (c & Hc & Hcs).
  exists (P ++ nm), c. rewrite str_app_assoc, last_char_app by apply Hn. done.
Qed.

Lemma fts_nonempty (p : string) : forceTrailingSlash p <> "".
Proof.
  unfold forceTrailingSlash. intros H.
  destruct (last_char p) as [c|] eqn:E; [destruct (c =? slash)%char|];
    try (apply str_app_eq_nil in H as [_ ?]; discriminate).
  subst. discriminate E.
Qed.

(** [parentFolder] of a name without a trailing separator. *)
Lemma parentFolder_plain (Y : string) (c : ascii) :
  last_char Y = Some c -> c <> slash ->
  parentFolder Y = match last_index_of slash Y with
                   | Some i => if Nat.ltb 0 i then js_substring Y 0 i else ""
                   | None => "" end.
Proof. unfold parentFolder. intros -> Hc. by destruct (Ascii.eqb_spec c slash). Qed.

Lemma parentFolder_slash (Y : string) (c : ascii) :
  last_char Y = Some c -> c <> slash -> parentFolder (Y ++ "/") = parentFolder Y.
Proof.
  intros Hc Hcs. rewrite (parentFolder_plain Y c) by done.
  unfold parentFolder. rewrite last_char_app by done.
  change (last_char "/") with (Some slash). cbv iota beta.
  rewrite Ascii.eqb_refl, js_substring_0, str_length_app.
  cbn [String.length].
  by rewrite Nat.add_sub, str_take_app_length.
Qed.

(** The parent of an entry [P ++ nm] or [P ++ nm ++ "/"] is [P] without
    its separator. *)
Lemma parentFolder_entry (P nm X : string) :
  prefix_ok P -> name_ok nm -> (X = "" \/ X = "/") ->
  forceTrailingSlash (parentFolder (P ++ nm ++ X)) = P \/ (P = "" /\ parentFolder (nm ++ X) = "").
Proof.
  intros HP Hn HX. destruct (last_char_name nm Hn) as (c & Hc & Hcs).
  assert (Hpl : parentFolder ((P ++ nm) ++ X) = parentFolder (P ++ nm)).
  { destruct HX as [-> | ->]; [by rewrite str_app_nil_r|].
    apply (parentFolder_slash _ c); [by rewrite last_char_app by apply Hn | done]. }
  rewrite <- str_app_assoc, Hpl. destruct HP as [->|(q & c' & -> & Hq & Hqs)].
  - right. split; [done|]. cbn [append]. destruct HX as [-> | ->].
    + rewrite str_app_nil_r, (parentFolder_plain _ c), last_index_of_none by (done || apply Hn). done.
    + rewrite (parentFolder_slash _ c), (parentFolder_plain _ c), last_index_of_none by (done || apply Hn). done.
  - left. rewrite (parentFolder_plain _ c) by (try rewrite last_char_app by apply Hn; done).
    rewrite !str_app_assoc. change ("/" ++ nm) with (String slash nm).
    rewrite last_index_of_app by apply Hn.
    assert (Hq0 : Nat.ltb 0 (String.length q) = true) by (destruct q; done).
    rewrite Hq0, js_substring_0, str_take_app_length.
    unfold forceTrailingSlash. rewrite Hq. by destruct (Ascii.eqb_spec c' slash).
Qed.

(** Adding an entry under a present folder adds no parent. *)
Lemma ensureParents_present (P nm X : string) (s : Store) :
  prefix_ok P -> (P = "" \/ zget P s <> None) -> name_ok nm -> (X = "" \/ X = "/") ->
  ensureParents (String.length (P ++ nm ++ X)) (P ++ nm ++ X) s = s.
Proof.
  intros HP Hin Hn HX.
  destruct (String.length (P ++ nm ++ X)) as [|f] eqn:Hl.
  { rewrite !str_length_app in Hl. destruct nm; [by destruct Hn as [[] _] | simpl in Hl; lia]. }
  cbn [ensureParents]. destruct (parentFolder_entry P nm X HP Hn HX) as [Hp|[-> Hp]].
  - destruct (String.eqb_spec (parentFolder (P ++ nm ++ X)) "") as [E|]; [done|].
    rewrite Hp. destruct Hin as [->|Hin]; [by destruct (fts_nonempty _ Hp)|]. by destruct (zget P s).
  - change ("" ++ nm ++ X) with (nm ++ X). by rewrite Hp.
Qed.

Lemma fileAdd_fresh (P nm X : string) (v : ZipEntry) (s : Store) :
  prefix_ok P -> (P = "" \/ zget P s <> None) -> name_ok nm -> (X = "" \/ X = "/") ->
  zget (P ++ nm ++ X) s = None -> fileAdd (P ++ nm ++ X) v s = app s [(P ++ nm ++ X, v)].
Proof.
  intros. unfold fileAdd. rewrite ensureParents_present by done. by apply zset_fresh.
Qed.

(** ** Keys of the abstract archive *)

(** What follows a name in a key: nothing, or a separator. *)
Definition sep_tail (X : string) : Prop := X = "" \/ exists Y, X = String slash Y.

Lemma name_sep_inj (n1 n2 X1 X2 : string) :
  str_has slash n1 = false -> str_has slash n2 = false -> sep_tail X1 -> sep_tail X2 ->
  n1 ++ X1 = n2 ++ X2 -> n1 = n2.
Proof.
  revert n2. induction n1 as [|a n1 IH]; intros [|b n2] H1 H2 HX1 HX2 E; simpl in *; try done.
  - destruct HX1 as [->|[Y ->]]; [discriminate|]. injection E as Hb _.
    rewrite <- Hb in H2. simpl in H2; discriminate.
  - destruct HX2 as [->|[Y ->]]; [discriminate|]. injection E as Hb _.
    rewrite Hb in H1. simpl in H1; discriminate.
  - injection E as -> E. apply orb_false_iff in H1 as [_ H1], H2 as [_ H2].
    f_equal. eauto.
Qed.

Lemma entries_keys (n : DocNode) (P k : string) :
  In k (map fst (entries n P)) -> exists X, k = P ++ node_name n ++ X /\ sep_tail X.
Proof.
  revert P. induction n as [nm d x | nm d ch IH] using DocNode_ind'; intros P; simpl.
  - intros [<-|[]]. exists "". by rewrite str_app_nil_r; split; [|left].
  - intros [<-|Hin]; [exists "/"; split; [done | right; by exists ""]|].
    rewrite map_flat_map in Hin. apply in_flat_map in Hin as (c & Hc & Hk).
    rewrite List.Forall_forall in IH. destruct (IH c Hc _ Hk) as (X & -> & _).
    exists ("/" ++ node_name c ++ X). split; [by rewrite !str_app_assoc | right; eauto].
Qed.

Lemma names_nonempty_children (nm d : string) (ch : list DocNode) :
  names_nonempty (DocFolder nm d ch) = true ->
  nm <> "" /\ forall c, In c ch -> names_nonempty c = true.
Proof.
  simpl. intros [Hn Hc]%andb_prop. split; [by destruct (String.eqb_spec nm "")|].
  by apply forallb_forall.
Qed.

Lemma name_ok_of (n : DocNode) :
  wf_doc n = true -> names_nonempty n = true -> name_ok (node_name n).
Proof.
  intros Hw Hn. split; [|by apply wf_doc_name].
  destruct n as [nm ? ?|nm ? ?]; simpl in Hn; apply andb_prop in Hn as [Hn _];
    by destruct (String.eqb_spec nm "").
Qed.

(** Siblings with distinct names have disjoint keys. *)
Lemma NoDup_siblings (P : string) (l : list DocNode) :
  names_unique (map node_name l) = true ->
  (forall c, In c l -> str_has slash (node_name c) = false /\ NoDup (map fst (entries c P))) ->
  NoDup (flat_map (fun c => map fst (entries c P)) l).
Proof.
  induction l as [|c l IH]; simpl; [constructor|]. intros [Hn Hu]%andb_prop Hc.
  apply NoDup_app. split; [by apply Hc; left|]. split; [|apply IH; auto].
  intros k Hk1 Hk2. apply list_elem_of_In in Hk1, Hk2. apply in_flat_map in Hk2 as (c' & Hc' & Hk2).
  destruct (entries_keys _ _ _ Hk1) as (X1 & -> & HX1), (entries_keys _ _ _ Hk2) as (X2 & E & HX2).
  apply str_app_inv_l, name_sep_inj in E; [|by apply Hc; left|by apply Hc; right|done|done].
  apply negb_true_iff in Hn. rewrite (proj2 (existsb_exists _ _)) in Hn; [done|].
  exists (node_name c'). split; [by apply in_map | by rewrite E, String.eqb_refl].
Qed.

Lemma entries_nodup (n : DocNode) (P : string) :
  wf_doc n = true -> names_nonempty n = true -> NoDup (map fst (entries n P)).
Proof.
  revert P. induction n as [nm d x | nm d ch IH] using DocNode_ind'; intros P Hw Hne.
  - repeat constructor. apply not_elem_of_nil.
  - apply wf_doc_children in Hw as Hwc. destruct Hwc as [Hu Hwc].
    apply names_nonempty_children in Hne as [Hnm Hnc]. rewrite List.Forall_forall in IH.
    simpl. apply NoDup_cons. split.
    + rewrite map_flat_map. intros Hin%list_elem_of_In. apply in_flat_map in Hin as (c & Hc & Hk).
      destruct (entries_keys _ _ _ Hk) as (X & E & _).
      rewrite <- (str_app_nil_r (P ++ nm ++ "/")), !str_app_assoc in E at 1.
      apply str_app_inv_l, str_app_inv_l, str_app_inv_l in E. cbn in E.
      apply (f_equal String.length) in E. rewrite str_length_app in E.
      destruct (name_ok_of c (Hwc c Hc) (Hnc c Hc)) as [Hcn _].
      destruct (node_name c); [done | simpl in E; lia].
    + rewrite map_flat_map. apply NoDup_siblings; [done|]. intros c Hc. split.
      * by apply wf_doc_name, Hwc.
      * by apply IH; [| apply Hwc | apply Hnc].
Qed.

(** ** [addNodeToZip] builds the abstract archive *)

(** The [forEach] over the children of a folder at [P'] appends their
    entries, one child after the other, when no key is present yet. *)
Lemma fold_children (P' : string) (l : list DocNode) (acc : Store) :
  (forall c, In c l -> forall s, zget P' s <> None ->
     (forall k, k ∈ map fst (entries c P') -> zget k s = None) ->
     addNodeToZip c (mkJSZip P') s = app s (entries c P')) ->
  zget P' acc <> None ->
  NoDup (flat_map (fun c => map fst (entries c P')) l) ->
  (forall k, k ∈ flat_map (fun c => map fst (entries c P')) l -> zget k acc = None) ->
  fold_left (fun acc child => addNodeToZip child (mkJSZip P') acc) l acc =
  app acc (flat_map (fun c => entries c P') l).
Proof.
  revert acc. induction l as [|c l IH]; intros acc Hc HP Hnd Hfr; simpl; [by rewrite app_nil_r|].
  apply NoDup_app in Hnd as (Hnd1 & Hdis & Hnd2).
  rewrite (Hc c (or_introl eq_refl)) by (done || (intros k Hk; apply Hfr, elem_of_app; by left)).
  rewrite IH, app_assoc; [done | intros c' Hc'; exact (Hc c' (or_intror Hc')) | | done |].
  - rewrite zget_app. by destruct (zget P' acc).
  - intros k Hk. rewrite zget_app, Hfr by (apply elem_of_app; by right).
    apply zget_notin. intros Hk'. by apply (Hdis k).
Qed.

Lemma addNodeToZip_entries (n : DocNode) (P : string) (s : Store) :
  wf_doc n = true -> names_nonempty n = true -> prefix_ok P -> (P = "" \/ zget P s <> None) ->
  (forall k, k ∈ map fst (entries n P) -> zget k s = None) ->
  addNodeToZip n (mkJSZip P) s = app s (entries n P).
Proof.
  revert P s. induction n as [nm d x | nm d ch IH] using DocNode_ind'; intros P s Hw Hne HP Hin Hfr.
  - pose proof (name_ok_of _ Hw Hne) as Hn. cbn [addNodeToZip file root].
    pose proof (fileAdd_fresh P nm "" (ZFile x) s HP Hin Hn (or_introl eq_refl)) as E.
    rewrite str_app_nil_r in E. apply E, Hfr. by apply list_elem_of_singleton.
  - pose proof (name_ok_of _ Hw Hne) as Hn. pose proof (entries_nodup _ P Hw Hne) as Hnd.
    cbn [entries map fst] in Hnd. apply NoDup_cons in Hnd as [Hnot Hnd].
    apply wf_doc_children in Hw as [_ Hwc]. apply names_nonempty_children in Hne as [Hnm Hnc].
    rewrite List.Forall_forall in IH.
    cbn [addNodeToZip]. unfold folder. cbn [root]. destruct (String.eqb_spec nm "") as [|_]; [done|].
    unfold folderAdd. rewrite !fts_name by done.
    assert (H0 : zget (P ++ nm ++ "/") s = None) by (apply Hfr, elem_of_cons; by left).
    rewrite H0, (fileAdd_fresh P nm "/") by (done || by right).
    rewrite fold_children.
    + cbn [entries]. by rewrite <- app_assoc.
    + intros c Hc s' HP' Hfr'. apply IH; [done | by apply Hwc | by apply Hnc | | by right | done].
      by apply prefix_ok_child.
    + rewrite zget_app, H0. simpl. by rewrite String.eqb_refl.
    + by rewrite <- map_flat_map.
    + intros k Hk. rewrite zget_app, Hfr.
      * simpl. destruct (String.eqb_spec (P ++ nm ++ "/") k) as [<-|]; [|done].
        exfalso. apply Hnot. by rewrite map_flat_map.
      * cbn [entries map fst]. apply elem_of_cons. right. by rewrite map_flat_map.
Qed.

(** ** The archive and the store's paths *)

Lemma path_of_app_l (a b : string) (segs : list string) :
  path_of (a ++ b) segs = a ++ path_of b segs.
Proof. unfold path_of. destruct segs; [done|]. rewrite !js_join_cons2. apply str_app_assoc. Qed.

Lemma path_of_child (P nm seg : string) (rest : list string) :
  P ++ path_of nm (seg :: rest) = (P ++ nm ++ "/") ++ path_of seg rest.
Proof. rewrite path_of_cons, !path_of_app_l. by rewrite !str_app_assoc. Qed.

Lemma zip_files_In (s : Store) (k c : string) : In (k, c) (zip_files s) <-> In (k, ZFile c) s.
Proof.
  induction s as [|[k' [|c']] s IH]; simpl; [done| |]; rewrite IH.
  - split; [by right | intros [[=]|?]; done].
  - split; (intros [[= -> ->]|?]; [by left | by right]).
Qed.

Lemma zip_files_app (s t : Store) : zip_files (app s t) = app (zip_files s) (zip_files t).
Proof. induction s as [|[k [|c]] s IH]; simpl; by rewrite ?IH. Qed.

Lemma zip_files_flat_map {A} (f : A -> Store) (l : list A) :
  zip_files (flat_map f l) = flat_map (fun x => zip_files (f x)) l.
Proof. induction l as [|x l IH]; simpl; [done|]. by rewrite zip_files_app, IH. Qed.

(** The file entries of a node are the files its walks reach, each at its
    path below [P]. *)
Lemma entries_walk (n : DocNode) (P k c : string) :
  wf_doc n = true ->
  In (k, ZFile c) (entries n P) <->
  exists segs nm d, walk n segs = Some (DocFile nm d c) /\ k = P ++ path_of (node_name n) segs.
Proof.
  intros Hw. split.
  - revert P Hw. induction n as [nm d x | nm d ch IH] using DocNode_ind'; intros P Hw; simpl.
    + intros [[= <- <-]|[]]. by exists [], nm, d.
    + intros [[=]|Hin]. apply in_flat_map in Hin as (ch0 & Hc & Hk).
      apply wf_doc_children in Hw as [Hu Hwc]. rewrite List.Forall_forall in IH.
      destruct (IH ch0 Hc _ (Hwc _ Hc) Hk) as (segs & nm' & d' & Hwk & ->).
      exists (node_name ch0 :: segs), nm', d'. simpl. rewrite names_unique_find by done.
      split; [done|]. by rewrite path_of_child.
  - intros (segs & nm & d & Hwk & ->). clear Hw. revert n P Hwk.
    induction segs as [|seg rest IH]; intros n P Hwk; simpl in Hwk.
    + injection Hwk as ->. simpl. by left.
    + destruct n as [fnm fd ch|]; [|done].
      destruct (List.find _ ch) as [next|] eqn:Hf; [|done].
      apply List.find_some in Hf as [Hin Hn]. apply String.eqb_eq in Hn.
      simpl. right. apply in_flat_map. exists next. split; [done|].
      rewrite path_of_child, <- Hn. by apply IH.
Qed.

(** In a well-formed tree, the path of a successful walk resolves to its
    node; conversely every resolved path is such a path. *)
Lemma findNodeByPath_walk (t : DocNode) (segs : list string) (m : DocNode) :
  wf_doc t = true -> node_name t <> "" -> walk t segs = Some m ->
  findNodeByPath t (path_of (node_name t) segs) = Some m.
Proof.
  intros Hw Hne Hwk. destruct (walk_segs_clean _ _ _ Hw Hwk) as [Hcl _].
  unfold findNodeByPath. destruct (String.eqb_spec (path_of (node_name t) segs) "") as [E|_].
  - exfalso. apply Hne. unfold path_of in E. destruct segs; [done|].
    rewrite js_join_cons2 in E. by apply str_app_eq_nil in E as [-> _].
  - unfold path_of. rewrite js_split_join; [by rewrite String.eqb_refl | done |].
    constructor; [by apply wf_doc_name | done].
Qed.

Lemma findNodeByPath_inv (t : DocNode) (p : string) (m : DocNode) :
  findNodeByPath t p = Some m ->
  exists segs, walk t segs = Some m /\ p = path_of (node_name t) segs.
Proof.
  unfold findNodeByPath. destruct (p ==ₛ ""); [done|].
  destruct (js_split slash p) as [|seg0 rest] eqn:Hs; [done|].
  destruct (String.eqb_spec (node_name t) seg0) as [->|]; [|done].
  intros Hwk. exists rest. split; [done|]. by rewrite (path_of_split p seg0 rest Hs).
Qed.

(** The file paths of the archive of a node, in order, are the paths
    [getFileTree] lists. *)
Lemma entries_getFileTree (n : DocNode) (path : string) :
  names_nonempty n = true ->
  map fst (zip_files (entries n (if path ==ₛ "" then "" else path ++ "/"))) = getFileTree n path.
Proof.
  revert path. induction n as [nm d x | nm d ch IH] using DocNode_ind'; intros path Hne.
  - simpl. destruct (path ==ₛ ""); [done | by rewrite str_app_assoc].
  - apply names_nonempty_children in Hne as [Hnm Hnc]. rewrite List.Forall_forall in IH.
    cbn [entries zip_files getFileTree node_name].
    rewrite zip_files_flat_map, map_flat_map.
    apply flat_map_ext_In. intros c Hc. rewrite <- IH by auto. do 2 f_equal.
    destruct (String.eqb_spec path "") as [->|Hp].
    + destruct (String.eqb_spec nm "") as [|_]; done.
    + destruct (String.eqb_spec (path ++ "/" ++ nm) "") as [E|_].
      * by apply str_app_eq_nil in E as [E _].
      * by rewrite !str_app_assoc.
Qed.

(** ** The download *)

Lemma scaffold_entries (t : DocNode) :
  root_wf t = true -> names_nonempty t = true -> snd (handleDownloadScaffold t) = entries t "".
Proof.
  intros [_ Hw]%andb_prop Hne. apply addNodeToZip_entries; [done | done | by left | by left |].
  done.
Qed.

(** C27 (refinement). The downloaded archive refines the document store:
    on a well-formed tree with no empty name, [(p, c)] is a file entry of
    the archive exactly when [findNodeByPath] resolves [p] to a file whose
    content is [c]. *)
Theorem archive_refines (t : DocNode) (p c : string) :
  root_wf t = true -> names_nonempty t = true ->
  In (p, c) (zip_files (snd (handleDownloadScaffold t))) <->
  file_content (findNodeByPath t p) = Some c.
Proof.
  intros Hr Hne. rewrite scaffold_entries, zip_files_In, entries_walk by (done || by apply andb_prop in Hr as [_ ?]).
  apply andb_prop in Hr as [_ Hw]. split.
  - intros (segs & nm & d & Hwk & ->). cbn [append].
    by rewrite (findNodeByPath_walk t segs _ Hw (proj1 (name_ok_of t Hw Hne)) Hwk).
  - destruct (findNodeByPath t p) as [[|nm d x]|] eqn:Hf; intros [=<-].
    destruct (findNodeByPath_inv _ _ _ Hf) as (segs & Hwk & ->). by exists segs, nm, d.
Qed.

(** C28 (functional). On a well-formed tree with no empty name, the file
    entries of the archive are the paths [getFileTree] lists (the file list
    of the system instruction), in the same order, and no key of the
    archive is written twice. *)
Theorem archive_order (t : DocNode) :
  root_wf t = true -> names_nonempty t = true ->
  map fst (zip_files (snd (handleDownloadScaffold t))) = getFileTree t "" /\
  NoDup (map fst (snd (handleDownloadScaffold t))).
Proof.
  intros Hr Hne. rewrite scaffold_entries by done. apply andb_prop in Hr as [_ Hw]. split.
  - exact (entries_getFileTree t "" Hne).
  - by apply entries_nodup.
Qed.

Lemma archive_refines_witness :
  root_wf documentationStructure = true /\ names_nonempty documentationStructure = true /\
  (In ("docs/README.md",
       match file_content (findNodeByPath documentationStructure "docs/README.md") with
       | Some c => c | None => "" end)
     (zip_files (snd (handleDownloadScaffold documentationStructure)))).
Proof.
  assert (Hr : root_wf documentationStructure = true) by (vm_compute; reflexivity).
  assert (Hn : names_nonempty documentationStructure = true) by (vm_compute; reflexivity).
  split; [exact Hr | split; [exact Hn |]].
  apply (proj2 (archive_refines documentationStructure "docs/README.md" _ Hr Hn)).
  vm_compute. reflexivity.
Defined.

Lemma archive_order_witness :
  map fst (zip_files (snd (handleDownloadScaffold documentationStructure))) =
  getFileTree documentationStructure "" /\
  NoDup (map fst (snd (handleDownloadScaffold documentationStructure))).
Proof.
  exact (archive_order documentationStructure (eq_refl true) (eq_refl true)).
Defined.

End Archive.
