(* ===== verification/Download.v ===== *)
(** * The download: [saveAs] of [src/utils.ts] over a model of the page

    [handleDownloadScaffold] of [src/App.tsx] hands the generated archive
    to [saveAs(blob, filename)], which creates an anchor element, points it
    at an object URL of the blob, attaches it to [document.body], clicks
    it, detaches it and revokes the URL.  The page is modelled by what
    these calls read and write: the children of the body, the anchors
    created so far, the live object URLs and the downloads the browser has
    started.  The blob is a parameter: [generateAsync] only serialises the
    store, so the archive's blob is its store. *)

From stdpp Require Import gmap.
From S2P Require Import Prelude JsString DocTree Seed Archive.
Import DocTree Archive.

Module Download.

Section Page.
Context {Blob : Type}.

(** An anchor: its [href] (an object URL, by its number, or none yet)
    and its [download] attribute. *)
Record Anchor := mkAnchor { a_href : option nat; a_download : string }.

Record Page := mkPage {
  body : list nat;                  (** the children of [document.body] *)
  anchors : gmap nat Anchor;        (** the elements created, by number *)
  next_elem : nat;
  urls : gmap nat Blob;             (** the live object URLs *)
  next_url : nat;
  downloads : list (string * Blob)  (** the downloads started, in order *)
}.

(** [document.createElement('a')]. *)
Definition createElement (d : Page) : nat * Page :=
  let e := next_elem d in
  (e, mkPage (body d) (<[e := mkAnchor None ""]> (anchors d)) (S e) (urls d) (next_url d) (downloads d)).

(** [URL.createObjectURL(blob)]. *)
Definition createObjectURL (b : Blob) (d : Page) : nat * Page :=
  let u := next_url d in
  (u, mkPage (body d) (anchors d) (next_elem d) (<[u := b]> (urls d)) (S u) (downloads d)).

Definition set_anchor (e : nat) (f : Anchor -> Anchor) (d : Page) : Page :=
  mkPage (body d) (alter f e (anchors d)) (next_elem d) (urls d) (next_url d) (downloads d).

(** [link.href = url] and [link.download = filename]. *)
Definition set_href (e u : nat) : Page -> Page :=
  set_anchor e (fun a => mkAnchor (Some u) (a_download a)).
Definition set_download (e : nat) (name : string) : Page -> Page :=
  set_anchor e (fun a => mkAnchor (a_href a) name).

(** [document.body.appendChild(link)]: a node already attached moves to
    the end. *)
Definition appendChild (e : nat) (d : Page) : Page :=
  mkPage (filter (fun x => x <> e) (body d) ++ [e]) (anchors d) (next_elem d) (urls d) (next_url d)
    (downloads d).

(** [link.click()]: the browser downloads what the anchor points at, under
    its [download] name, when it points at a live object URL. *)
Definition click (e : nat) (d : Page) : Page :=
  match anchors d !! e with
  | Some (mkAnchor (Some u) name) =>
      match urls d !! u with
      | Some b => mkPage (body d) (anchors d) (next_elem d) (urls d) (next_url d) (downloads d ++ [(name, b)])
      | None => d
      end
  | _ => d
  end.

(** [document.body.removeChild(link)]: a [NotFoundError] when the node is
    not a child of the body. *)
Definition removeChild (e : nat) (d : Page) : string + Page :=
  if decide (e ∈ body d) then
    inr (mkPage (filter (fun x => x <> e) (body d)) (anchors d) (next_elem d) (urls d) (next_url d)
      (downloads d))
  else inl "NotFoundError: The node to be removed is not a child of this node.".

(** [URL.revokeObjectURL(link.href)]. *)
Definition revokeObjectURL (e : nat) (d : Page) : Page :=
  match anchors d !! e with
  | Some (mkAnchor (Some u) _) =>
      mkPage (body d) (anchors d) (next_elem d) (delete u (urls d)) (next_url d) (downloads d)
  | _ => d
  end.

(** [saveAs(blob, filename)], lines 5 to 13. *)
Definition saveAs (blob : Blob) (filename : string) (d : Page) : string + Page :=
  let '(link, d1) := createElement d in
  let '(u, d2) := createObjectURL blob d1 in
  let d3 := set_download link filename (set_href link u d2) in
  let d4 := click link (appendChild link d3) in
  (d5 ←ₑ removeChild link d4; inr (revokeObjectURL link d5))%ax.

(** The page's numbering is ahead of what it holds. *)
Definition page_wf (d : Page) : Prop :=
  Forall (fun x => x < next_elem d) (body d) /\
  (forall e, e ∈ dom (anchors d) -> e < next_elem d) /\
  (forall u, u ∈ dom (urls d) -> u < next_url d).

End Page.

Arguments Page : clear implicits.

(** [zip.generateAsync({ type: "blob" }).then(content => saveAs(content,
    "mon_super_projet_docs.zip"))] of [handleDownloadScaffold]. *)
Definition download_scaffold (docStructure : DocNode) (d : Page Store) : string + Page Store :=
  let '(name, blob) := handleDownloadScaffold docStructure in saveAs blob name d.

(** ** What [saveAs] does to the page *)

Section Facts.
Context {Blob : Type}.
Implicit Types (d : Page Blob) (b : Blob).

Lemma filter_fresh (l : list nat) (e : nat) :
  Forall (fun x => x < e) l -> filter (fun x => x <> e) l = l.
Proof.
  induction 1 as [|x l Hx _ IH]; [done|].
  rewrite filter_cons_True by lia. by rewrite IH.
Qed.

Lemma fresh_not_in_dom {A} (m : gmap nat A) (n : nat) :
  (forall k, k ∈ dom m -> k < n) -> m !! n = None.
Proof.
  intros H. apply not_elem_of_dom. intros Hn. specialize (H n Hn). lia.
Qed.

(** The page after [saveAs b name]: a new anchor and a new download, and
    nothing else changed that the page shows. *)
Lemma saveAs_page d b (name : string) :
  page_wf d ->
  saveAs b name d =
  inr (mkPage (body d) (<[next_elem d := mkAnchor (Some (next_url d)) name]> (anchors d))
         (S (next_elem d)) (urls d) (S (next_url d)) (downloads d ++ [(name, b)])).
Proof.
  intros (Hb & Ha & Hu). unfold saveAs, createElement, createObjectURL, set_download, set_href,
    set_anchor, appendChild, click, removeChild, revokeObjectURL. cbn [body anchors next_elem urls next_url downloads].
  rewrite !alter_insert_eq, lookup_insert_eq. cbn [a_download a_href]. rewrite lookup_insert_eq.
  rewrite filter_fresh by done. rewrite decide_True by set_solver. cbn [sbind].
  cbn [body anchors next_elem urls next_url downloads].
  rewrite filter_app, filter_fresh by done. rewrite (filter_singleton_False _ _ []) by (intros H; by apply H).
  rewrite app_nil_r, lookup_insert_eq, delete_insert_id by (apply fresh_not_in_dom; exact Hu).
  done.
Qed.

Lemma saveAs_wf d b (name : string) (d' : Page Blob) :
  page_wf d -> saveAs b name d = inr d' -> page_wf d'.
Proof.
  intros Hwf. rewrite saveAs_page by done. intros [= <-].
  destruct Hwf as (Hb & Ha & Hu). split_and!; cbn.
  - eapply Forall_impl; [exact Hb|]. cbn. lia.
  - intros e. rewrite dom_insert_L, elem_of_union, elem_of_singleton.
    intros [->|He]; [lia|]. specialize (Ha e He). lia.
  - intros u Hu'. specialize (Hu u Hu'). lia.
Qed.

End Facts.

(** The page of a fresh document: an empty body, nothing created yet. *)
Definition blank_page {Blob} : Page Blob := mkPage [] ∅ 0 ∅ 0 [].

(** C25 (functional). The download button starts exactly one download,
    named [mon_super_projet_docs.zip], of the archive [addNodeToZip] wrote
    for the tree, and leaves the page as it found it: the anchor [saveAs]
    attached is detached again and the object URL it created is revoked,
    so no element and no blob stays behind; the page stays well numbered
    for the next download. *)
Theorem download_scaffold_once (t : DocNode) (d : Page Store) :
  page_wf d ->
  exists d', download_scaffold t d = inr d' /\
    downloads d' = (downloads d ++ [(scaffold_file_name, addNodeToZip t (mkJSZip "") [])])%list /\
    body d' = body d /\ urls d' = urls d /\ page_wf d'.
Proof.
  intros Hwf. unfold download_scaffold, handleDownloadScaffold.
  pose proof (saveAs_wf d (addNodeToZip t (mkJSZip "") []) scaffold_file_name) as Hw.
  rewrite saveAs_page in * by done. eexists. split_and!; [done..|]. by apply Hw.
Qed.

Lemma download_scaffold_once_witness :
  exists d', download_scaffold documentationStructure blank_page = inr d' /\
    downloads d' = [(scaffold_file_name, addNodeToZip documentationStructure (mkJSZip "") [])] /\
    body d' = [] /\ urls d' = ∅ /\ page_wf d'.
Proof.
  apply (download_scaffold_once documentationStructure blank_page).
  split_and!; [apply Forall_nil | intros e; cbn; rewrite dom_empty_L; set_solver | intros u; cbn; rewrite dom_empty_L; set_solver].
  all: done.
Defined.

End Download.
