(* ===== verification/Json.v ===== *)
(** * JSON values and the JavaScript operations the code applies to them

    The model's reply carries a JSON object that [JSON.parse] turns into a
    JavaScript value; the code then reads properties of it, tests their
    truthiness ([!x]) and their [typeof], and appends them to strings.
    [JSON.parse] is a built-in of the runtime: the code of the repository
    only relies on it through the interface [JsonParse]; the instance
    [parse_json] below is an executable parser, written from ECMA-404, for
    the subset used here (numbers are integers: a fraction or an exponent is
    reported as a syntax error). *)

From Stdlib Require Import ZArith DecimalString.
From S2P Require Import Prelude JsString.

Module Json.

#[warnings="-register-all"]
Inductive json : Type :=
| JNull
| JBool (b : bool)
| JNum (n : Z)
| JStr (s : string)
| JArr (xs : list json)
| JObj (fields : list (string * json)).

(** A property read [v.k]: [None] is [undefined]; reading a property of
    [null] or [undefined] throws a TypeError, which is [inl]. *)
Definition type_error (k : string) : string :=
  "Cannot read properties of null (reading '" ++ k ++ "')".

Fixpoint assoc_last (k : string) (fs : list (string * json)) : option json :=
  match fs with
  | [] => None
  | (k', v) :: fs' =>
      match assoc_last k fs' with
      | Some w => Some w
      | None => if k' ==ₛ k then Some v else None
      end
  end.

Definition get_prop (o : option json) (k : string) : string + option json :=
  match o with
  | None | Some JNull => inl (type_error k)
  | Some (JObj fs) => inr (assoc_last k fs)
  | Some _ => inr None
  end.

Definition z_to_string (n : Z) : string :=
  let digits_of (m : N) := NilEmpty.string_of_uint (N.to_uint m) in
  match n with
  | Zneg p => "-" ++ digits_of (Npos p)
  | _ => digits_of (Z.to_N n)
  end.

(** [v[i]]: the element of an array, the character of a string, the
    property named by the digits of [i] of an object. *)
Definition get_index (o : option json) (i : nat) : string + option json :=
  match o with
  | None | Some JNull => inl (type_error (z_to_string (Z.of_nat i)))
  | Some (JArr xs) => inr (nth_error xs i)
  | Some (JStr s) => inr (option_map (fun c => JStr (String c EmptyString)) (String.get i s))
  | Some (JObj fs) => inr (assoc_last (z_to_string (Z.of_nat i)) fs)
  | Some _ => inr None
  end.

(** JavaScript truthiness: [undefined], [null], [false], [0] and [""] are
    falsy. *)
Definition truthy (o : option json) : bool :=
  match o with
  | None | Some JNull | Some (JBool false) => false
  | Some (JNum n) => negb (Z.eqb n 0)
  | Some (JStr s) => negb (s ==ₛ "")
  | _ => true
  end.

(** [typeof v === 'boolean']. *)
Definition is_boolean (o : option json) : bool :=
  match o with Some (JBool _) => true | _ => false end.

(** ** The interface [JSON.parse]: an error message or a value. *)
Class JsonParse := json_parse : string -> string + json.

(** ** An executable parser *)

Definition is_json_ws (c : ascii) : bool :=
  match nat_of_ascii c with 9 | 10 | 13 | 32 => true | _ => false end.

Fixpoint skip_ws (s : string) : string :=
  match s with
  | String c s' => if is_json_ws c then skip_ws s' else s
  | EmptyString => EmptyString
  end.

Definition digit_val (c : ascii) : option Z :=
  let n := nat_of_ascii c in
  if (48 <=? n)%nat && (n <=? 57)%nat then Some (Z.of_nat (n - 48)) else None.

(** The digits of a number: the value and the rest. *)
Fixpoint digits (acc : Z) (s : string) : Z * string :=
  match s with
  | String c s' =>
      match digit_val c with Some d => digits (acc * 10 + d) s' | None => (acc, s) end
  | EmptyString => (acc, s)
  end.

Definition syntax_error (what : string) : string := "SyntaxError: " ++ what.

(** The error the parser returns when it runs out of fuel.  [JSON.parse]
    has no such error: the fuel only makes the recursion structural. *)
Definition input_too_deep : string := syntax_error "input too deep".


(** After the digits: a fraction or an exponent is outside the subset. *)
Definition number_end (rest : string) (v : json) : string + (json * string) :=
  match rest with
  | String "."%char _ | String "e"%char _ | String "E"%char _ =>
      inl (syntax_error "number outside the integer subset")
  | _ => inr (v, rest)
  end.

Definition parse_number (s : string) : string + (json * string) :=
  let '(neg, s1) := match s with String "-"%char s' => (true, s') | _ => (false, s) end in
  match s1 with
  | String c s2 =>
      match digit_val c with
      | None => inl (syntax_error "Unexpected token")
      | Some d =>
          let '(n, rest) := if Z.eqb d 0 then (0%Z, s2) else digits d s2 in
          number_end rest (JNum (if neg then Z.opp n else n))
      end
  | EmptyString => inl (syntax_error "Unexpected end of JSON input")
  end.

Definition quote : ascii := "034"%char.
Definition backslash : ascii := "092"%char.

Definition hex_val (c : ascii) : option nat :=
  let n := nat_of_ascii c in
  if Nat.leb 48 n && Nat.leb n 57 then Some (n - 48)
  else if Nat.leb 97 n && Nat.leb n 102 then Some (n - 87)
  else if Nat.leb 65 n && Nat.leb n 70 then Some (n - 55)
  else None.

Definition hex4 (a b c d : ascii) : option nat :=
  match hex_val a, hex_val b, hex_val c, hex_val d with
  | Some x, Some y, Some z, Some w => Some (((x * 16 + y) * 16 + z) * 16 + w)
  | _, _, _, _ => None
  end.

Definition simple_escape (e : ascii) : option ascii :=
  match nat_of_ascii e with
  | 34 => Some quote | 92 => Some backslash | 47 => Some "/"%char
  | 98 => Some (ascii_of_nat 8) | 102 => Some (ascii_of_nat 12)
  | 110 => Some (ascii_of_nat 10) | 114 => Some (ascii_of_nat 13)
  | 116 => Some (ascii_of_nat 9)
  | _ => None
  end.

Definition cons_res (c : ascii) (r : string + (string * string)) : string + (string * string) :=
  match r with inr (b, rest) => inr (String c b, rest) | inl e => inl e end.

(** The characters of a string literal after its opening quote. *)
Fixpoint parse_chars (s : string) : string + (string * string) :=
  match s with
  | EmptyString => inl (syntax_error "Unterminated string in JSON")
  | String c s' =>
      if Ascii.eqb c quote then inr (EmptyString, s')
      else if Ascii.eqb c backslash then
        match s' with
        | String "u"%char (String h1 (String h2 (String h3 (String h4 s4)))) =>
            match hex4 h1 h2 h3 h4 with
            | Some n =>
                if Nat.ltb n 256 then cons_res (ascii_of_nat n) (parse_chars s4)
                else inl (syntax_error "code unit outside the 8-bit model")
            | None => inl (syntax_error "Bad Unicode escape")
            end
        | String e s2 =>
            match simple_escape e with
            | Some ch => cons_res ch (parse_chars s2)
            | None => inl (syntax_error "Bad escaped character")
            end
        | EmptyString => inl (syntax_error "Unterminated string in JSON")
        end
      else if Nat.ltb (nat_of_ascii c) 32 then inl (syntax_error "Bad control character")
      else cons_res c (parse_chars s')
  end.

Fixpoint parse_value (fuel : nat) (s : string) : string + (json * string) :=
  match fuel with
  | O => inl input_too_deep
  | S f =>
      match skip_ws s with
      | String "n"%char (String "u"%char (String "l"%char (String "l"%char r))) => inr (JNull, r)
      | String "t"%char (String "r"%char (String "u"%char (String "e"%char r))) => inr (JBool true, r)
      | String "f"%char (String "a"%char (String "l"%char (String "s"%char (String "e"%char r)))) =>
          inr (JBool false, r)
      | String "["%char r =>
          match skip_ws r with
          | String c r' => if Ascii.eqb c "]"%char then inr (JArr [], r') else parse_elems f [] r
          | EmptyString => parse_elems f [] r
          end
      | String "{"%char r =>
          match skip_ws r with
          | String c r' => if Ascii.eqb c "}"%char then inr (JObj [], r') else parse_members f [] r
          | EmptyString => parse_members f [] r
          end
      | String c r =>
          if Ascii.eqb c quote then
            match parse_chars r with inr (b, r') => inr (JStr b, r') | inl e => inl e end
          else parse_number (String c r)
      | EmptyString => inl (syntax_error "Unexpected end of JSON input")
      end
  end
with parse_elems (fuel : nat) (acc : list json) (s : string) : string + (json * string) :=
  match fuel with
  | O => inl input_too_deep
  | S f =>
      match parse_value f s with
      | inl e => inl e
      | inr (v, r) =>
          match skip_ws r with
          | String ","%char r' => parse_elems f (acc ++ [v]) r'
          | String "]"%char r' => inr (JArr (acc ++ [v]), r')
          | _ => inl (syntax_error "Expected ',' or ']' after array element")
          end
      end
  end
with parse_members (fuel : nat) (acc : list (string * json)) (s : string)
    : string + (json * string) :=
  match fuel with
  | O => inl input_too_deep
  | S f =>
      match skip_ws s with
      | String c r =>
          if negb (Ascii.eqb c quote) then inl (syntax_error "Expected property name")
          else match parse_chars r with
          | inl e => inl e
          | inr (k, r1) =>
              match skip_ws r1 with
              | String ":"%char r2 =>
                  match parse_value f r2 with
                  | inl e => inl e
                  | inr (v, r3) =>
                      match skip_ws r3 with
                      | String ","%char r4 => parse_members f (acc ++ [(k, v)]) r4
                      | String "}"%char r4 => inr (JObj (acc ++ [(k, v)]), r4)
                      | _ => inl (syntax_error "Expected ',' or '}' after property value")
                      end
                  end
              | _ => inl (syntax_error "Expected ':' after property name")
              end
          end
      | EmptyString => inl (syntax_error "Unexpected end of JSON input")
      end
  end.

(** [JSON.parse(s)] with a given fuel: one value, then only white space. *)
Definition parse_json_fuel (fuel : nat) (s : string) : string + json :=
  match parse_value fuel s with
  | inl e => inl e
  | inr (v, r) =>
      if skip_ws r ==ₛ "" then inr v
      else inl (syntax_error "Unexpected non-whitespace character after JSON")
  end.

(** [JSON.parse(s)].  A call of [parse_value] reads a character before it
    recurses, and [parse_elems] calls [parse_value] on the text it was
    given, so each character costs at most two units: twice the length
    plus one is enough fuel ([Cycle.json_parse_terminates]). *)
Definition parse_json (s : string) : string + json :=
  parse_json_fuel (2 * String.length s + 1) s.

#[export] Instance json_parse_impl : JsonParse := parse_json.

(** ** [String(v)]: the conversion of [+=] on a string *)


Fixpoint js_to_string (v : json) : string :=
  match v with
  | JNull => "null"
  | JBool b => if b then "true" else "false"
  | JNum n => z_to_string n
  | JStr s => s
  | JArr xs =>
      js_join ","%char (map (fun x => match x with JNull => "" | _ => js_to_string x end) xs)
  | JObj _ => "[object Object]"
  end.

(** ** [JSON.stringify(v, null, 2)] *)

Definition hex_digit (n : nat) : ascii :=
  if Nat.ltb n 10 then ascii_of_nat (48 + n) else ascii_of_nat (87 + n).

(** QuoteJSONString of ECMA-262, one code unit. *)
Definition quote_char (c : ascii) : string :=
  let n := nat_of_ascii c in
  match n with
  | 8 => "\b" | 9 => "\t" | 10 => "\n" | 12 => "\f" | 13 => "\r"
  | 34 => String backslash (String quote EmptyString)
  | 92 => String backslash (String backslash EmptyString)
  | _ => if Nat.ltb n 32
         then "\u00" ++ String (hex_digit (n / 16)) (String (hex_digit (n mod 16)) EmptyString)
         else String c EmptyString
  end.

Fixpoint quote_body (s : string) : string :=
  match s with
  | EmptyString => EmptyString
  | String c s' => quote_char c ++ quote_body s'
  end.

Definition quote_json (s : string) : string := dq ++ quote_body s ++ dq.

Fixpoint json_pretty (ind : string) (v : json) : string :=
  let ind' := ind ++ "  " in
  match v with
  | JNull => "null"
  | JBool b => if b then "true" else "false"
  | JNum n => z_to_string n
  | JStr s => quote_json s
  | JArr [] => "[]"
  | JArr xs =>
      "[" ++ nl ++ ind' ++ String.concat ("," ++ nl ++ ind') (map (json_pretty ind') xs)
      ++ nl ++ ind ++ "]"
  | JObj [] => "{}"
  | JObj fs =>
      "{" ++ nl ++ ind' ++
      String.concat ("," ++ nl ++ ind')
        (map (fun kv => quote_json (fst kv) ++ ": " ++ json_pretty ind' (snd kv)) fs)
      ++ nl ++ ind ++ "}"
  end.

Definition json_stringify2 (v : json) : string := json_pretty "" v.

(** [JSON.stringify(v)]: no white space. *)
Fixpoint json_stringify (v : json) : string :=
  match v with
  | JNull => "null"
  | JBool b => if b then "true" else "false"
  | JNum n => z_to_string n
  | JStr s => quote_json s
  | JArr xs => "[" ++ String.concat "," (map json_stringify xs) ++ "]"
  | JObj fs =>
      "{" ++ String.concat "," (map (fun kv => quote_json (fst kv) ++ ":" ++ json_stringify (snd kv)) fs)
      ++ "}"
  end.

End Json.
