(* ===== verification/JsonFacts.v ===== *)
(** * The JSON round trip: [JSON.parse(JSON.stringify(v))]

    The executable parser [parse_json] of [Json] reads back every value
    that [json_stringify] prints, with the fuel it is given.  The settings of the application are stored
    with [JSON.stringify] and read back with [JSON.parse]; the round trip
    is what makes them survive a reload.  The proof goes up from the code
    units (every escape of [quote_char] is read back by [parse_chars]),
    through the decimal digits of [z_to_string], to arrays and objects.

    The second part shows that the fuel of [parse_json] is enough on every
    text: each call leaves a strictly shorter rest ([parse_progress]), so
    beyond twice the length plus one the result does not depend on the
    fuel ([parse_fuel_stable]) and is never the out-of-fuel error
    ([parse_not_too_deep]). *)

From Stdlib Require Import ZArith DecimalString DecimalPos DecimalFacts.
From S2P Require Import Prelude JsString Json.
Import Json.

Module JsonFacts.

(** ** Strings *)

(** Each escape is read back as its code unit (256 cases, by
    computation). *)
Lemma parse_chars_quote_char (c : ascii) (s : string) :
  parse_chars (quote_char c ++ s) = cons_res c (parse_chars s).
Proof.
  destruct c as [b0 b1 b2 b3 b4 b5 b6 b7].
  destruct b0, b1, b2, b3, b4, b5, b6, b7; reflexivity.
Qed.

Lemma parse_chars_quote_body (s rest : string) :
  parse_chars (quote_body s ++ String quote rest) = inr (s, rest).
Proof.
  induction s as [|c s IH]; [done|]. cbn [quote_body].
  by rewrite str_app_assoc, parse_chars_quote_char, IH.
Qed.

(** ** Numbers *)

(** What may follow a number: no digit, no fraction, no exponent. *)
Definition number_stop (rest : string) : bool :=
  match rest with
  | String "."%char _ | String "e"%char _ | String "E"%char _ => false
  | String c _ => match digit_val c with Some _ => false | None => true end
  | EmptyString => true
  end.

Lemma number_end_ok (rest : string) (v : json) :
  number_stop rest = true -> number_end rest v = inr (v, rest).
Proof.
  destruct rest as [|c r]; [done|].
  destruct c as [b0 b1 b2 b3 b4 b5 b6 b7]; destruct b0, b1, b2, b3, b4, b5, b6, b7; done.
Qed.

Lemma digits_stop (acc : Z) (rest : string) : number_stop rest = true -> digits acc rest = (acc, rest).
Proof.
  destruct rest as [|c r]; [done|]. intros H. cbn [digits].
  destruct (digit_val c) eqn:E; [|done]. exfalso.
  destruct c as [b0 b1 b2 b3 b4 b5 b6 b7]; destruct b0, b1, b2, b3, b4, b5, b6, b7; done.
Qed.

(** The digits of a decimal numeral accumulate as [Pos.of_uint_acc]. *)
Lemma digits_uint (d : Decimal.uint) (acc : positive) (rest : string) :
  number_stop rest = true ->
  digits (Zpos acc) (NilEmpty.string_of_uint d ++ rest) = (Zpos (Pos.of_uint_acc d acc), rest).
Proof.
  revert acc. induction d; intros acc Hr; cbn [NilEmpty.string_of_uint Pos.of_uint_acc append digits];
    unfold digit_val; simpl Nat.leb; simpl andb; cbv iota beta;
    [by apply digits_stop|..];
    match goal with |- digits ?a _ = (Zpos (Pos.of_uint_acc _ ?b), _) =>
      replace a with (Zpos b) by (simpl; lia) end; by apply IHd.
Qed.

(** The numeral of a positive number starts with a digit other than 0. *)
Lemma to_uint_not_D0 (p : positive) (l : Decimal.uint) : Pos.to_uint p <> Decimal.D0 l.
Proof.
  intros E. pose proof (DecimalPos.Unsigned.to_of (Pos.to_uint p)) as Hn.
  rewrite DecimalPos.Unsigned.of_to in Hn. change (N.to_uint (Npos p)) with (Pos.to_uint p) in Hn.
  rewrite E in Hn. unfold Decimal.unorm in Hn. cbn [Decimal.nzhead] in Hn.
  destruct (Decimal.nzhead l) eqn:Hz; [|by apply (nzhead_nonzero l l); rewrite Hz, Hn..].
  apply (DecimalPos.Unsigned.to_uint_nonzero p). by rewrite E, <- Hn.
Qed.

(** Evaluate [digit_val] at a literal. *)
Ltac eval_digit :=
  match goal with |- context [digit_val ?c] =>
    let v := eval vm_compute in (digit_val c) in change (digit_val c) with v; cbn iota beta zeta
  end.

Lemma parse_number_ok (n : Z) (rest : string) :
  number_stop rest = true -> parse_number (z_to_string n ++ rest) = inr (JNum n, rest).
Proof.
  intros Hr. destruct n as [|p|p]; unfold z_to_string.
  - cbn. by apply number_end_ok.
  - change (NilEmpty.string_of_uint (N.to_uint (Z.to_N (Zpos p)))) with
      (NilEmpty.string_of_uint (Pos.to_uint p)).
    pose proof (DecimalPos.Unsigned.of_to p) as Hp. pose proof (to_uint_not_D0 p) as H0.
    destruct (Pos.to_uint p) as [|l|l|l|l|l|l|l|l|l|l]; [done|by destruct (H0 l)|..];
      cbn [Pos.of_uint] in Hp; injection Hp as <-; cbn; eval_digit; rewrite (digits_uint _ _ _ Hr);
      by apply number_end_ok.
  - change (NilEmpty.string_of_uint (N.to_uint (Npos p))) with
      (NilEmpty.string_of_uint (Pos.to_uint p)).
    pose proof (DecimalPos.Unsigned.of_to p) as Hp. pose proof (to_uint_not_D0 p) as H0.
    destruct (Pos.to_uint p) as [|l|l|l|l|l|l|l|l|l|l]; [done|by destruct (H0 l)|..];
      cbn [Pos.of_uint] in Hp; injection Hp as <-; cbn; eval_digit; rewrite (digits_uint _ _ _ Hr);
      by apply number_end_ok.
Qed.

(** ** Values *)

(** Induction with a hypothesis on every element of an array and every
    member of an object. *)
Fixpoint json_ind' (P : json -> Prop)
    (Hnull : P JNull) (Hbool : forall b, P (JBool b)) (Hnum : forall n, P (JNum n))
    (Hstr : forall s, P (JStr s)) (Harr : forall xs, Forall P xs -> P (JArr xs))
    (Hobj : forall fs, Forall (fun kv => P (snd kv)) fs -> P (JObj fs)) (v : json) : P v :=
  match v with
  | JNull => Hnull
  | JBool b => Hbool b
  | JNum n => Hnum n
  | JStr s => Hstr s
  | JArr xs =>
      Harr xs ((fix go (l : list json) : Forall P l :=
                  match l with
                  | [] => List.Forall_nil _
                  | x :: l' =>
                      @List.Forall_cons json P x l' (json_ind' P Hnull Hbool Hnum Hstr Harr Hobj x) (go l')
                  end) xs)
  | JObj fs =>
      Hobj fs ((fix go (l : list (string * json)) : Forall (fun kv => P (snd kv)) l :=
                  match l with
                  | [] => List.Forall_nil _
                  | kv :: l' =>
                      @List.Forall_cons (string * json) (fun kv => P (snd kv)) kv l'
                        (json_ind' P Hnull Hbool Hnum Hstr Harr Hobj (snd kv)) (go l')
                  end) fs)
  end.

(** The fuel a value needs: one per value, one more per element. *)
Fixpoint jsize (v : json) : nat :=
  match v with
  | JArr xs => S (list_sum (map (fun x => S (jsize x)) xs))
  | JObj fs => S (list_sum (map (fun kv => S (jsize (snd kv))) fs))
  | _ => 1
  end.

(** The text of a number starts with [-] or a digit. *)
Lemma z_to_string_head (n : Z) (r : string) :
  exists c t, z_to_string n ++ r = String c t /\ is_json_ws c = false /\
    Ascii.eqb c "]"%char = false /\ Ascii.eqb c "}"%char = false /\ Ascii.eqb c quote = false.
Proof.
  destruct n as [|p|p]; unfold z_to_string; [by do 2 eexists|..|by do 2 eexists].
  change (NilEmpty.string_of_uint (N.to_uint (Z.to_N (Zpos p)))) with
    (NilEmpty.string_of_uint (Pos.to_uint p)).
  pose proof (DecimalPos.Unsigned.to_uint_nonnil p).
  destruct (Pos.to_uint p); [done|..]; by do 2 eexists.
Qed.

Lemma stringify_head (v : json) (r : string) :
  exists c t, json_stringify v ++ r = String c t /\ is_json_ws c = false /\
    Ascii.eqb c "]"%char = false /\ Ascii.eqb c "}"%char = false.
Proof.
  destruct v; try (by do 2 eexists); [by destruct b; do 2 eexists|].
  destruct (z_to_string_head n r) as (c & t & ? & ? & ? & ? & _). by exists c, t.
Qed.

Lemma skip_ws_head (c : ascii) (t : string) : is_json_ws c = false -> skip_ws (String c t) = String c t.
Proof. simpl. by intros ->. Qed.

(** A number is read by [parse_number]. *)
Lemma parse_value_number (f : nat) (n : Z) (rest : string) :
  parse_value (S f) (z_to_string n ++ rest) = parse_number (z_to_string n ++ rest).
Proof.
  destruct n as [|p|p]; unfold z_to_string; [done|..|done].
  change (NilEmpty.string_of_uint (N.to_uint (Z.to_N (Zpos p)))) with
    (NilEmpty.string_of_uint (Pos.to_uint p)).
  pose proof (DecimalPos.Unsigned.to_uint_nonnil p).
  destruct (Pos.to_uint p); [done|..]; reflexivity.
Qed.

(** The text of a list of values, with the text after it, starts with the
    text of the first value. *)
Lemma concat_head {A} (g : A -> string) (x : A) (xs : list A) (R : string) :
  exists T, String.concat "," (map g (x :: xs)) ++ R = g x ++ T.
Proof. destruct xs; simpl; eexists; [done|]. by rewrite str_app_assoc. Qed.

Lemma quote_json_app (s R : string) :
  quote_json s ++ R = String quote (quote_body s ++ String quote R).
Proof. unfold quote_json, dq. simpl. by rewrite !str_app_assoc. Qed.

(** [v] is read back from its text followed by anything a number may be
    followed by, with any fuel from [jsize v] on. *)
Definition reads_back (v : json) : Prop :=
  forall f rest, jsize v <= f -> number_stop rest = true ->
  parse_value f (json_stringify v ++ rest) = inr (v, rest).

Lemma parse_elems_back (xs acc : list json) (f : nat) (rest : string) :
  xs <> [] -> Forall reads_back xs -> list_sum (map (fun x => S (jsize x)) xs) <= f ->
  parse_elems f acc (String.concat "," (map json_stringify xs) ++ "]" ++ rest) =
  inr (JArr (acc ++ xs)%list, rest).
Proof.
  revert acc f. induction xs as [|x xs IH]; intros acc f Hne Hall Hf; [done|].
  apply List.Forall_cons_iff in Hall as [Hx Hxs]. simpl in Hf.
  destruct f as [|f]; [lia|]. cbn [parse_elems].
  destruct xs as [|y xs].
  - cbn [map String.concat]. rewrite Hx by (done || lia). done.
  - change (String.concat "," (map json_stringify (x :: y :: xs))) with
      (json_stringify x ++ "," ++ String.concat "," (map json_stringify (y :: xs))).
    rewrite !str_app_assoc, Hx by (done || lia).
    change (skip_ws ("," ++ ?X)) with (String ","%char X). cbn iota.
    rewrite IH by (done || lia). by rewrite <- app_assoc.
Qed.

Definition member_text (kv : string * json) : string := quote_json (fst kv) ++ ":" ++ json_stringify (snd kv).

Lemma parse_members_back (fs acc : list (string * json)) (f : nat) (rest : string) :
  fs <> [] -> Forall (fun kv => reads_back (snd kv)) fs ->
  list_sum (map (fun kv => S (jsize (snd kv))) fs) <= f ->
  parse_members f acc (String.concat "," (map member_text fs) ++ "}" ++ rest) =
  inr (JObj (acc ++ fs)%list, rest).
Proof.
  revert acc f. induction fs as [|[k v] fs IH]; intros acc f Hne Hall Hf; [done|].
  apply List.Forall_cons_iff in Hall as [Hx Hxs]. simpl in Hf, Hx.
  destruct f as [|f]; [lia|].
  destruct (concat_head member_text (k, v) fs ("}" ++ rest)) as [T HT]. rewrite HT.
  unfold member_text at 1. cbn [fst snd]. rewrite !str_app_assoc, quote_json_app.
  cbn [parse_members]. rewrite skip_ws_head by reflexivity. cbn iota.
  rewrite Ascii.eqb_refl. cbn [negb]. rewrite parse_chars_quote_body. cbn iota.
  change (skip_ws (":" ++ ?X)) with (String ":"%char X). cbn iota.
  destruct fs as [|kv2 fs].
  - cbn [map String.concat] in HT. apply str_app_inv_l in HT as <-. rewrite Hx by (done || lia).
    by change (skip_ws ("}" ++ ?X)) with (String "}"%char X).
  - change (String.concat "," (map member_text ((k, v) :: kv2 :: fs))) with
      (member_text (k, v) ++ "," ++ String.concat "," (map member_text (kv2 :: fs))) in HT.
    rewrite !str_app_assoc in HT. apply str_app_inv_l in HT as <-.
    rewrite Hx by (done || lia).
    change (skip_ws ("," ++ ?X)) with (String ","%char X). cbn iota.
    rewrite IH by (done || lia). by rewrite <- app_assoc.
Qed.

Lemma stringify_reads_back (v : json) : reads_back v.
Proof.
  induction v as [| b | n | s | xs IH | fs IH] using json_ind'; intros f rest Hf Hr;
    destruct f as [|f]; try (simpl in Hf; lia).
  - done.
  - by destruct b.
  - cbn [json_stringify]. rewrite parse_value_number. by apply parse_number_ok.
  - cbn [json_stringify]. rewrite quote_json_app. cbn [parse_value]. rewrite skip_ws_head by reflexivity.
    cbn iota. rewrite parse_chars_quote_body. done.
  - cbn [json_stringify]. rewrite !str_app_assoc. cbn [parse_value].
    change (skip_ws ("[" ++ ?X)) with (String "["%char X). cbn iota.
    destruct xs as [|x xs]; [done|].
    destruct (concat_head json_stringify x xs ("]" ++ rest)) as [T HT]. rewrite HT.
    destruct (stringify_head x T) as (c & t & Ht & Hws & Hc & _). rewrite Ht, skip_ws_head by done.
    cbn iota. rewrite Hc, <- Ht, <- HT. apply parse_elems_back; [done|done|simpl in Hf |- *; lia].
  - cbn [json_stringify]. rewrite !str_app_assoc. cbn [parse_value].
    change (skip_ws ("{" ++ ?X)) with (String "{"%char X). cbn iota.
    destruct fs as [|[k x] fs]; [done|].
    change (fun kv : string * json => quote_json (fst kv) ++ ":" ++ json_stringify (snd kv))
      with member_text.
    destruct (concat_head member_text (k, x) fs ("}" ++ rest)) as [T HT].
    assert (HY : String.concat "," (map member_text ((k, x) :: fs)) ++ "}" ++ rest =
                 String quote (quote_body k ++ String quote (":" ++ json_stringify x ++ T))).
    { rewrite HT. unfold member_text. cbn [fst snd]. by rewrite !str_app_assoc, quote_json_app. }
    rewrite HY, skip_ws_head by reflexivity. cbn iota. rewrite <- HY.
    apply parse_members_back; [done|done|simpl in Hf |- *; lia].
Qed.

(** ** The fuel: the text is at least as long as the value's size *)

Lemma concat_length_ge {A} (f : A -> nat) (g : A -> string) (l : list A) :
  (forall x, In x l -> f x <= String.length (g x)) ->
  list_sum (map (fun x => S (f x)) l) <= S (String.length (String.concat "," (map g l))).
Proof.
  induction l as [|x l IH]; intros H; [simpl; lia|].
  assert (Hx : f x <= String.length (g x)) by (apply H; left; done).
  destruct l as [|y l]; [simpl; lia|].
  change (String.concat "," (map g (x :: y :: l))) with (g x ++ "," ++ String.concat "," (map g (y :: l))).
  rewrite !str_length_app. cbn [String.length list_sum map fold_right].
  cbn [list_sum map fold_right] in IH. specialize (IH (fun z Hz => H z (or_intror Hz))). lia.
Qed.

Lemma jsize_le_length (v : json) : jsize v <= String.length (json_stringify v).
Proof.
  induction v as [| b | n | s | xs IH | fs IH] using json_ind'.
  - simpl; lia.
  - destruct b; simpl; lia.
  - destruct (z_to_string_head n "") as (c & t & E & _). rewrite str_app_nil_r in E.
    cbn [json_stringify jsize]. rewrite E. simpl; lia.
  - cbn [json_stringify jsize]. unfold quote_json, dq. rewrite !str_length_app. simpl; lia.
  - cbn [json_stringify jsize]. rewrite !str_length_app. cbn [String.length].
    pose proof (concat_length_ge jsize json_stringify xs) as Hc.
    rewrite List.Forall_forall in IH. specialize (Hc IH). lia.
  - cbn [json_stringify jsize]. rewrite !str_length_app. cbn [String.length].
    pose proof (concat_length_ge (fun kv => jsize (snd kv)) member_text fs) as Hc.
    rewrite List.Forall_forall in IH. unfold member_text in Hc.
    assert (H : forall kv, In kv fs ->
      jsize (snd kv) <= String.length (quote_json (fst kv) ++ ":" ++ json_stringify (snd kv))).
    { intros kv Hin. rewrite !str_length_app. specialize (IH kv Hin). simpl in *. lia. }
    specialize (Hc H). lia.
Qed.

(** [JSON.parse(JSON.stringify(v))] gives [v] back: the
    executable parser, with the fuel [parse_json] gives it, reads every
    printed value in full, whatever its depth and its strings' code
    units. *)
Theorem parse_json_stringify (v : json) : parse_json (json_stringify v) = inr v.
Proof.
  unfold parse_json, parse_json_fuel.
  match goal with |- context [parse_value ?f _] => pose proof (stringify_reads_back v f "") as H end.
  rewrite str_app_nil_r in H. rewrite H; [done | pose proof (jsize_le_length v); lia | done].
Qed.


(** ** The fuel is enough *)

Lemma skip_ws_length (s : string) : String.length (skip_ws s) <= String.length s.
Proof. induction s as [|c s IH]; cbn; [done|]. destruct (is_json_ws c); cbn; lia. Qed.

Lemma cons_res_length (c : ascii) (r : string + (string * string)) (b rest : string) (n : nat) :
  (forall b' rest', r = inr (b', rest') -> String.length rest' < n) ->
  cons_res c r = inr (b, rest) -> String.length rest < n.
Proof. destruct r as [|[b' rest']]; cbn; [done|]. intros H [= _ <-]. by apply (H b'). Qed.

Ltac len_rec IH :=
  match goal with
  | H : cons_res _ (parse_chars ?x) = inr _ |- _ =>
      eapply cons_res_length; [|exact H]; intros ? ? Hr;
      apply (IH (String.length x)) in Hr; [cbn in *; lia|cbn in *; lia|done]
  end.
Lemma parse_chars_length (s b r : string) :
  parse_chars s = inr (b, r) -> String.length r < String.length s.
Proof.
  remember (String.length s) as n eqn:Hn. revert s b r Hn.
  induction n as [n IH] using lt_wf_ind. intros [|c s'] b r Hn; cbn [parse_chars]; [done|].
  cbn in Hn. subst n.
  destruct (Ascii.eqb c quote); [intros [= _ <-]; lia|].
  destruct (Ascii.eqb c backslash).
  - destruct s' as [|e s2]; [done|].
    destruct e as [[] [] [] [] [] [] [] []]; cbn -[cons_res hex4 simple_escape];
      repeat (case_match; try done); intros Hc; try discriminate; try len_rec IH.
  - destruct (Nat.ltb _ 32); [done|]. intros Hc. len_rec IH.
Qed.

Lemma digits_length (acc : Z) (s : string) : String.length (digits acc s).2 <= String.length s.
Proof.
  revert acc. induction s as [|c s IH]; intros acc; cbn; [done|].
  destruct (digit_val c); cbn; [specialize (IH (acc * 10 + z)%Z)|]; lia.
Qed.

Lemma parse_number_length (s r : string) (v : json) :
  parse_number s = inr (v, r) -> String.length r < String.length s.
Proof.
  unfold parse_number.
  assert (Hneg : String.length (match s with String "-"%char s' => (true, s') | _ => (false, s) end).2
                 <= String.length s).
  { destruct s as [|[[] [] [] [] [] [] [] []] s]; cbn; lia. }
  destruct (match s with String "-"%char s' => (true, s') | _ => (false, s) end) as [neg s1].
  cbn in Hneg. destruct s1 as [|c s2]; [done|]. destruct (digit_val c) as [d|]; [|done].
  assert (Hd : String.length (if Z.eqb d 0 then (0%Z, s2) else digits d s2).2 <= String.length s2).
  { destruct (Z.eqb d 0); [done|apply digits_length]. }
  destruct (if Z.eqb d 0 then (0%Z, s2) else digits d s2) as [n rest].
  unfold number_end. cbn in Hd, Hneg.
  destruct rest as [|[[] [] [] [] [] [] [] []] rest']; intros [= _ <-]; cbn in *; lia.
Qed.

Ltac progress_leaf IHv IHe IHm :=
  intros Hr;
  repeat match goal with
  | H : skip_ws ?x = _ |- _ =>
      let L := fresh in pose proof (skip_ws_length x) as L; rewrite H in L; clear H
  | H : parse_chars _ = inr _ |- _ => apply parse_chars_length in H
  | H : parse_value _ _ = inr _ |- _ => apply IHv in H
  end;
  first [apply parse_number_length in Hr | apply IHe in Hr | apply IHm in Hr | simplify_eq];
  cbn in *; lia.

Lemma parse_progress (f : nat) :
  (forall s v r, parse_value f s = inr (v, r) -> String.length r < String.length s) /\
  (forall acc s v r, parse_elems f acc s = inr (v, r) -> String.length r < String.length s) /\
  (forall acc s v r, parse_members f acc s = inr (v, r) -> String.length r < String.length s).
Proof.
  induction f as [|f (IHv & IHe & IHm)]; [done|]. split_and!.
  - intros s v r. cbn [parse_value]. pose proof (skip_ws_length s) as Hs.
    destruct (skip_ws s) as [|c r0]; [done|].
    (destruct c as [[] [] [] [] [] [] [] []]; cbn -[parse_elems parse_members parse_chars parse_number skip_ws];
      repeat (case_match; cbn -[parse_elems parse_members parse_chars parse_number skip_ws] in *); progress_leaf IHv IHe IHm).
  - intros acc s v r. cbn [parse_elems].
    (repeat (case_match; cbn -[parse_elems parse_members parse_chars parse_number skip_ws] in *);
      progress_leaf IHv IHe IHm).
  - intros acc s v r. cbn [parse_members].
    (repeat (case_match; cbn -[parse_elems parse_members parse_chars parse_number skip_ws] in *);
      progress_leaf IHv IHe IHm).
Qed.

(** The lengths the equations of a case analysis give. *)
Ltac rest_lengths :=
  repeat match goal with
  | H : skip_ws ?x = _ |- _ =>
      let L := fresh "L" in pose proof (skip_ws_length x) as L; rewrite H in L; clear H
  | H : parse_chars _ = inr _ |- _ => apply parse_chars_length in H
  | H : parse_value _ _ = inr _ |- _ => apply (proj1 (parse_progress _)) in H
  end; cbn [String.length] in *.

Lemma parse_fuel_stable (f : nat) :
  (forall s g, 2 * String.length s + 1 <= f -> f <= g -> parse_value g s = parse_value f s) /\
  (forall acc s g, 2 * String.length s + 2 <= f -> f <= g ->
     parse_elems g acc s = parse_elems f acc s) /\
  (forall acc s g, 2 * String.length s + 1 <= f -> f <= g ->
     parse_members g acc s = parse_members f acc s).
Proof.
  induction f as [|f (IHv & IHe & IHm)]; [split_and!; intros; lia|].
  split_and!; intros * Hf Hg; (destruct g as [|g]; [lia|]);
    cbn [parse_value parse_elems parse_members]; pose proof (skip_ws_length s).
  - destruct (skip_ws s) as [|c r0]; [done|].
    (destruct c as [[] [] [] [] [] [] [] []]; cbn -[parse_elems parse_members parse_chars parse_number skip_ws];
      repeat (rest_lengths;
      first [ (rewrite (IHe _ _ g) by lia) | (rewrite (IHm _ _ g) by lia) | case_match ]); done).
  - (repeat (rest_lengths;
      first [ (rewrite (IHv _ g) by lia) | (rewrite (IHe _ _ g) by lia) | case_match ]); done).
  - (repeat (rest_lengths;
      first [ (rewrite (IHv _ g) by lia) | (rewrite (IHm _ _ g) by lia) | case_match ]); done).
Qed.

(** The errors a parse returns are never the fuel's. *)
Definition not_too_deep {A} (r : string + A) : Prop := forall e, r = inl e -> e <> input_too_deep.

Lemma syntax_error_not_too_deep {A} (what : string) :
  what <> "input too deep" -> @not_too_deep A (inl (syntax_error what)).
Proof. intros Hw e [= <-] He. apply Hw. unfold input_too_deep, syntax_error in He. by simplify_eq/=. Qed.

Lemma cons_res_not_too_deep (c : ascii) (r : string + (string * string)) :
  not_too_deep r -> not_too_deep (cons_res c r).
Proof. destruct r as [|[]]; cbn; [done|]. by intros _ e. Qed.

Lemma not_too_deep_inl {A B} (r : string + A) (e : string) :
  not_too_deep r -> r = inl e -> @not_too_deep B (inl e).
Proof. intros H -> e' [= <-]. by apply H. Qed.

Ltac ntd_leaf :=
  first [ by intros ? ?
        | apply syntax_error_not_too_deep; discriminate
        | apply cons_res_not_too_deep
        | intros ? [= <-]; by intros ? ].

Lemma parse_chars_not_too_deep (s : string) : not_too_deep (parse_chars s).
Proof.
  remember (String.length s) as n eqn:Hn. revert s Hn.
  induction n as [n IH] using lt_wf_ind. intros [|c s'] Hn; cbn [parse_chars].
  - apply syntax_error_not_too_deep; discriminate.
  - cbn in Hn. subst n.
    repeat (case_match; cbn -[cons_res syntax_error] in *);
      try (apply cons_res_not_too_deep; eapply IH; [|reflexivity]; cbn; lia); ntd_leaf.
Qed.

Lemma parse_number_not_too_deep (s : string) : not_too_deep (parse_number s).
Proof.
  unfold parse_number, number_end.
  destruct (match s with String "-"%char s' => (true, s') | _ => (false, s) end) as [neg [|c s2]];
    [ntd_leaf|].
  destruct (digit_val c) as [d|]; [|ntd_leaf].
  destruct (if Z.eqb d 0 then (0%Z, s2) else digits d s2) as [n [|[[] [] [] [] [] [] [] []] r]];
    ntd_leaf.
Qed.

Ltac ntd_rec IHv IHe IHm :=
  repeat (rest_lengths;
    try match goal with H : ?t = inl ?e |- not_too_deep (inl ?e) => apply (not_too_deep_inl t); [|exact H] end;
    first [ apply IHv; lia | apply IHe; lia | apply IHm; lia
          | apply parse_number_not_too_deep | apply parse_chars_not_too_deep | case_match ]);
  ntd_leaf.

Lemma parse_not_too_deep (f : nat) :
  (forall s, 2 * String.length s + 1 <= f -> not_too_deep (parse_value f s)) /\
  (forall acc s, 2 * String.length s + 2 <= f -> not_too_deep (parse_elems f acc s)) /\
  (forall acc s, 2 * String.length s + 1 <= f -> not_too_deep (parse_members f acc s)).
Proof.
  induction f as [|f (IHv & IHe & IHm)]; [split_and!; intros; lia|].
  split_and!; intros * Hf; cbn [parse_value parse_elems parse_members];
    pose proof (skip_ws_length s).
  - destruct (skip_ws s) as [|c r0]; [ntd_leaf|].
    (destruct c as [[] [] [] [] [] [] [] []];
      cbn -[parse_elems parse_members parse_chars parse_number skip_ws syntax_error]; ntd_rec IHv IHe IHm).
  - ntd_rec IHv IHe IHm.
  - ntd_rec IHv IHe IHm.
Qed.

(** [JSON.parse] with fuel beyond twice the length plus one: the same
    result whatever the fuel, and never the out-of-fuel error. *)
Lemma parse_json_fuel_stable (s : string) (f g : nat) :
  2 * String.length s + 1 <= f -> f <= g -> parse_json_fuel g s = parse_json_fuel f s.
Proof. intros Hf Hg. unfold parse_json_fuel. by rewrite (proj1 (parse_fuel_stable f) s g). Qed.

Lemma parse_json_fuel_not_too_deep (s : string) (f : nat) :
  2 * String.length s + 1 <= f -> not_too_deep (parse_json_fuel f s).
Proof.
  intros Hf. unfold parse_json_fuel.
  pose proof (proj1 (parse_not_too_deep f) s Hf) as H.
  destruct (parse_value f s) as [e|[v r]]; [by apply (not_too_deep_inl _ e H)|].
  case_match; [by intros ? ?|]. apply syntax_error_not_too_deep; discriminate.
Qed.

End JsonFacts.
