(* ===== verification/Types.v ===== *)
(** * The shared types of [src/types.ts]

    Messages, providers, the events of an agent cycle and the application
    state.  At run time the agent schema and the update payload are the
    values [JSON.parse] produced, so they are [json] here; the typed view of
    the schema is in [Schema]. *)

From stdpp Require Import countable gmap.
From S2P Require Import Prelude JsString DocTree Json.
Import DocTree Json.

Module Types.

(** [interface Message]. *)
Record Message := mkMessage { author : string; content : string }.

(** [type LLMProvider = 'google' | 'openrouter']. *)
Inductive LLMProvider := google | openrouter.

#[export] Instance LLMProvider_eq_dec : EqDecision LLMProvider.
Proof. solve_decision. Defined.

#[export] Instance LLMProvider_countable : Countable LLMProvider.
Proof.
  refine (inj_countable' (fun p => match p with google => true | openrouter => false end)
            (fun b => if b then google else openrouter) _).
  by intros [].
Defined.

(** [type AgentStreamEvent]. *)
Inductive AgentStreamEvent :=
| EvChunk (payload : string)
| EvUpdate (payload : json)
| EvError (payload : string).

(** [interface AppState]; [isLoading?: boolean] is an option. *)
Record AppState := mkAppState {
  conversation_history : list Message;
  agent_schema : option json;
  docStructure : DocNode;
  isLoading : option bool;
  llmProvider : LLMProvider;
  apiKeys : gmap LLMProvider string
}.

End Types.
