(* ===== verification/Backend.v ===== *)
(** * The two model backends of [src/services/geminiService.ts]

    Both reduce to a text buffer.  The network is an input of the model: a
    [Network] answers a Gemini request with the texts of the SDK's chunks or
    a thrown error, and an OpenRouter request with a response (status, the
    decoded text of each network chunk) or a thrown error.  What the code
    does with these answers is modelled: the accumulation of [chunk.text],
    and the line decoder of the server-sent events, which parses every
    [data: ] line of each network chunk separately. *)

From Stdlib Require Import ZArith.
From S2P Require Import Prelude JsString Json Types.
Import Json Types.

Module Backend.

(** A thrown JavaScript error: whether it is a [TypeError], and its message. *)
Record JsError := mkJsError { is_type_error : bool; message : string }.

Record GeminiRequest := mkGeminiRequest {
  g_apiKey : string; g_model : string; g_contents : string; g_systemInstruction : string }.

Record OpenRouterRequest := mkOpenRouterRequest {
  or_apiKey : string; or_model : string; or_messages : list (string * string); or_stream : bool }.

Inductive GeminiResult :=
| GeminiThrow (e : JsError)
(** [chunk.text] of each chunk; [None] is [undefined]. *)
| GeminiChunks (texts : list (option string)).

Inductive FetchResult :=
| FetchThrow (e : JsError)
(** [response.ok], [response.body !== null], the status line, the text of
    an error body, the decoded network chunks, and an error thrown by
    [reader.read()] after them, if any. *)
| FetchResponse (ok has_body : bool) (status : Z) (statusText errorBody : string)
                (chunks : list string) (read_error : option JsError).

Record Network := mkNetwork {
  gemini_generate : GeminiRequest -> GeminiResult;
  openrouter_fetch : OpenRouterRequest -> FetchResult
}.

(** [for await (const chunk of stream) buffer += chunk.text;] *)
Definition gemini_buffer (texts : list (option string)) : string :=
  fold_left (fun buffer t => buffer ++ match t with Some s => s | None => "undefined" end)
    texts "".

(** [json.choices && json.choices[0].delta.content]: a thrown TypeError
    ([inl]) or the value of the expression. *)
Definition delta_content (j : json) : string + option json :=
  match get_prop (Some j) "choices" with
  | inl e => inl e
  | inr ch =>
      if negb (truthy ch) then inr ch
      else match get_index ch 0 with
           | inl e => inl e
           | inr c0 =>
               match get_prop c0 "delta" with
               | inl e => inl e
               | inr d => get_prop d "content"
               end
           end
  end.

(** One line of a network chunk: the text it appends to the buffer.  Lines
    without the [data: ] marker, the [[DONE]] line and lines whose parse or
    property reads throw append nothing. *)
Definition decode_line `{JsonParse} (line : string) : string :=
  if String.prefix "data: " line then
    let data := str_drop 6 line in
    if js_trim data ==ₛ "[DONE]" then ""
    else match json_parse data with
         | inl _ => ""
         | inr j =>
             match delta_content j with
             | inr (Some c) => if truthy (Some c) then js_to_string c else ""
             | _ => ""
             end
         end
  else "".

(** [const lines = decodedChunk.split('\n'); for (const line of lines) ...] *)
Definition decode_chunk `{JsonParse} (buffer chunk : string) : string :=
  fold_left (fun b line => b ++ decode_line line) (js_split js_newline chunk) buffer.

Definition openrouter_buffer `{JsonParse} (chunks : list string) : string :=
  fold_left decode_chunk chunks "".

(** The inner [catch] of the OpenRouter branch. *)
Definition invalid_header_msg : string :=
  "Invalid character found in request headers. Please check that your API key contains only standard ASCII characters.".

Definition remap_request_error (e : JsError) : JsError :=
  if is_type_error e && js_includes (message e) "Failed to construct 'Request'"
  then mkJsError false invalid_header_msg else e.


(** ** Chunk boundaries *)

Lemma decode_line_empty `{JsonParse} : decode_line "" = "".
Proof. done. Qed.

Lemma decode_chunk_app_sep `{JsonParse} (b x y : string) :
  decode_chunk b (x ++ String js_newline y) = decode_chunk (decode_chunk b x) y.
Proof. unfold decode_chunk. by rewrite js_split_app_sep, fold_left_app. Qed.

Lemma decode_chunk_nl `{JsonParse} (b x : string) :
  decode_chunk b (x ++ nl) = decode_chunk b x.
Proof.
  unfold nl. rewrite decode_chunk_app_sep. unfold decode_chunk at 1. simpl.
  by rewrite decode_line_empty, str_app_nil_r.
Qed.

Lemma str_concat_cons (c : string) (cs : list string) :
  String.concat "" (c :: cs) = c ++ String.concat "" cs.
Proof. destruct cs; simpl; [by rewrite str_app_nil_r | done]. Qed.

Lemma fold_decode_aligned `{JsonParse} (b : string) (chunks : list string) :
  Forall (fun c => exists x, c = x ++ nl) chunks ->
  fold_left decode_chunk chunks b = decode_chunk b (String.concat "" chunks).
Proof.
  intros Hal. revert b; induction Hal as [|c cs [x ->] _ IH]; intros b.
  - unfold decode_chunk. simpl. by rewrite str_app_nil_r.
  - cbn [fold_left]. rewrite decode_chunk_nl, IH, str_concat_cons, str_app_assoc.
    unfold nl. rewrite str_app_cons. cbn [String.append]. by rewrite decode_chunk_app_sep.
Qed.

(** C20 (equivalence). When every network chunk ends at the end of a line,
    decoding chunk by chunk gives the buffer of decoding the whole stream
    at once: the boundaries do not matter. *)
Theorem openrouter_buffer_aligned `{JsonParse} (chunks : list string) :
  Forall (fun c => exists x, c = x ++ nl) chunks ->
  openrouter_buffer chunks = decode_chunk "" (String.concat "" chunks).
Proof. apply fold_decode_aligned. Qed.

(** [data: {"choices":[{"delta":{"content":"<s>"}}]}] *)
Definition sse_line (s : string) : string :=
  "data: {" ++ dq ++ "choices" ++ dq ++ ":[{" ++ dq ++ "delta" ++ dq ++ ":{" ++
  dq ++ "content" ++ dq ++ ":" ++ dq ++ s ++ dq ++ "}}]}".

Lemma openrouter_buffer_aligned_witness :
  Forall (fun c => exists x, c = x ++ nl) [sse_line "Hel" ++ nl; sse_line "lo" ++ nl] /\
  openrouter_buffer [sse_line "Hel" ++ nl; sse_line "lo" ++ nl] =
  decode_chunk "" (String.concat "" [sse_line "Hel" ++ nl; sse_line "lo" ++ nl]).
Proof.
  assert (Hal : Forall (fun c => exists x, c = x ++ nl) [sse_line "Hel" ++ nl; sse_line "lo" ++ nl])
    by (repeat constructor; eauto).
  split; [exact Hal|]. apply openrouter_buffer_aligned. exact Hal.
Defined.


End Backend.
