(* ===== verification/Cycle.v ===== *)
(** * The agent cycle protocol: [streamAgentCycle] of
    [src/services/geminiService.ts]

    The reply of the model is buffered whole, then split at the first
    occurrence of the sentinel [JSON_RESPONSE_SEPARATOR]: the part before is
    yielded as one [chunk]; the part after is trimmed, stripped of a
    markdown fence by the regular expression of the code, parsed with
    [JSON.parse] and checked for [updatedSchema] and a boolean
    [autoContinue], giving one [update] or one [error].  The parser is the
    interface [JsonParse], so the theorems hold for any parser. *)

From S2P Require Import Prelude JsString DocTree Seed Json JsonFacts Types Backend.
Import DocTree Json JsonFacts Types Backend.

Module Cycle.

Definition JSON_RESPONSE_SEPARATOR : string := "|||AGENT_RESPONSE_JSON|||".

(** ** The fence regex [/^\s*```(?:json)?\n?(.*?)\n?```\s*$/s]

    Its matches are tried in the order of the backtracking matcher: the
    leading [\s*] is forced (a backtick is not white space), then the
    optional [json] is tried present before absent, the optional newline
    present before absent, and the lazy group from the shortest up. *)

Definition fence : string := "```".

(** [\n?```\s*$] at the start of [r]. *)
Definition fence_tail (r : string) : bool :=
  (String.prefix fence r && all_space (str_drop 3 r)) ||
  match r with
  | String c r1 => Ascii.eqb c js_newline && String.prefix fence r1 && all_space (str_drop 3 r1)
  | EmptyString => false
  end.

(** The lazy group [(.*?)]: the shortest prefix after which the tail matches. *)
Fixpoint lazy_group (acc : string) (r : string) : option string :=
  if fence_tail r then Some acc
  else match r with
       | EmptyString => None
       | String c r' => lazy_group (acc ++ String c EmptyString) r'
       end.

Definition opt_or {A} (a b : option A) : option A :=
  match a with Some _ => a | None => b end.

(** [\n?(.*?)...] *)
Definition after_newline (r : string) : option string :=
  opt_or (match r with
          | String c r' => if Ascii.eqb c js_newline then lazy_group "" r' else None
          | EmptyString => None
          end)
         (lazy_group "" r).

(** [jsonPart.match(fenceRegex)], returning the capture [match[1]]. *)
Definition fence_match (s : string) : option string :=
  let s1 := trim_start s in
  if String.prefix fence s1 then
    let r0 := str_drop 3 s1 in
    opt_or (if String.prefix "json" r0 then after_newline (str_drop 4 r0) else None)
           (after_newline r0)
  else None.

(** [if (match && match[1]) jsonPart = match[1].trim();] *)
Definition strip_fence (jsonPart : string) : string :=
  match fence_match jsonPart with
  | Some g => if g ==ₛ "" then jsonPart else js_trim g
  | None => jsonPart
  end.

(** ** Validation of the parsed payload *)

Definition missing_fields_msg : string :=
  "AI response is missing required fields: updatedSchema and autoContinue are mandatory.".

(** [JSON.parse(jsonPart)], then
    [if (!parsedData.updatedSchema || typeof parsedData.autoContinue !== 'boolean') throw]:
    the error message of whatever throws, or the parsed value. *)
Definition validate_payload (parsed : string + json) : string + json :=
  match parsed with
  | inl e => inl e
  | inr v =>
      match get_prop (Some v) "updatedSchema" with
      | inl e => inl e
      | inr us =>
          if negb (truthy us) then inl missing_fields_msg
          else match get_prop (Some v) "autoContinue" with
               | inl e => inl e
               | inr ac => if is_boolean ac then inr v else inl missing_fields_msg
               end
      end
  end.

Definition parse_error_msg (jsonPart e : string) : string :=
  "Failed to parse JSON payload. Raw: '" ++ jsonPart ++ "'. Error: " ++ e.

Definition no_separator_msg : string :=
  "Agent did not return the required separator token and JSON object.".

(** ** The buffered reply to events (lines 147 to 178) *)
Definition process_buffer `{JsonParse} (buffer : string) : list AgentStreamEvent :=
  match index_of JSON_RESPONSE_SEPARATOR buffer with
  | Some separatorIndex =>
      let chatPart := js_substring buffer 0 separatorIndex in
      let jsonPart0 := js_trim (js_substring_from buffer
                          (separatorIndex + String.length JSON_RESPONSE_SEPARATOR)) in
      let jsonPart := strip_fence jsonPart0 in
      EvChunk chatPart ::
      [match validate_payload (json_parse jsonPart) with
       | inr parsedData => EvUpdate parsedData
       | inl e => EvError (parse_error_msg jsonPart e)
       end]
  | None =>
      [EvError (no_separator_msg ++ nl ++ "Full response from LLM:" ++ nl ++ buffer)]
  end.



(** ** Building the request (lines 4 to 64) *)

(** [getFileTree(docStructure).join('\n')] *)
Definition getFileTreeList (docStructure : DocNode) : string :=
  js_join js_newline (getFileTree docStructure "").

(** [getSystemInstruction(agentSchema, fileList)]: the template literal of
    the code; its non-ASCII characters are held as their UTF-8 bytes. *)
Definition getSystemInstruction (agentSchema : option json) (fileList : string) : string :=
  "You are 🌀 AGENTX, an autonomous AI software architect. Your mission is to help a user create a complete project documentation scaffold. You operate based on a REASONING_SCHEMA which represents your internal state.

**Autonomous Operation:**
- For high-level goals, you MUST first create a multi-step plan in 'chain.steps'.
- Then, execute the FIRST step of your plan.
- When you complete a step, you MUST update its status to 'completed'. For the next cycle, you will move this completed step from 'chain.steps' to 'wm.pr.completed'.
- In your response, if there are more steps pending in 'chain.steps', set 'autoContinue' to true. The system will automatically send you a " ++ dq ++ "Continue" ++ dq ++ " prompt.
- When all steps are completed and moved, set 'autoContinue' to false.

**Response Protocol (MANDATORY):**
1.  First, stream your friendly chat message to the user as plain text. This message MUST end with the three specific follow-up questions.
2.  After the chat message, output the exact separator token: "
    ++ JSON_RESPONSE_SEPARATOR
    ++ "
3.  Finally, output a SINGLE, VALID JSON object containing your updates.

**Rules:**
-   **CRITICAL JSON RULE**: The final JSON object MUST NOT be wrapped in markdown fences (```json) or any other text. It must be a raw JSON object.
-   **Schema Update**: Always update 'wm.sg' (sub-goal), 'wm.ctx' (context), and 'chain.reflect' (your reasoning).
-   **Planning**: 'chain.steps' MUST be an array of objects with this structure: { " ++ dq ++ "step" ++ dq ++ ": " ++ dq ++ "description" ++ dq ++ ", " ++ dq ++ "status" ++ dq ++ ": " ++ dq ++ "pending" ++ dq ++ " }.
-   **Execution**: When continuing, identify the next " ++ dq ++ "pending" ++ dq ++ " step, execute it, and update its status to " ++ dq ++ "completed" ++ dq ++ ".
-   **File Update**: If you update a file, provide its FULL path and FULL new content.
-   **Chat Response**: Your streamed chat response MUST end with these three questions on new lines:
🔍 [Investigation?]
🔭 [Exploration?]
🎯 [Exploitation?]
-   **JSON Integrity**: Your final JSON object must be perfect. Properly escape all special characters within the strings (e.g., use '\" ++ dq ++ "' for quotes, '\n' for newlines).

Your current REASONING_SCHEMA is:
"
    ++ match agentSchema with Some j => json_stringify2 j | None => "undefined" end
    ++ "

The documentation file structure is:
"
    ++ fileList
    ++ ""
.

(** [history.slice(-6)] *)
Definition js_slice_last {A} (n : nat) (l : list A) : list A := skipn (List.length l - n) l.

(** [history.slice(-6).map(msg => `${msg.author}: ${msg.content}`).join('\n')] *)
Definition historyContext (history : list Message) : string :=
  js_join js_newline (map (fun msg => author msg ++ ": " ++ content msg) (js_slice_last 6 history)).

(** The [contents] of the Gemini request. *)
Definition gemini_contents (historyContext prompt : string) : string :=
  "Conversation History:" ++ nl ++ historyContext ++ nl ++ nl ++
  "Latest User Prompt: " ++ dq ++ prompt ++ dq.

(** The [messages] of the OpenRouter request. *)
Definition openRouterMessages (systemInstruction : string) (history : list Message)
    (prompt : string) : list (string * string) :=
  ("system", systemInstruction) ::
  (map (fun msg => (author msg, content msg)) (js_slice_last 6 history) ++ [("user", prompt)])%list.

Definition google_key_missing : string :=
  "Google Gemini API key is missing. Please set it in the settings.".
Definition openrouter_key_missing : string :=
  "OpenRouter API key is missing. Please set it in the settings.".

(** The OpenRouter response to a buffer, or the error thrown. *)
Definition fetch_buffer `{JsonParse} (r : FetchResult) : JsError + string :=
  match r with
  | FetchThrow e => inl e
  | FetchResponse ok has_body status statusText errorBody chunks read_error =>
      if negb ok || negb has_body then
        inl (mkJsError false ("OpenRouter API error: " ++ z_to_string status ++ " " ++
                              statusText ++ " - " ++ errorBody))
      else match read_error with
           | Some e => inl e
           | None => inr (openrouter_buffer chunks)
           end
  end.

(** The [try] block up to the buffer (lines 68 to 145). *)
Definition collect_buffer `{JsonParse} (net : Network) (provider : LLMProvider)
    (apiKey systemInstruction : string) (history : list Message) (prompt : string)
    : JsError + string :=
  match provider with
  | google =>
      if apiKey ==ₛ "" then inl (mkJsError false google_key_missing)
      else match gemini_generate net
                   (mkGeminiRequest apiKey "gemini-2.5-flash-preview-04-17"
                      (gemini_contents (historyContext history) prompt) systemInstruction) with
           | GeminiThrow e => inl e
           | GeminiChunks texts => inr (gemini_buffer texts)
           end
  | openrouter =>
      if apiKey ==ₛ "" then inl (mkJsError false openrouter_key_missing)
      else match fetch_buffer (openrouter_fetch net
                   (mkOpenRouterRequest apiKey "google/gemini-flash-1.5"
                      (openRouterMessages systemInstruction history prompt) true)) with
           | inl e => inl (remap_request_error e)
           | inr b => inr b
           end
  end.

(** [streamAgentCycle(prompt, history, docStructure, agentSchema,
    selectedFilePath, provider, apiKey)]: the events it yields, in order.
    [selectedFilePath] is a parameter the body does not read. *)
Definition streamAgentCycle `{JsonParse} (net : Network) (prompt : string)
    (history : list Message) (docStructure : DocNode) (agentSchema : option json)
    (selectedFilePath : option string) (provider : LLMProvider) (apiKey : string)
    : list AgentStreamEvent :=
  let fileList := getFileTreeList docStructure in
  let systemInstruction := getSystemInstruction agentSchema fileList in
  match collect_buffer net provider apiKey systemInstruction history prompt with
  | inl e => [EvError ("Error calling API: " ++ message e)]
  | inr buffer => process_buffer buffer
  end.
(** ** The sentinel overlaps itself on [|||] *)

#[local] Abbreviation SEP := JSON_RESPONSE_SEPARATOR.

Lemma sep_borders :
  forallb (fun k => negb (String.prefix SEP (str_take k SEP ++ SEP)) ||
                    String.prefix SEP (str_take k SEP ++ "|||")) (seq 1 24) = true.
Proof. vm_compute. reflexivity. Qed.

(** An occurrence of the sentinel that starts less than its length before
    an appended sentinel ends inside the first [|||] of that sentinel. *)
Lemma sep_overlap (u : string) :
  1 <= String.length u <= 24 -> SEP ⊑ₛ u ++ SEP -> SEP ⊑ₛ u ++ "|||".
Proof.
  intros Hl H.
  assert (Hu : u = str_take (String.length u) SEP).
  { apply prefix_spec in H as [r Hr].
    rewrite <- (str_take_app_le _ SEP r), <- Hr, str_take_app_length; [done|].
    change (String.length SEP) with 25. lia. }
  pose proof sep_borders as Hb. rewrite forallb_forall in Hb.
  specialize (Hb (String.length u)). rewrite <- Hu in Hb.
  assert (Hin : In (String.length u) (seq 1 24)) by (apply in_seq; lia).
  apply Hb, orb_true_iff in Hin as [Hn|]; [|done].
  rewrite H in Hn. discriminate.
Qed.

(** When the chat part followed by [|||] holds no sentinel, [indexOf]
    finds the sentinel right after the chat part. *)
Lemma sep_first (chat rest : string) :
  index_of SEP (chat ++ "|||") = None ->
  index_of SEP (chat ++ SEP ++ rest) = Some (String.length chat).
Proof.
  intros Hn. apply index_of_app; [apply prefix_app|]. intros j Hj Hp.
  apply (index_of_None _ _ Hn j).
  rewrite str_drop_app_le in Hp |- * by lia.
  assert (Hlu : 1 <= String.length (str_drop j chat)) by (rewrite str_length_drop; lia).
  destruct (Nat.le_gt_cases 25 (String.length (str_drop j chat))) as [Hge|Hlt].
  - apply prefix_app_r. by apply (prefix_app_long _ _ (SEP ++ rest)).
  - apply sep_overlap; [lia|]. rewrite <- str_app_assoc in Hp.
    apply (prefix_app_long _ _ rest); [|done]. rewrite str_length_app. simpl. lia.
Qed.

(** The split of [chat ++ SEP ++ rest] at the sentinel. *)
Lemma process_buffer_split `{JsonParse} (chat rest : string) :
  index_of SEP (chat ++ "|||") = None ->
  process_buffer (chat ++ SEP ++ rest) =
  EvChunk chat ::
  [match validate_payload (json_parse (strip_fence (js_trim rest))) with
   | inr parsedData => EvUpdate parsedData
   | inl e => EvError (parse_error_msg (strip_fence (js_trim rest)) e)
   end].
Proof.
  intros Hn. unfold process_buffer. rewrite sep_first by done.
  rewrite js_substring_0, str_take_app_length. unfold js_substring_from.
  rewrite <- str_drop_drop, str_drop_app_length.
  change (String.length SEP) with (String.length SEP + 0).
  by rewrite <- str_drop_drop, str_drop_app_length.
Qed.

(** ** Properties of the protocol *)

(** C5 (functional). A reply made of a chat part, the sentinel and a JSON
    object with a truthy [updatedSchema] and a boolean [autoContinue]
    yields exactly one [chunk] carrying the chat part, then exactly one
    [update] carrying the parsed object; the chat part must hold no
    sentinel, even across its end: [chat ++ "|||"] holds none. *)
Theorem process_buffer_update `{JsonParse} (chat rest : string)
    (fs : list (string * json)) (us : json) (b : bool) :
  index_of SEP (chat ++ "|||") = None ->
  json_parse (strip_fence (js_trim rest)) = inr (JObj fs) ->
  assoc_last "updatedSchema" fs = Some us -> truthy (Some us) = true ->
  assoc_last "autoContinue" fs = Some (JBool b) ->
  process_buffer (chat ++ SEP ++ rest) = [EvChunk chat; EvUpdate (JObj fs)].
Proof.
  intros Hn Hp Hus Ht Hac. rewrite process_buffer_split, Hp by done.
  cbn [validate_payload get_prop]. by rewrite Hus, Ht, Hac.
Qed.

(** C6 (error). A reply without the sentinel yields exactly one [error],
    which carries the whole reply, and no [chunk] or [update]. *)
Theorem process_buffer_no_separator `{JsonParse} (buffer : string) :
  (forall a b, buffer <> a ++ SEP ++ b) ->
  process_buffer buffer =
  [EvError (no_separator_msg ++ nl ++ "Full response from LLM:" ++ nl ++ buffer)].
Proof. intros Hno. unfold process_buffer. by rewrite (proj2 (index_of_None_iff _ _) Hno). Qed.

(** C7 (error). A JSON object lacking a truthy [updatedSchema] or a boolean
    [autoContinue] yields the chat part, then exactly one [error] that
    quotes the raw JSON text; nothing of it is applied. *)
Theorem process_buffer_missing_fields `{JsonParse} (chat rest : string)
    (fs : list (string * json)) :
  index_of SEP (chat ++ "|||") = None ->
  json_parse (strip_fence (js_trim rest)) = inr (JObj fs) ->
  truthy (assoc_last "updatedSchema" fs) = false \/
  is_boolean (assoc_last "autoContinue" fs) = false ->
  process_buffer (chat ++ SEP ++ rest) =
  [EvChunk chat; EvError (parse_error_msg (strip_fence (js_trim rest)) missing_fields_msg)].
Proof.
  intros Hn Hp Hmiss. rewrite process_buffer_split, Hp by done.
  cbn [validate_payload get_prop].
  destruct (truthy (assoc_last "updatedSchema" fs)) eqn:Ht; [|done].
  destruct Hmiss as [Hf|Hf]; [congruence | by rewrite Hf].
Qed.

(** ** Concrete replies *)

(** [{"updatedSchema": {}, "autoContinue": true}] *)
Definition sample_payload : string :=
  "{" ++ dq ++ "updatedSchema" ++ dq ++ ": {}, " ++ dq ++ "autoContinue" ++ dq ++ ": true}".

Lemma process_buffer_update_witness :
  index_of SEP ("Plan ready." ++ "|||") = None /\
  json_parse (strip_fence (js_trim (" " ++ sample_payload))) =
    inr (JObj [("updatedSchema", JObj []); ("autoContinue", JBool true)]) /\
  process_buffer ("Plan ready." ++ SEP ++ " " ++ sample_payload) =
    [EvChunk "Plan ready.";
     EvUpdate (JObj [("updatedSchema", JObj []); ("autoContinue", JBool true)])].
Proof.
  split; [vm_compute; reflexivity|]. split; [vm_compute; reflexivity|].
  apply (process_buffer_update _ _ _ (JObj []) true); vm_compute; reflexivity.
Defined.

Lemma process_buffer_no_separator_witness :
  (forall a b, "no sentinel here" <> a ++ SEP ++ b) /\
  process_buffer "no sentinel here" =
  [EvError (no_separator_msg ++ nl ++ "Full response from LLM:" ++ nl ++ "no sentinel here")].
Proof.
  assert (H0 : forall a b, "no sentinel here" <> a ++ SEP ++ b).
  { apply index_of_None_iff. vm_compute. reflexivity. }
  split; [exact H0|]. apply process_buffer_no_separator. exact H0.
Defined.

(** [{"updatedSchema": 0, "autoContinue": true}] *)
Definition falsy_schema_payload : string :=
  "{" ++ dq ++ "updatedSchema" ++ dq ++ ": 0, " ++ dq ++ "autoContinue" ++ dq ++ ": true}".

Lemma process_buffer_missing_fields_witness :
  index_of SEP ("Done." ++ "|||") = None /\
  json_parse (strip_fence (js_trim falsy_schema_payload)) =
    inr (JObj [("updatedSchema", JNum 0); ("autoContinue", JBool true)]) /\
  process_buffer ("Done." ++ SEP ++ falsy_schema_payload) =
    [EvChunk "Done.";
     EvError (parse_error_msg (strip_fence (js_trim falsy_schema_payload)) missing_fields_msg)].
Proof.
  split; [vm_compute; reflexivity|]. split; [vm_compute; reflexivity|].
  apply (process_buffer_missing_fields _ _ [("updatedSchema", JNum 0); ("autoContinue", JBool true)]);
    [vm_compute; reflexivity | vm_compute; reflexivity |].
  left. vm_compute. reflexivity.
Defined.


(** ** Properties of the whole cycle *)

Lemma gemini_buffer_concat (b : string) (texts : list string) :
  fold_left (fun buffer t => buffer ++ match t with Some s => s | None => "undefined" end)
    (map Some texts) b = b ++ String.concat "" texts.
Proof.
  revert b; induction texts as [|t ts IH]; intros b; simpl; [by rewrite str_app_nil_r|].
  rewrite IH, str_app_assoc. f_equal. symmetry. apply str_concat_cons.
Qed.

(** C9 (functional). With a Gemini key, when the SDK streams texts whose
    concatenation is a chat part, the sentinel and a valid payload, the
    cycle yields the chat part as one [chunk] and the payload as one
    [update], wherever the chunk boundaries fall, inside the sentinel
    included. *)
Theorem streamAgentCycle_google_update `{JsonParse} (net : Network) (prompt : string)
    (history : list Message) (doc : DocNode) (schema : option json) (sel : option string)
    (apiKey : string) (texts : list string) (chat rest : string)
    (fs : list (string * json)) (us : json) (b : bool) :
  apiKey <> "" ->
  (forall req, gemini_generate net req = GeminiChunks (map Some texts)) ->
  String.concat "" texts = chat ++ SEP ++ rest ->
  index_of SEP (chat ++ "|||") = None ->
  json_parse (strip_fence (js_trim rest)) = inr (JObj fs) ->
  assoc_last "updatedSchema" fs = Some us -> truthy (Some us) = true ->
  assoc_last "autoContinue" fs = Some (JBool b) ->
  streamAgentCycle net prompt history doc schema sel google apiKey =
  [EvChunk chat; EvUpdate (JObj fs)].
Proof.
  intros Hk Hnet Hcat Hn Hp Hus Ht Hac. unfold streamAgentCycle, collect_buffer.
  destruct (String.eqb_spec apiKey "") as [|_]; [done|]. rewrite Hnet.
  unfold gemini_buffer. rewrite gemini_buffer_concat, Hcat.
  change ("" ++ (chat ++ SEP ++ rest)) with (chat ++ SEP ++ rest).
  rewrite process_buffer_split, Hp by done. cbn [validate_payload get_prop].
  by rewrite Hus, Ht, Hac.
Qed.

(** C22 (error). Without a key for the selected provider the cycle yields
    exactly one [error], naming the missing key, whatever the network does:
    no request is made. *)
Theorem streamAgentCycle_missing_key `{JsonParse} (net : Network) (prompt : string)
    (history : list Message) (doc : DocNode) (schema : option json) (sel : option string)
    (provider : LLMProvider) :
  streamAgentCycle net prompt history doc schema sel provider "" =
  [EvError ("Error calling API: " ++
            match provider with google => google_key_missing | openrouter => openrouter_key_missing end)].
Proof. by destruct provider. Qed.

Lemma js_slice_last_app {A} (n : nat) (older l : list A) :
  n <= List.length l -> js_slice_last n (older ++ l) = js_slice_last n l.
Proof.
  intros Hn. unfold js_slice_last. rewrite length_app, skipn_app.
  rewrite skipn_all2 by lia. simpl. f_equal. lia.
Qed.

Lemma length_js_slice_last {A} (n : nat) (l : list A) :
  List.length (js_slice_last n l) = Nat.min n (List.length l).
Proof. unfold js_slice_last. rewrite length_skipn. lia. Qed.

(** C23 (bounds). The request carries at most the last six messages: the
    OpenRouter messages are the system instruction, [min 6 n] messages of
    the history and the prompt, and messages older than the last six
    change neither these messages nor the Gemini history context. *)
Theorem request_window (sys prompt : string) (older history : list Message) :
  6 <= List.length history ->
  List.length (openRouterMessages sys (older ++ history) prompt) = 8 /\
  openRouterMessages sys (older ++ history) prompt = openRouterMessages sys history prompt /\
  historyContext (older ++ history) = historyContext history.
Proof.
  intros Hl. unfold openRouterMessages, historyContext.
  rewrite !js_slice_last_app by done. split; [|done].
  cbn [List.length]. rewrite length_app, length_map, length_js_slice_last. cbn [List.length]. lia.
Qed.

(** C24 (error). A request that the browser refuses to build because of
    the header content (a TypeError saying [Failed to construct 'Request'])
    is reported as an invalid character in the key. *)
Theorem streamAgentCycle_invalid_header `{JsonParse} (net : Network) (prompt : string)
    (history : list Message) (doc : DocNode) (schema : option json) (sel : option string)
    (apiKey msg : string) :
  apiKey <> "" ->
  (forall req, openrouter_fetch net req = FetchThrow (mkJsError true msg)) ->
  js_includes msg "Failed to construct 'Request'" = true ->
  streamAgentCycle net prompt history doc schema sel openrouter apiKey =
  [EvError ("Error calling API: " ++ invalid_header_msg)].
Proof.
  intros Hk Hnet Hm. unfold streamAgentCycle, collect_buffer.
  destruct (String.eqb_spec apiKey "") as [|_]; [done|].
  rewrite Hnet. cbn [fetch_buffer]. unfold remap_request_error. simpl. by rewrite Hm.
Qed.

(** The system instruction names the exact sentinel at
    which the reply is split, whatever the schema and the file list. *)
Theorem system_instruction_names_separator (schema : option json) (fileList : string) :
  js_includes (getSystemInstruction schema fileList) SEP = true.
Proof.
  unfold getSystemInstruction.
  repeat first [apply (js_includes_app "") | apply js_includes_app_l].
Qed.

(** A network whose Gemini stream splits the sentinel across two chunks. *)
Definition split_sentinel_net : Network :=
  mkNetwork (fun _ => GeminiChunks (map Some ["Plan ready.|||AGENT_RESP";
                                              "ONSE_JSON||| " ++ sample_payload]))
            (fun _ => FetchThrow (mkJsError false "unused")).



Lemma streamAgentCycle_google_update_witness :
  "key" <> "" /\
  String.concat "" ["Plan ready.|||AGENT_RESP"; "ONSE_JSON||| " ++ sample_payload]
    = "Plan ready." ++ SEP ++ " " ++ sample_payload /\
  streamAgentCycle split_sentinel_net "Go" [] documentationStructure None None google "key" =
  [EvChunk "Plan ready.";
   EvUpdate (JObj [("updatedSchema", JObj []); ("autoContinue", JBool true)])].
Proof.
  split; [discriminate|]. split; [vm_compute; reflexivity|].
  apply (streamAgentCycle_google_update _ _ _ _ _ _ _
           ["Plan ready.|||AGENT_RESP"; "ONSE_JSON||| " ++ sample_payload]
           "Plan ready." (" " ++ sample_payload) _ (JObj []) true);
    first [discriminate | intros; reflexivity | vm_compute; reflexivity].
Defined.

Definition msg (i : nat) : Message := mkMessage "user" (z_to_string (Z.of_nat i)).

Lemma request_window_witness :
  6 <= List.length (map msg (seq 1 6)) /\
  openRouterMessages "sys" (msg 0 :: map msg (seq 1 6)) "p" =
  openRouterMessages "sys" (map msg (seq 1 6)) "p".
Proof.
  split; [simpl; lia|].
  apply (request_window "sys" "p" [msg 0] (map msg (seq 1 6))). simpl. lia.
Defined.

Definition bad_header_net : Network :=
  mkNetwork (fun _ => GeminiThrow (mkJsError false "unused"))
            (fun _ => FetchThrow (mkJsError true
               "Failed to construct 'Request': Invalid value of header 'Authorization'")).

Lemma streamAgentCycle_invalid_header_witness :
  js_includes "Failed to construct 'Request': Invalid value of header 'Authorization'"
              "Failed to construct 'Request'" = true /\
  streamAgentCycle bad_header_net "Go" [] documentationStructure None None openrouter "clé" =
  [EvError ("Error calling API: " ++ invalid_header_msg)].
Proof.
  split; [vm_compute; reflexivity|].
  apply (streamAgentCycle_invalid_header _ _ _ _ _ _ _
           "Failed to construct 'Request': Invalid value of header 'Authorization'");
    [discriminate | reflexivity | vm_compute; reflexivity].
Defined.
End Cycle.
