(* ===== verification/Reducer.v ===== *)
(** * The reducer [appReducer] of [src/state.ts] and the initial state of
    [src/constants.ts]

    Every action of the reducer, with the guards of the code.  The reducer
    is total on the actions the application dispatches; its result is an
    error when the code would throw (a [TypeError] on a payload of the
    wrong shape).  A [fileUpdate] whose [content] is a truthy value other
    than a string is outside the model (the tree holds strings) and is
    reported as an error as well. *)

From stdpp Require Import gmap.
From S2P Require Import Prelude JsString DocTree Seed Json Types.
Import DocTree Json Types.

Module Reducer.

(** [INITIAL_AGENT_SCHEMA] (constants.ts), as the JSON value it is. *)
Definition INITIAL_AGENT_SCHEMA : json :=
  JObj [
      ("mode", JStr "ANALYSIS");
      ("available_modes", JArr [
        JStr "ANALYSIS";
        JStr "CONTENT_GENERATION";
        JStr "REFINEMENT"]);
      ("mode_transitions", JArr [
        JObj [
          ("from", JStr "ANALYSIS");
          ("to", JStr "CONTENT_GENERATION");
          ("trigger", JStr "User provides initial project scope.")];
        JObj [
          ("from", JStr "CONTENT_GENERATION");
          ("to", JStr "REFINEMENT");
          ("trigger", JStr "Initial documents are generated.")];
        JObj [
          ("from", JStr "REFINEMENT");
          ("to", JStr "REFINEMENT");
          ("trigger", JStr "User provides feedback.")]]);
      ("wm", JObj [
        ("g", JStr "Generate a complete and coherent project documentation from user descriptions.");
        ("sg", JStr "Clarify the project scope with the user.");
        ("ctx", JStr "Awaiting user's initial project description.");
        ("pr", JObj [
          ("completed", JArr []);
          ("current", JArr [
            JStr "Understand project scope"])])]);
      ("chain", JObj [
        ("steps", JArr []);
        ("reflect", JStr "Ready to receive project details from the user. The first step is to understand what we are building.");
        ("note", JArr []);
        ("warn", JArr []);
        ("err", JArr [])]);
      ("kg", JObj [
        ("tri", JArr [])]);
      ("logic", JObj [
        ("propos", JArr []);
        ("proofs", JArr []);
        ("crits", JArr []);
        ("doubts", JArr [])]);
      ("exp", JArr [
        JStr "Software Architecture";
        JStr "Technical Writing";
        JStr "Requirement Analysis";
        JStr "UML & Mermaid.js"]);
      ("se", JArr [
        JStr "Documentation Structure";
        JStr "Markdown Formatting";
        JStr "API Design";
        JStr "Database Schema"])]
.

Definition greeting : string :=
  "Bonjour! I am AGENTX. I now operate with a more advanced reasoning model. Describe your project, and I'll generate the documentation while showing you my thought process. What we are building today?".

(** [INITIAL_STATE] completed as [App] does: [docStructure] from the seed
    and [isLoading: false]. *)
Definition initial_state : AppState := {|
  conversation_history := [mkMessage "assistant" greeting];
  agent_schema := Some INITIAL_AGENT_SCHEMA;
  docStructure := documentationStructure;
  isLoading := Some false;
  llmProvider := google;
  apiKeys := <[google := ""]> (<[openrouter := ""]> ∅)
|}.

(** The actions the application dispatches, with their payloads. *)
Inductive Action :=
| ADD_MESSAGE (m : Message)
| UPDATE_LAST_MESSAGE (s : string)
| SET_LOADING (b : bool)
| APPLY_AGENT_UPDATE (payload : json)
| SAVE_FILE_CONTENT (path content : string)
| SET_LLM_PROVIDER (p : LLMProvider)
| SET_API_KEY (p : LLMProvider) (key : string)
| OTHER_ACTION.

Fixpoint last_msg (h : list Message) : option Message :=
  match h with [] => None | [m] => Some m | _ :: h' => last_msg h' end.

(** An empty assistant message: the placeholder being streamed into. *)
Definition is_placeholder (m : Message) : bool :=
  (author m ==ₛ "assistant") && (content m ==ₛ "").

(** ['ADD_MESSAGE']: replace a trailing placeholder, else push. *)
Definition add_message (h : list Message) (m : Message) : list Message :=
  match last_msg h with
  | Some l => if is_placeholder l then (removelast h ++ [m])%list else (h ++ [m])%list
  | None => (h ++ [m])%list
  end.

(** ['UPDATE_LAST_MESSAGE']: set the content of a trailing assistant
    message. *)
Definition update_last_message (h : list Message) (s : string) : list Message :=
  match last_msg h with
  | Some l => if author l ==ₛ "assistant" then (removelast h ++ [mkMessage (author l) s])%list else h
  | None => h
  end.

(** [if (fileUpdate?.fileName && fileUpdate.content)]: the path and content
    of the file update, if it applies. *)
Definition file_update_target (fu : option json) : string + option (string * string) :=
  match fu with
  | None | Some JNull => inr None
  | Some v =>
      match get_prop (Some v) "fileName" with
      | inl e => inl e
      | inr fname =>
          if negb (truthy fname) then inr None else
          match get_prop (Some v) "content" with
          | inl e => inl e
          | inr c =>
              if negb (truthy c) then inr None else
              match fname, c with
              | Some (JStr p), Some (JStr x) => inr (Some (p, x))
              | Some (JStr _), _ => inl "a content that is not a string is outside the model"
              | _, _ => inl "targetPath.startsWith is not a function"
              end
          end
      end
  end.

Definition set_history (s : AppState) (h : list Message) : AppState :=
  mkAppState h (agent_schema s) (docStructure s) (isLoading s) (llmProvider s) (apiKeys s).
Definition set_doc (s : AppState) (d : DocNode) : AppState :=
  mkAppState (conversation_history s) (agent_schema s) d (isLoading s) (llmProvider s) (apiKeys s).
Definition set_schema (s : AppState) (us : option json) : AppState :=
  mkAppState (conversation_history s) us (docStructure s) (isLoading s) (llmProvider s) (apiKeys s).

Definition appReducer (state : AppState) (action : Action) : string + AppState :=
  match action with
  | ADD_MESSAGE m => inr (set_history state (add_message (conversation_history state) m))
  | UPDATE_LAST_MESSAGE s => inr (set_history state (update_last_message (conversation_history state) s))
  | SET_LOADING b =>
      inr (mkAppState (conversation_history state) (agent_schema state) (docStructure state)
             (Some b) (llmProvider state) (apiKeys state))
  | APPLY_AGENT_UPDATE payload =>
      match get_prop (Some payload) "updatedSchema", get_prop (Some payload) "fileUpdate" with
      | inr us, inr fu =>
          match file_update_target fu with
          | inl e => inl e
          | inr None => inr (set_schema state us)
          | inr (Some (p, c)) =>
              inr (set_doc (set_schema state us) (findAndUpdateFile (docStructure state) p c))
          end
      | inl e, _ | _, inl e => inl e
      end
  | SAVE_FILE_CONTENT path content =>
      inr (set_doc state (findAndUpdateFile (docStructure state) path content))
  | SET_LLM_PROVIDER p =>
      inr (mkAppState (conversation_history state) (agent_schema state) (docStructure state)
             (isLoading state) p (apiKeys state))
  | SET_API_KEY p key =>
      inr (mkAppState (conversation_history state) (agent_schema state) (docStructure state)
             (isLoading state) (llmProvider state) (<[p := key]> (apiKeys state)))
  | OTHER_ACTION => inr state
  end.


(** ** Lemmas *)

Lemma last_msg_removelast (h : list Message) (l : Message) :
  last_msg h = Some l -> h = (removelast h ++ [l])%list.
Proof.
  induction h as [|x [|y h] IH]; simpl; [done | by intros [= ->] |].
  intros Hl. f_equal. by apply IH.
Qed.

Lemma last_msg_None (h : list Message) : last_msg h = None -> h = [].
Proof. induction h as [|x [|y h] IH]; simpl; [done | discriminate | intros H; by apply IH in H]. Qed.

(** No placeholder but possibly the last message. *)
Definition placeholder_last (h : list Message) : bool :=
  forallb (fun m => negb (is_placeholder m)) (removelast h).

Lemma placeholder_last_add (h : list Message) (m : Message) :
  placeholder_last h = true -> placeholder_last (add_message h m) = true.
Proof.
  unfold placeholder_last, add_message. intros Hh.
  destruct (last_msg h) as [l|] eqn:Hl.
  - destruct (is_placeholder l) eqn:Hp; rewrite removelast_last; [done|].
    rewrite (last_msg_removelast h l Hl), forallb_app. simpl. by rewrite Hh, Hp.
  - by rewrite (last_msg_None h Hl).
Qed.

Lemma placeholder_last_update (h : list Message) (s : string) :
  placeholder_last h = true -> placeholder_last (update_last_message h s) = true.
Proof.
  unfold placeholder_last, update_last_message. intros Hh.
  destruct (last_msg h) as [l|]; [|done].
  destruct (author l ==ₛ "assistant"); [by rewrite removelast_last | done].
Qed.

Lemma appReducer_docStructure (s s' : AppState) (a : Action) :
  appReducer s a = inr s' ->
  docStructure s' = docStructure s \/
  exists p c, docStructure s' = findAndUpdateFile (docStructure s) p c.
Proof.
  destruct a; simpl; try (intros [= <-]; by left).
  - repeat case_match; intros; simplify_eq; first [by left | right; eauto].
  - intros [= <-]. right. eauto.
Qed.

(** Only [SET_LOADING] changes the loading flag. *)
Lemma appReducer_isLoading (s s' : AppState) (a : Action) :
  (forall b, a <> SET_LOADING b) -> appReducer s a = inr s' -> isLoading s' = isLoading s.
Proof.
  intros Hnot. destruct a; simpl; repeat case_match; intros; simplify_eq; try done.
  by destruct (Hnot b).
Qed.

(** ** Properties of the reducer *)

(** C16 (invariant). Every action keeps the history free of placeholders
    (empty assistant messages) except possibly the last message: there is
    at most one open assistant message, and it is the last. *)
Theorem appReducer_placeholder_last (s s' : AppState) (a : Action) :
  placeholder_last (conversation_history s) = true ->
  appReducer s a = inr s' ->
  placeholder_last (conversation_history s') = true.
Proof.
  intros Hh. destruct a; simpl; try (intros [= <-]; done).
  - intros [= <-]. by apply placeholder_last_add.
  - intros [= <-]. by apply placeholder_last_update.
  - by repeat case_match; intros; simplify_eq.
Qed.

(** C15 (invariant). Every action keeps the document tree well formed. *)
Theorem appReducer_preserves_wf (s s' : AppState) (a : Action) :
  root_wf (docStructure s) = true -> appReducer s a = inr s' ->
  root_wf (docStructure s') = true.
Proof.
  intros Hwf Hr. destruct (appReducer_docStructure _ _ _ Hr) as [->|(p & c & ->)]; [done|].
  by apply root_wf_update.
Qed.

(** The payload of an update with a file update, as the model sends it. *)
Definition update_payload (schema : json) (p c : string) (auto : bool) : json :=
  JObj [("updatedSchema", schema);
        ("fileUpdate", JObj [("fileName", JStr p); ("content", JStr c)]);
        ("autoContinue", JBool auto)].

(** C14 (functional). Applying an update replaces the schema and writes
    the file update into the tree, except when the path or the content is
    empty: an update that empties a file is dropped. *)
Theorem apply_update_payload (s : AppState) (schema : json) (p c : string) (auto : bool) :
  appReducer s (APPLY_AGENT_UPDATE (update_payload schema p c auto)) =
  inr (set_doc (set_schema s (Some schema))
         (if (p ==ₛ "") || (c ==ₛ "") then docStructure s
          else findAndUpdateFile (docStructure s) p c)).
Proof.
  cbn [appReducer get_prop update_payload assoc_last String.eqb].
  simpl. destruct (p ==ₛ ""), (c ==ₛ ""); reflexivity.
Qed.

Lemma appReducer_placeholder_last_witness :
  exists s', placeholder_last (conversation_history initial_state) = true /\
    appReducer initial_state (ADD_MESSAGE (mkMessage "assistant" "")) = inr s' /\
    placeholder_last (conversation_history s') = true.
Proof.
  destruct (appReducer initial_state (ADD_MESSAGE (mkMessage "assistant" ""))) as [e|s'] eqn:E;
    [vm_compute in E; discriminate|].
  exists s'. assert (H0 : placeholder_last (conversation_history initial_state) = true)
    by (vm_compute; reflexivity).
  split; [exact H0|]. split; [reflexivity|]. exact (appReducer_placeholder_last _ _ _ H0 E).
Defined.

Lemma appReducer_preserves_wf_witness :
  exists s', root_wf (docStructure initial_state) = true /\
    appReducer initial_state (SAVE_FILE_CONTENT "docs/analysis/glossary.md" "# Terms") = inr s' /\
    root_wf (docStructure s') = true.
Proof.
  destruct (appReducer initial_state (SAVE_FILE_CONTENT "docs/analysis/glossary.md" "# Terms"))
    as [e|s'] eqn:E; [vm_compute in E; discriminate|].
  exists s'. assert (H0 : root_wf (docStructure initial_state) = true) by (vm_compute; reflexivity).
  split; [exact H0|]. split; [reflexivity|]. exact (appReducer_preserves_wf _ _ _ H0 E).
Defined.
End Reducer.
