(* ===== verification/Controller.v ===== *)
(** * The session controller: [src/App.tsx]

    The component [App] keeps, besides the reducer's state, a ref
    [isRunningRef] (the running flag), the state [nextAutoPrompt] whose
    effect schedules a timer of 2500 ms, the selected path, the last
    updated file and the active tab.  A cycle is started by
    [handleSendMessage] and its reply arrives later: between the two, other
    inputs can happen.  The controller is a step function over inputs:
    [UserSend] (the chat panel, enabled when not loading), [Deliver] (the
    reply of the [i]-th cycle in flight, from a network), [TimerFire] (the
    scheduled [executeNextStep]), [Stop] (the stop button, shown while
    loading), and the edits that only dispatch.  All the events of a reply
    are handled in one step: after the reply has arrived the generator
    yields them without waiting on the network, so no click can come in
    between. *)

From stdpp Require Import gmap.
From S2P Require Import Prelude JsString DocTree Seed Json Types Backend Cycle Reducer.
Import DocTree Json Types Backend Cycle Reducer.

Module Controller.

(** A cycle in flight: what [handleSendMessage] passed to
    [streamAgentCycle]. *)
Record Pending := mkPending {
  pd_message : string; pd_state : AppState; pd_selected : option string; pd_key : string }.

Record Ctrl := mkCtrl {
  st : AppState;                 (** the reducer's state, [stateRef.current] *)
  running : bool;                (** [isRunningRef.current] *)
  nextAutoPrompt : option string;
  timer : option string;         (** a scheduled [executeNextStep] and its prompt *)
  inflight : list Pending;
  selected : option string;      (** [selectedNodePath] *)
  lastUpdated : option string;   (** [lastUpdatedFile] *)
  activeTab : string;
  crash : option string          (** an exception thrown by the reducer *)
}.

Definition with_st (c : Ctrl) (s : AppState) : Ctrl :=
  mkCtrl s (running c) (nextAutoPrompt c) (timer c) (inflight c) (selected c) (lastUpdated c) (activeTab c) (crash c).
Definition with_running (c : Ctrl) (b : bool) : Ctrl :=
  mkCtrl (st c) b (nextAutoPrompt c) (timer c) (inflight c) (selected c) (lastUpdated c) (activeTab c) (crash c).
Definition with_next (c : Ctrl) (n t : option string) : Ctrl :=
  mkCtrl (st c) (running c) n t (inflight c) (selected c) (lastUpdated c) (activeTab c) (crash c).
Definition with_timer (c : Ctrl) (t : option string) : Ctrl := with_next c (nextAutoPrompt c) t.
Definition with_inflight (c : Ctrl) (l : list Pending) : Ctrl :=
  mkCtrl (st c) (running c) (nextAutoPrompt c) (timer c) l (selected c) (lastUpdated c) (activeTab c) (crash c).
Definition with_selected (c : Ctrl) (p : option string) : Ctrl :=
  mkCtrl (st c) (running c) (nextAutoPrompt c) (timer c) (inflight c) p (lastUpdated c) (activeTab c) (crash c).
Definition with_file (c : Ctrl) (p : string) : Ctrl :=
  mkCtrl (st c) (running c) (nextAutoPrompt c) (timer c) (inflight c) (Some p) (Some p) (activeTab c) (crash c).
Definition with_tab (c : Ctrl) (t : string) : Ctrl :=
  mkCtrl (st c) (running c) (nextAutoPrompt c) (timer c) (inflight c) (selected c) (lastUpdated c) t (crash c).
Definition with_crash (c : Ctrl) (e : string) : Ctrl :=
  mkCtrl (st c) (running c) (nextAutoPrompt c) (timer c) (inflight c) (selected c) (lastUpdated c) (activeTab c) (Some e).

(** [dispatch(action)]. *)
Definition dispatch (c : Ctrl) (a : Action) : Ctrl :=
  match appReducer (st c) a with inr s => with_st c s | inl e => with_crash c e end.

(** [setNextAutoPrompt(x)] and its effect: a change of value clears the
    scheduled timer and, for a prompt, schedules a new one; setting the
    same value does nothing. *)
Definition set_next (c : Ctrl) (x : option string) : Ctrl :=
  if decide (x = nextAutoPrompt c) then c else with_next c x x.

Definition continue_prompt : string := "Continue with the plan.".
Definition stop_notice : string := "‚èπÔ∏è Autonomous process stopped by user.".

(** [handleSendMessage(message, currentState)], up to its first [await]. *)
Definition handleSendMessage (c : Ctrl) (message : string) (a_state : AppState) : Ctrl :=
  if (js_trim message ==ₛ "") || running c then c else
  match apiKeys a_state !! llmProvider a_state with
  | Some key =>
      if key ==ₛ "" then with_tab c "settings" else
      let c1 := with_running c true in
      let c2 := dispatch c1 (ADD_MESSAGE (mkMessage "user" message)) in
      let c3 := dispatch c2 (SET_LOADING true) in
      let c4 := dispatch c3 (ADD_MESSAGE (mkMessage "assistant" "")) in
      with_inflight c4 (inflight c4 ++ [mkPending message a_state (selected c) key])%list
  | None => with_tab c "settings"
  end.

(** [if (event.payload.fileUpdate?.fileName) { setLastUpdatedFile(..);
    setSelectedNodePath(..) }]; a truthy file name that is not a string
    makes the next render throw in [findNodeByPath]. *)
Definition note_file (c : Ctrl) (v : json) : Ctrl :=
  match get_prop (Some v) "fileUpdate" with
  | inr (Some fu) =>
      match fu with
      | JNull => c
      | _ => match get_prop (Some fu) "fileName" with
             | inr fname =>
                 if negb (truthy fname) then c else
                 match fname with
                 | Some (JStr p) => with_file c p
                 | _ => with_crash c "path.split is not a function"
                 end
             | inl e => with_crash c e
             end
      end
  | _ => c
  end.

(** One event of [for await (const event of stream)], with the
    accumulated [fullStreamedContent]. *)
Definition process_event (cf : Ctrl * string) (ev : AgentStreamEvent) : Ctrl * string :=
  let '(c, full) := cf in
  match ev with
  | EvChunk p => (dispatch c (UPDATE_LAST_MESSAGE (full ++ p)), full ++ p)
  | EvUpdate v =>
      let c2 := note_file (dispatch c (APPLY_AGENT_UPDATE v)) v in
      let auto := match get_prop (Some v) "autoContinue" with inr a => truthy a | inl _ => false end in
      (if auto then set_next c2 (Some continue_prompt)
       else dispatch (with_running c2 false) (SET_LOADING false), full)
  | EvError e =>
      (dispatch (with_running (dispatch c (UPDATE_LAST_MESSAGE (full ++ nl ++ nl ++ "**Error:** " ++ e)))
                  false) (SET_LOADING false), full)
  end.

(** The reply of the [i]-th cycle in flight arrives. *)
Definition deliver (c : Ctrl) (i : nat) (net : Network) : option Ctrl :=
  match nth_error (inflight c) i with
  | None => None
  | Some P =>
      let c0 := with_inflight c (delete i (inflight c)) in
      let s := pd_state P in
      let evs := streamAgentCycle net (pd_message P) (conversation_history s) (docStructure s)
                   (agent_schema s) (pd_selected P) (llmProvider s) (pd_key P) in
      Some (fst (fold_left process_event evs (c0, "")))
  end.

(** [executeNextStep] of the auto-continuation effect. *)
Definition executeNextStep (c : Ctrl) (prompt : string) : Ctrl :=
  if running c then c else
  let currentState := st c in
  handleSendMessage (set_next c None) prompt currentState.

(** [handleStop]. *)
Definition handleStop (c : Ctrl) : Ctrl :=
  let c1 := with_running (set_next c None) false in
  dispatch (dispatch c1 (SET_LOADING false)) (ADD_MESSAGE (mkMessage "assistant" stop_notice)).

(** [handleSaveFile(path, content)], the [onSave] of the file viewer. *)
Definition handleSaveFile (c : Ctrl) (path content : string) : Ctrl :=
  dispatch c (SAVE_FILE_CONTENT path content).

Inductive Input :=
| UserSend (m : string)
| Deliver (i : nat) (net : Network)
| TimerFire
| Stop
| SaveFile (path content : string)
| SelectNode (path : string)
| SetProvider (p : LLMProvider)
| SetApiKey (p : LLMProvider) (key : string).

Definition loading (c : Ctrl) : bool :=
  match isLoading (st c) with Some true => true | _ => false end.

(** One input, [None] when it is not enabled. *)
Definition step (c : Ctrl) (i : Input) : option Ctrl :=
  match i with
  | UserSend m => if loading c || (js_trim m ==ₛ "") then None else Some (handleSendMessage c m (st c))
  | Deliver k net => deliver c k net
  | TimerFire =>
      match timer c with Some p => Some (executeNextStep (with_timer c None) p) | None => None end
  | Stop => if loading c then Some (handleStop c) else None
  | SaveFile p x => if p ==ₛ "" then None else Some (handleSaveFile c p x)
  | SelectNode p => Some (with_selected c (Some p))
  | SetProvider p => Some (dispatch c (SET_LLM_PROVIDER p))
  | SetApiKey p k => Some (dispatch c (SET_API_KEY p k))
  end.

Fixpoint run (c : Ctrl) (ins : list Input) : option Ctrl :=
  match ins with
  | [] => Some c
  | i :: ins' => match step c i with Some c' => run c' ins' | None => None end
  end.

Definition initial_ctrl : Ctrl :=
  mkCtrl initial_state false None None [] None None "chat" None.


(** ** What each operation leaves unchanged *)

Create Rewrite HintDb ctrl.

Lemma inflight_dispatch (c : Ctrl) (a : Action) : inflight (dispatch c a) = inflight c.
Proof. unfold dispatch. by destruct (appReducer _ _). Qed.
Lemma running_dispatch (c : Ctrl) (a : Action) : running (dispatch c a) = running c.
Proof. unfold dispatch. by destruct (appReducer _ _). Qed.
Lemma inflight_set_next (c : Ctrl) (x : option string) : inflight (set_next c x) = inflight c.
Proof. unfold set_next. by case_decide. Qed.
Lemma running_set_next (c : Ctrl) (x : option string) : running (set_next c x) = running c.
Proof. unfold set_next. by case_decide. Qed.
Lemma isLoading_set_next (c : Ctrl) (x : option string) : st (set_next c x) = st c.
Proof. unfold set_next. by case_decide. Qed.

#[export] Hint Rewrite inflight_dispatch running_dispatch inflight_set_next running_set_next
  isLoading_set_next : ctrl.

(** [SET_LOADING b] always succeeds and sets the flag. *)
Lemma dispatch_set_loading (c : Ctrl) (b : bool) :
  loading (dispatch c (SET_LOADING b)) = b /\ running (dispatch c (SET_LOADING b)) = running c.
Proof. unfold dispatch, loading. simpl. by destruct b. Qed.

Lemma loading_dispatch_update_last (c : Ctrl) (s : string) :
  loading (dispatch c (UPDATE_LAST_MESSAGE s)) = loading c.
Proof. done. Qed.

Lemma loading_dispatch (c : Ctrl) (a : Action) :
  (forall b, a <> SET_LOADING b) -> loading (dispatch c a) = loading c.
Proof.
  intros Hnot. unfold dispatch, loading. destruct (appReducer _ _) as [|s'] eqn:E; [done|].
  simpl. by rewrite (appReducer_isLoading (st c) s' a).
Qed.

Lemma loading_dispatch_apply (c : Ctrl) (v : json) :
  loading (dispatch c (APPLY_AGENT_UPDATE v)) = loading c.
Proof. apply loading_dispatch. by intros b. Qed.

Lemma note_file_keeps (c : Ctrl) (v : json) :
  running (note_file c v) = running c /\ st (note_file c v) = st c /\
  inflight (note_file c v) = inflight c.
Proof. unfold note_file. by repeat case_match. Qed.

Lemma loading_set_next (c : Ctrl) (x : option string) : loading (set_next c x) = loading c.
Proof. unfold loading. by rewrite isLoading_set_next. Qed.

(** Handling events never starts or removes a cycle. *)
Lemma inflight_process_event (cf : Ctrl * string) (ev : AgentStreamEvent) :
  inflight (fst (process_event cf ev)) = inflight (fst cf).
Proof.
  destruct cf as [c full].
  destruct ev as [p|v|e]; simpl; autorewrite with ctrl; [done| |done].
  destruct (note_file_keeps (dispatch c (APPLY_AGENT_UPDATE v)) v) as (_ & _ & Hi).
  case_match; simpl; autorewrite with ctrl; simpl; by rewrite Hi, ?inflight_dispatch.
Qed.

Lemma inflight_fold_events (evs : list AgentStreamEvent) (cf : Ctrl * string) :
  inflight (fst (fold_left process_event evs cf)) = inflight (fst cf).
Proof.
  revert cf; induction evs as [|ev evs IH]; intros cf; [done|].
  simpl. by rewrite IH, inflight_process_event.
Qed.

(** A chunk, or an update asking to continue, keeps the running and loading
    flags. *)
Lemma flags_process_nonterminal (cf : Ctrl * string) (ev : AgentStreamEvent) :
  match ev with
  | EvChunk _ => True
  | EvUpdate v => get_prop (Some v) "autoContinue" = inr (Some (JBool true))
  | EvError _ => False
  end ->
  running (fst (process_event cf ev)) = running (fst cf) /\
  loading (fst (process_event cf ev)) = loading (fst cf).
Proof.
  destruct cf as [c full]. destruct ev as [p|v|e]; simpl; [done| |done].
  intros Hac. rewrite Hac. cbn [truthy]. rewrite running_set_next, loading_set_next.
  destruct (note_file_keeps (dispatch c (APPLY_AGENT_UPDATE v)) v) as (Hr & Hs & _).
  rewrite Hr, running_dispatch. split; [done|].
  unfold loading at 1. rewrite Hs. apply loading_dispatch_apply.
Qed.

(** ** The stalled controller *)

(** Running, loading, and no cycle in flight. *)
Definition stalled (c : Ctrl) : Prop := running c = true /\ inflight c = [] /\ loading c = true.

Lemma step_stalled (c c' : Ctrl) (i : Input) :
  stalled c -> i <> Stop -> step c i = Some c' -> stalled c'.
Proof.
  intros (Hr & Hi & Hl) Hns. unfold stalled.
  destruct i as [m|k net| | |p x|p|p|p k]; simpl.
  - by rewrite Hl.
  - unfold deliver. rewrite Hi. by destruct k.
  - destruct (timer c) as [p|]; [|done]. intros [= <-].
    unfold executeNextStep. simpl. by rewrite Hr.
  - done.
  - destruct (p ==ₛ ""); [done|]. intros [= <-]. unfold handleSaveFile. autorewrite with ctrl.
    by rewrite loading_dispatch.
  - by intros [= <-].
  - intros [= <-]. autorewrite with ctrl. by rewrite loading_dispatch.
  - intros [= <-]. autorewrite with ctrl. by rewrite loading_dispatch.
Qed.

Lemma run_stalled (ins : list Input) (c c' : Ctrl) :
  stalled c -> Forall (fun i => i <> Stop) ins -> run c ins = Some c' -> stalled c'.
Proof.
  intros Hs Hall. revert c Hs; induction Hall as [|i ins Hi _ IH]; intros c Hs; simpl.
  - by intros [= <-].
  - destruct (step c i) as [c1|] eqn:E; [|done]. apply IH. by eapply step_stalled.
Qed.

(** C1 (liveness). The auto-continuation never fires.  When the reply of
    the only cycle in flight is a chat part and an update with
    [autoContinue: true], the code keeps [isRunningRef] set and the loading
    flag on; the timer then finds the flag set and returns, the chat panel
    is disabled, so whatever the user does short of Stop, no cycle is ever
    started again: the continuation the spec promises "exactly once" is
    never submitted and the session stays busy. *)
Theorem auto_continue_stalls (c c' : Ctrl) (P : Pending) (net : Network)
    (ch : string) (v : json) (ins : list Input) :
  running c = true -> loading c = true -> inflight c = [P] ->
  streamAgentCycle net (pd_message P) (conversation_history (pd_state P))
    (docStructure (pd_state P)) (agent_schema (pd_state P)) (pd_selected P)
    (llmProvider (pd_state P)) (pd_key P) = [EvChunk ch; EvUpdate v] ->
  get_prop (Some v) "autoContinue" = inr (Some (JBool true)) ->
  Forall (fun i => i <> Stop) ins ->
  run c (Deliver 0 net :: ins) = Some c' ->
  running c' = true /\ inflight c' = [] /\ loading c' = true.
Proof.
  intros Hr Hl Hi Hevs Hac Hall. cbn [run step]. unfold deliver. rewrite Hi. cbn [nth_error].
  rewrite Hevs. intros Hrun. change (stalled c'). refine (run_stalled ins _ c' _ Hall Hrun). unfold stalled.
  rewrite inflight_fold_events. cbn [fold_left].
  destruct (flags_process_nonterminal (process_event (with_inflight c (delete 0 [P]), "") (EvChunk ch)) (EvUpdate v) Hac) as [H1 H2].
  destruct (flags_process_nonterminal (with_inflight c (delete 0 [P]), "") (EvChunk ch) I) as [H3 H4].
  by rewrite H1, H2, H3, H4.
Qed.

(** ** Concrete sessions *)

(** A Gemini backend that always answers with a plan step and
    [autoContinue: true]. *)
Definition auto_net : Network :=
  mkNetwork (fun _ => GeminiChunks [Some ("Working." ++ JSON_RESPONSE_SEPARATOR ++ sample_payload)])
            (fun _ => FetchThrow (mkJsError false "unused")).

(** A Gemini backend whose reply lacks the sentinel. *)
Definition garbled_net : Network :=
  mkNetwork (fun _ => GeminiChunks [Some "oops"])
            (fun _ => FetchThrow (mkJsError false "unused")).

(** The session after the user set a Gemini key and sent "Hi". *)
Definition sent_ctrl : Ctrl :=
  match run initial_ctrl [SetApiKey google "k"; UserSend "Hi"] with
  | Some c => c | None => initial_ctrl
  end.

Definition sent_pending : Pending :=
  match inflight sent_ctrl with P :: _ => P | [] => mkPending "" initial_state None "" end.

Lemma auto_continue_stalls_witness :
  exists c', run sent_ctrl [Deliver 0 auto_net; TimerFire; SelectNode "docs"] = Some c' /\
             running c' = true /\ inflight c' = [] /\ loading c' = true.
Proof.
  destruct (run sent_ctrl [Deliver 0 auto_net; TimerFire; SelectNode "docs"]) as [c'|] eqn:E;
    [| vm_compute in E; discriminate].
  exists c'. split; [reflexivity|].
  apply (auto_continue_stalls sent_ctrl c' sent_pending auto_net "Working."
           (JObj [("updatedSchema", JObj []); ("autoContinue", JBool true)])
           [TimerFire; SelectNode "docs"]); try (vm_compute; reflexivity); [|exact E].
  constructor; [discriminate|]. constructor; [discriminate|]. constructor.
Defined.

(** ** The concurrency guard *)

Lemma handleSendMessage_cases (c : Ctrl) (m : string) (s : AppState) :
  handleSendMessage c m s = c \/ handleSendMessage c m s = with_tab c "settings" \/
  (running c = false /\ exists P, running (handleSendMessage c m s) = true /\
                                  inflight (handleSendMessage c m s) = (inflight c ++ [P])%list).
Proof.
  unfold handleSendMessage. destruct ((js_trim m ==ₛ "") || running c) eqn:E; [by left|].
  apply orb_false_iff in E as [_ Hr].
  destruct (apiKeys s !! llmProvider s) as [k|]; [|by right; left].
  destruct (k ==ₛ ""); [by right; left|]. right; right. split; [done|].
  eexists. simpl. autorewrite with ctrl. simpl. split; reflexivity.
Qed.

(** No cycle in flight, or exactly one while the running flag is set. *)
Definition at_most_one (c : Ctrl) : Prop :=
  inflight c = [] \/ exists P, inflight c = [P] /\ running c = true.

Lemma at_most_one_same (c c' : Ctrl) :
  inflight c' = inflight c -> running c' = running c -> at_most_one c -> at_most_one c'.
Proof. intros Hi Hr [H|(P & H & Hrun)]; [left | right; exists P]; by rewrite ?Hi, ?Hr. Qed.

Lemma at_most_one_send (c : Ctrl) (m : string) (s : AppState) :
  at_most_one c -> at_most_one (handleSendMessage c m s).
Proof.
  intros Hc. destruct (handleSendMessage_cases c m s) as [->|[->|[Hr [P [Hr' Hi']]]]]; [done | |].
  - by apply (at_most_one_same c).
  - destruct Hc as [H|(? & _ & Hrun)]; [|congruence]. right. exists P. by rewrite Hi', H.
Qed.

Lemma step_at_most_one (c c' : Ctrl) (i : Input) :
  at_most_one c -> i <> Stop -> step c i = Some c' -> at_most_one c'.
Proof.
  intros Hc Hns. destruct i as [m|k net| | |p x|p|p|p k]; simpl.
  - destruct (loading c || _); [done|]. intros [= <-]. by apply at_most_one_send.
  - unfold deliver. destruct (nth_error (inflight c) k) as [P|] eqn:Hk; [|done].
    intros [= <-]. left. rewrite inflight_fold_events. simpl.
    destruct Hc as [H|(P' & H & _)]; rewrite H in Hk |- *; [by destruct k|].
    by destruct k as [|[|k]].
  - destruct (timer c) as [p|]; [|done]. intros [= <-]. unfold executeNextStep. simpl.
    destruct (running c) eqn:Hr; [by apply (at_most_one_same c)|].
    apply at_most_one_send. apply (at_most_one_same c); autorewrite with ctrl; done.
  - done.
  - destruct (p ==ₛ ""); [done|]. intros [= <-].
    apply (at_most_one_same c); autorewrite with ctrl; done.
  - intros [= <-]. by apply (at_most_one_same c).
  - intros [= <-]. apply (at_most_one_same c); autorewrite with ctrl; done.
  - intros [= <-]. apply (at_most_one_same c); autorewrite with ctrl; done.
Qed.

Lemma run_at_most_one (ins : list Input) (c c' : Ctrl) :
  at_most_one c -> Forall (fun i => i <> Stop) ins -> run c ins = Some c' -> at_most_one c'.
Proof.
  intros Hs Hall. revert c Hs; induction Hall as [|i ins Hi _ IH]; intros c Hs; simpl.
  - by intros [= <-].
  - destruct (step c i) as [c1|] eqn:E; [|done]. apply IH. by eapply step_at_most_one.
Qed.



(** C4 (invariant). In every session from the start in which Stop is not
    pressed, at most one cycle is in flight, and only while the running
    flag is set. *)
Theorem stop_free_at_most_one (ins : list Input) (c' : Ctrl) :
  Forall (fun i => i <> Stop) ins -> run initial_ctrl ins = Some c' ->
  inflight c' = [] \/ exists P, inflight c' = [P] /\ running c' = true.
Proof. intros Hall Hrun. refine (run_at_most_one ins initial_ctrl c' _ Hall Hrun). by left. Qed.

Lemma stop_free_at_most_one_witness :
  exists c', Forall (fun i => i <> Stop) [SetApiKey google "k"; UserSend "Hi"] /\
    run initial_ctrl [SetApiKey google "k"; UserSend "Hi"] = Some c' /\
    (inflight c' = [] \/ exists P, inflight c' = [P] /\ running c' = true).
Proof.
  exists sent_ctrl.
  assert (Hall : Forall (fun i => i <> Stop) [SetApiKey google "k"; UserSend "Hi"]).
  { constructor; [discriminate|]. constructor; [discriminate|]. constructor. }
  assert (Hrun : run initial_ctrl [SetApiKey google "k"; UserSend "Hi"] = Some sent_ctrl)
    by (vm_compute; reflexivity).
  split; [exact Hall|]. split; [exact Hrun|]. exact (stop_free_at_most_one _ _ Hall Hrun).
Defined.

(** ** Terminal events and Stop *)

(** An error, or an update that does not ask to continue. *)
Definition terminal (ev : AgentStreamEvent) : Prop :=
  match ev with
  | EvError _ => True
  | EvUpdate v => exists a, get_prop (Some v) "autoContinue" = inr a /\ truthy a = false
  | EvChunk _ => False
  end.

Lemma process_terminal (cf : Ctrl * string) (ev : AgentStreamEvent) :
  terminal ev -> running (fst (process_event cf ev)) = false /\ loading (fst (process_event cf ev)) = false.
Proof.
  destruct cf as [c full]. destruct ev as [p|v|e]; cbn [process_event fst]; [done| |].
  - intros (a & Ha & Ht). rewrite Ha. cbv beta iota. rewrite Ht.
    destruct (dispatch_set_loading (with_running (note_file (dispatch c (APPLY_AGENT_UPDATE v)) v) false) false)
      as [-> ->]. done.
  - intros _. destruct (dispatch_set_loading (with_running (dispatch c (UPDATE_LAST_MESSAGE
      (full ++ nl ++ nl ++ "**Error:** " ++ e))) false) false) as [-> ->]. done.
Qed.

(** C17 (error). When the last event of a reply is an error, or an update
    without [autoContinue], the running flag and the loading flag are
    cleared: the user can send again. *)
Theorem deliver_terminal_clears (c c' : Ctrl) (i : nat) (P : Pending) (net : Network)
    (evs : list AgentStreamEvent) (ev : AgentStreamEvent) :
  nth_error (inflight c) i = Some P ->
  streamAgentCycle net (pd_message P) (conversation_history (pd_state P))
    (docStructure (pd_state P)) (agent_schema (pd_state P)) (pd_selected P)
    (llmProvider (pd_state P)) (pd_key P) = (evs ++ [ev])%list ->
  terminal ev ->
  deliver c i net = Some c' -> running c' = false /\ loading c' = false.
Proof.
  intros Hi Hevs Ht. unfold deliver. rewrite Hi, Hevs, fold_left_app. intros [= <-].
  by apply process_terminal.
Qed.

Lemma deliver_terminal_clears_witness :
  exists c', deliver sent_ctrl 0 garbled_net = Some c' /\
             running c' = false /\ loading c' = false.
Proof.
  destruct (deliver sent_ctrl 0 garbled_net) as [c'|] eqn:E; [| vm_compute in E; discriminate].
  exists c'. split; [reflexivity|].
  apply (deliver_terminal_clears sent_ctrl c' 0 sent_pending garbled_net []
           (EvError (no_separator_msg ++ nl ++ "Full response from LLM:" ++ nl ++ "oops")));
    [vm_compute; reflexivity | vm_compute; reflexivity | exact I | exact E].
Defined.


End Controller.
