(* ===== verification/Panels.v ===== *)
(** * The panels that show the agent schema: [src/components/AgentConfigPanel.tsx]
    and [src/components/ReasoningPanel.tsx]

    Both panels read the stored schema ([state.agent_schema], the JSON
    value of the last accepted update) with property reads, [.map],
    [.join] and [.length], and show what they read as React children.
    Each panel is a function from the stored value to the texts it shows
    or the exception its render throws.  A throw in a render unmounts the
    whole application, since the code has no error boundary.  The view
    keeps the text nodes of each item in order; the static titles and the
    styling are left out.

    JavaScript and React as the panels use them:
    - a property read of [null] or [undefined] throws;
    - [.map] and [.join] of a value that is not an array throw;
    - a React child that is a plain object throws;
    - [null], [undefined] and booleans render nothing;
    - [x > 0] converts [x] to a number.  The conversion is modelled for
      [undefined], [null], booleans and numbers.  For a string, an array
      or an object, which a [.length] property of an object can hold, it
      is reported as outside the model ([out_of_model]). *)

From S2P Require Import Prelude JsString DocTree Json Types Schema Cycle Reducer.
Import DocTree Json Types Schema Cycle Reducer.

Module Panels.

(** ** JavaScript values as the panels read them *)

Definition not_a_function (what : string) : string := "TypeError: " ++ what ++ " is not a function".
Definition objects_not_valid : string := "Objects are not valid as a React child".
Definition out_of_model : string := "ToNumber of a string or an object".

(** A value as a React child: its text. *)
Fixpoint react_child (v : json) : string + string :=
  match v with
  | JNull | JBool _ => inr ""
  | JNum n => inr (z_to_string n)
  | JStr s => inr s
  | JArr xs => ts ←ₑ map_sum react_child xs; inr (String.concat "" ts)
  | JObj _ => inl objects_not_valid
  end.

Definition react_opt (o : option json) : string + string :=
  match o with None => inr "" | Some v => react_child v end.

(** [${v}] in a template literal. *)
Definition template (o : option json) : string :=
  match o with None => "undefined" | Some v => js_to_string v end.

(** [a || b]. *)
Definition js_or (a b : option json) : option json := if truthy a then a else b.

(** [v.join(sep)]: the elements converted as [Array.prototype.join] does. *)
Definition array_join (what : string) (o : option json) (sep : string) : string + string :=
  match o with
  | Some (JArr xs) =>
      inr (String.concat sep (map (fun x => match x with JNull => "" | _ => js_to_string x end) xs))
  | None | Some JNull => inl (type_error "join")
  | Some _ => inl (not_a_function (what ++ ".join"))
  end.

(** [v.map(f)]. *)
Definition array_map {A} (what : string) (o : option json) (f : json -> string + A)
    : string + list A :=
  match o with
  | Some (JArr xs) => map_sum f xs
  | None | Some JNull => inl (type_error "map")
  | Some _ => inl (not_a_function (what ++ ".map"))
  end.

(** [v.length]: of an array or a string its length, of an object its
    [length] property. *)
Definition js_length (o : option json) : string + option json :=
  match o with
  | None | Some JNull => inl (type_error "length")
  | Some (JArr xs) => inr (Some (JNum (Z.of_nat (List.length xs))))
  | Some (JStr s) => inr (Some (JNum (Z.of_nat (String.length s))))
  | Some (JObj fs) => inr (assoc_last "length" fs)
  | Some _ => inr None
  end.

(** [x > 0]. *)
Definition gt0 (o : option json) : string + bool :=
  match o with
  | None | Some JNull => inr false
  | Some (JBool b) => inr b
  | Some (JNum n) => inr (Z.ltb 0 n)
  | Some _ => inl out_of_model
  end.

(** [x === 0]. *)
Definition is_zero (o : option json) : bool :=
  match o with Some (JNum n) => Z.eqb n 0 | _ => false end.

(** [x === s] for a string [s]. *)
Definition is_str (s : string) (o : option json) : bool :=
  match o with Some (JStr s') => s' ==ₛ s | _ => false end.

(** ** [AgentConfigPanel] *)

(** [{children || 'N/A'}] of a [ConfigItem] whose child is a string. *)
Definition or_na (s : string) : string := if s ==ₛ "" then "N/A" else s.

(** [{children || 'N/A'}] of a [ConfigItem] whose child is a value. *)
Definition or_na_value (o : option json) : string + string :=
  if truthy o then react_opt o else inr "N/A".

Definition arrow : string := " → ".

Definition render_transition (t : json) : string + string :=
  from' ←ₑ get_prop (Some t) "from"; to' ←ₑ get_prop (Some t) "to";
  trigger' ←ₑ get_prop (Some t) "trigger";
  inr ("[" ++ template from' ++ arrow ++ template to' ++ "] if (" ++ template trigger' ++ ")").

(** A child of [ConfigItem]: the [<span>] of the mode, with the value it
    shows; a string; or a value shown as it is. *)
Inductive ConfigChild := ChSpan (o : option json) | ChStr (s : string) | ChVal (o : option json).

(** [ConfigItem]: the label, and [{children || 'N/A'}] rendered.  An
    element is truthy; the values inside it or in the item render when
    React renders the item, after the panel has computed all its
    children. *)
Definition ConfigItem (label : string) (children : ConfigChild) : string + (string * string) :=
  match children with
  | ChSpan o => t ←ₑ react_opt o; inr (label, t)
  | ChStr s => inr (label, or_na s)
  | ChVal o => t ←ₑ or_na_value o; inr (label, t)
  end.

(** The labels and texts of the panel, in order: the children first, as
    the panel's render computes them, then each [ConfigItem]. *)
Definition AgentConfigPanel (schema : option json) : string + list (string * string) :=
  mode' ←ₑ get_prop schema "mode";
  am ←ₑ get_prop schema "available_modes";
  modes ←ₑ array_join "(schema.available_modes || [])" (js_or am (Some (JArr []))) ", ";
  wm' ←ₑ get_prop schema "wm";
  g' ←ₑ get_prop wm' "g"; sg' ←ₑ get_prop wm' "sg"; ctx' ←ₑ get_prop wm' "ctx";
  mt ←ₑ get_prop schema "mode_transitions";
  ts ←ₑ array_map "(schema.mode_transitions || [])" (js_or mt (Some (JArr []))) render_transition;
  map_sum (fun '(label, child) => ConfigItem label child)
    [("Mode Actuel", ChSpan mode');
     ("Modes Disponibles", ChStr modes);
     ("Objectif Global (WM.g)", ChVal g');
     ("Sous-Objectif Actuel (WM.sg)", ChVal sg');
     ("Contexte (WM.ctx)", ChVal ctx');
     ("Transitions de Mode", ChStr (String.concat JsString.nl ts))].

(** ** [ReasoningPanel] *)

(** [LogicList]: nothing for a falsy or empty list, else one item per
    element, a string as it is and an object as [symb: nl]. *)
Definition LogicList (items : option json) : string + list (list string) :=
  if negb (truthy items) then inr [] else
  len ←ₑ js_length items;
  if is_zero len then inr [] else
  array_map "items" items (fun item =>
    match item with
    | JStr s => inr [s]
    | _ => symb' ←ₑ get_prop (Some item) "symb"; nl' ←ₑ get_prop (Some item) "nl";
           a ←ₑ react_opt symb'; b ←ₑ react_opt nl'; inr [a; ": "; b]
    end).

Definition wm_text (wm' : option json) : string + string :=
  g' ←ₑ get_prop wm' "g"; sg' ←ₑ get_prop wm' "sg";
  pr' ←ₑ get_prop wm' "pr";
  c ←ₑ get_prop pr' "completed"; cj ←ₑ array_join "wm.pr.completed" c ", ";
  cu ←ₑ get_prop pr' "current"; cuj ←ₑ array_join "wm.pr.current" cu ", ";
  ctx' ←ₑ get_prop wm' "ctx";
  inr ("Goal       : " ++ template g' ++ JsString.nl ++
       "Subgoal    : " ++ template sg' ++ JsString.nl ++
       "Completed  : " ++ (if cj ==ₛ "" then "None" else cj) ++ JsString.nl ++
       "Current    : " ++ (if cuj ==ₛ "" then "None" else cuj) ++ JsString.nl ++
       "Context    : " ++ template ctx').

(** [xs && xs.length > 0]. *)
Definition nonempty_list (xs : option json) : string + bool :=
  if negb (truthy xs) then inr false else len ←ₑ js_length xs; gt0 len.

Definition kg_items (kg' : option json) : string + list (list string) :=
  tri' ←ₑ get_prop kg' "tri";
  ne ←ₑ nonempty_list tri';
  if ne then
    array_map "kg.tri" tri' (fun t =>
      sub' ←ₑ get_prop (Some t) "sub"; pred' ←ₑ get_prop (Some t) "pred";
      obj' ←ₑ get_prop (Some t) "obj";
      a ←ₑ react_opt sub'; b ←ₑ react_opt pred'; c ←ₑ react_opt obj'; inr [a; b; c])
  else inr [["Vide."]].

Definition chain_items (chain' : option json) : string + list (list string) :=
  steps' ←ₑ get_prop chain' "steps";
  ne ←ₑ nonempty_list steps';
  items ←ₑ (if ne then
     array_map "chain.steps" steps' (fun s =>
       status' ←ₑ get_prop (Some s) "status"; step' ←ₑ get_prop (Some s) "step";
       t ←ₑ react_opt step';
       inr [if is_str "completed" status' then "✅" else "⏳"; t])
   else inr [["Pas encore d'étapes."]]);
  reflect' ←ₑ get_prop chain' "reflect"; r ←ₑ react_opt reflect';
  inr (items ++ [["Reflect:"; r]])%list.

(** The sections of the panel and their items, in order. *)
Definition ReasoningPanel (reasoning : option json) : string + list (string * list (list string)) :=
  exp' ←ₑ get_prop reasoning "exp"; se' ←ₑ get_prop reasoning "se";
  wm' ←ₑ get_prop reasoning "wm"; kg' ←ₑ get_prop reasoning "kg";
  logic' ←ₑ get_prop reasoning "logic"; chain' ←ₑ get_prop reasoning "chain";
  e ←ₑ array_map "exp" exp' (fun item => t ←ₑ react_child item; inr [t]);
  s ←ₑ array_map "se" se' (fun item => t ←ₑ react_child item; inr [t]);
  pp ←ₑ get_prop logic' "propos"; p1 ←ₑ LogicList pp;
  pf ←ₑ get_prop logic' "proofs"; p2 ←ₑ LogicList pf;
  cr ←ₑ get_prop logic' "crits"; p3 ←ₑ LogicList cr;
  db ←ₑ get_prop logic' "doubts"; p4 ←ₑ LogicList db;
  w ←ₑ wm_text wm';
  k ←ₑ kg_items kg';
  c ←ₑ chain_items chain';
  inr [("exp", e); ("se", s); ("propos", p1); ("proofs", p2); ("crits", p3); ("doubts", p4);
       ("wm", [[w]]); ("kg", k); ("chain", c)].

(** ** Reading a value that decodes *)

Ltac unbind H := repeat (apply bind_Some in H as (? & ? & H)).

Lemma field_get_prop (k k' : string) (v x : json) :
  field k' v = Some x -> get_prop (Some v) k = inr (field k v).
Proof. by destruct v. Qed.

Lemma dec_string_Some (o : option json) (x : string) : dec_string o = Some x -> o = Some (JStr x).
Proof. by destruct o as [[]|]; intros [=<-]. Qed.

Lemma dec_list_Some {A} (d : json -> option A) (o : option json) (l : list A) :
  dec_list d o = Some l -> exists xs, o = Some (JArr xs) /\ forall x, In x xs -> exists y, d x = Some y.
Proof.
  destruct o as [[| | | |xs|]|]; try done. intros Hm. exists xs. split; [done|].
  revert l Hm. induction xs as [|x xs IH]; intros l Hm x' Hin; [done|]. simpl in Hm.
  destruct (d x) eqn:E; [|done]. destruct Hin as [<-|Hin]; [eauto|].
  destruct (mapM d xs) eqn:E'; [|done]. by apply (IH l0).
Qed.

Lemma react_str (s : string) : react_opt (Some (JStr s)) = inr s.
Proof. done. Qed.

(** Every element of a list of strings renders. *)
Lemma strings_map_ok (what : string) (o : option json) (l : list string) :
  dec_strings o = Some l -> exists r, array_map what o (fun item => t ←ₑ react_child item; inr [t]) = inr r.
Proof.
  intros (xs & -> & Hx)%dec_list_Some. apply map_sum_inr. intros x Hin.
  destruct (Hx x Hin) as [y Hy]. apply dec_string_Some in Hy as [= ->]. by eexists.
Qed.

Lemma strings_join_ok (what sep : string) (o : option json) (l : list string) :
  dec_strings o = Some l -> exists r, array_join what o sep = inr r.
Proof. by intros (xs & -> & _)%dec_list_Some; eexists. Qed.

Lemma or_na_value_str (x : string) :
  or_na_value (Some (JStr x)) = inr (if x ==ₛ "" then "N/A" else x).
Proof. unfold or_na_value. cbn. by destruct (x ==ₛ ""). Qed.

Create Rewrite HintDb panels.
#[export] Hint Rewrite react_str or_na_value_str : panels.

(** The object read by a field that is present. *)
Ltac dec_facts :=
  repeat match goal with
  | H : dec_string _ = Some _ |- _ => apply dec_string_Some in H
  | H : field _ ?v = Some _ |- _ => is_var v; destruct v; try discriminate H; cbn [field] in *
  end.

(** The getters of the panels on an object whose fields are known. *)
Ltac read_props :=
  repeat (progress cbn [get_prop sbind react_opt react_child truthy js_length is_zero gt0 js_or array_map
                array_join ConfigItem] || (progress autorewrite with panels)
     || match goal with H : assoc_last _ _ = _ |- _ => rewrite H end).

Lemma transition_ok (x : json) (t : ModeTransition) :
  dec_transition x = Some t -> exists r, render_transition x = inr r.
Proof. unfold dec_transition, render_transition. intros H. unbind H. dec_facts. read_props. eauto. Qed.

Lemma logic_list_ok (o : option json) (l : list LogicItem) :
  dec_list dec_logic_item o = Some l -> exists r, LogicList o = inr r.
Proof.
  intros (xs & -> & Hx)%dec_list_Some. unfold LogicList. read_props.
  destruct (_ =? 0)%Z; [eauto|]. apply map_sum_inr. intros x Hin.
  destruct (Hx x Hin) as [y Hy]. unfold dec_logic_item in Hy. unbind Hy. dec_facts. read_props. eauto.
Qed.

Lemma wm_text_ok (w : json) (x : WorkingMemory) : dec_wm w = Some x -> exists r, wm_text (Some w) = inr r.
Proof.
  unfold dec_wm, wm_text. intros H. unbind H.
  repeat match goal with H : dec_strings _ = Some _ |- _ => apply dec_list_Some in H as (? & ? & _) end.
  dec_facts. read_props. eauto.
Qed.

Lemma kg_items_ok (k : json) (t : list Triple) :
  dec_list dec_triple (field "tri" k) = Some t -> exists r, kg_items (Some k) = inr r.
Proof.
  intros (xs & Hf & Hx)%dec_list_Some. dec_facts. unfold kg_items, nonempty_list. read_props.
  destruct (0 <? _)%Z; [|eauto]. apply map_sum_inr. intros x Hin.
  destruct (Hx x Hin) as [y Hy]. unfold dec_triple in Hy. unbind Hy. dec_facts. read_props. eauto.
Qed.

Lemma chain_items_ok (c : json) (x : Chain) : dec_chain c = Some x -> exists r, chain_items (Some c) = inr r.
Proof.
  unfold dec_chain, chain_items, nonempty_list. intros H. unbind H.
  match goal with H : dec_list dec_step _ = Some _ |- _ =>
    apply dec_list_Some in H as (xs & ? & Hx) end.
  dec_facts. read_props.
  destruct (0 <? _)%Z; cbn [sbind]; [|read_props; eauto].
  match goal with |- context [map_sum ?f xs] => destruct (map_sum_inr f xs) as [r ->] end.
  - intros y Hin. destruct (Hx y Hin) as [z Hz]. unfold dec_step in Hz.
    unbind Hz. unfold dec_status in *. destruct (dec_string (field "status" y)) eqn:Hs; [|done].
    dec_facts. read_props. eauto.
  - read_props. eauto.
Qed.

Lemma AgentConfigPanel_ok (v : json) (s : AgentSchema) :
  decode_schema v = Some s -> exists r, AgentConfigPanel (Some v) = inr r.
Proof.
  unfold decode_schema, AgentConfigPanel. intros H. unbind H.
  match goal with H : dec_list dec_transition _ = Some _ |- _ =>
    apply dec_list_Some in H as (ts & ? & Hts) end.
  match goal with H : dec_strings (field "available_modes" _) = Some _ |- _ =>
    apply dec_list_Some in H as (ms & ? & _) end.
  match goal with H : dec_wm _ = Some _ |- _ =>
    unfold dec_wm in H; unbind H end.
  dec_facts. read_props.
  match goal with |- context [map_sum ?f ts] => destruct (map_sum_inr f ts) as [r ->] end.
  - intros t Hin. destruct (Hts t Hin) as [y Hy]. by apply (transition_ok _ y).
  - cbn [map_sum]. read_props. eauto.
Qed.

Lemma dec_list_field {A} (d : json -> option A) (k : string) (v : json) (l : list A) :
  dec_list d (field k v) = Some l -> exists fs, v = JObj fs.
Proof. destruct v; try done. eauto. Qed.

(** A list of strings renders as its elements. *)
Lemma strings_render_ok (xs : list json) :
  (forall x, In x xs -> exists y, dec_string (Some x) = Some y) ->
  exists r, map_sum (fun item => t ←ₑ react_child item; inr [t]) xs = inr r.
Proof.
  intros Hx. apply map_sum_inr. intros x Hin. destruct (Hx x Hin) as [y Hy].
  apply dec_string_Some in Hy as [= ->]. by eexists.
Qed.

Lemma ReasoningPanel_ok (v : json) (s : AgentSchema) :
  decode_schema v = Some s -> exists r, ReasoningPanel (Some v) = inr r.
Proof.
  unfold decode_schema, ReasoningPanel. intros H. unbind H.
  repeat match goal with H : dec_strings (field _ _) = Some _ |- _ =>
    apply dec_list_Some in H as (? & ? & ?) end.
  match goal with H : dec_logic _ = Some _ |- _ => unfold dec_logic in H; unbind H end.
  repeat match goal with H : dec_list _ (field _ ?v) = Some _ |- _ =>
    is_var v; destruct (dec_list_field _ _ _ _ H) as [? ->] end.
  repeat match goal with
  | H : dec_list dec_logic_item ?o = Some _ |- _ => destruct (logic_list_ok _ _ H) as [? ?]; clear H
  | H : dec_wm ?w = Some _ |- _ => destruct (wm_text_ok _ _ H) as [? ?]; clear H
  | H : dec_chain ?c = Some _ |- _ => destruct (chain_items_ok _ _ H) as [? ?]; clear H
  | H : dec_list dec_triple (field "tri" ?k) = Some _ |- _ => destruct (kg_items_ok _ _ H) as [? ?]; clear H
  end.
  dec_facts. cbn [field] in *. read_props.
  repeat match goal with H : ?f ?x = inr _ |- context [?f ?x] => rewrite H; cbn [sbind] end.
  repeat match goal with |- context [map_sum ?f ?xs] =>
    destruct (strings_render_ok xs) as [? ->]; [by auto|]; cbn [sbind] end.
  repeat match goal with H : ?f ?x = inr _ |- context [?f ?x] => rewrite H; cbn [sbind] end.
  eauto.
Qed.


(** ** What the panels show after an accepted update *)

Lemma sbind_err {E A B} (m : E + A) (k : A -> E + B) :
  (forall a, m = inr a -> exists e, k a = inl e) -> exists e, sbind m k = inl e.
Proof. destruct m as [e|a]; simpl; eauto. Qed.

(** A value without [wm] makes the Mission panel throw, whatever else it
    holds. *)
Lemma AgentConfigPanel_no_wm (us : json) :
  us <> JNull -> field "wm" us = None -> exists e, AgentConfigPanel (Some us) = inl e.
Proof.
  intros Hn Hwm. unfold AgentConfigPanel.
  do 3 (apply sbind_err; intros ? _).
  apply sbind_err. intros wm' Hw. assert (wm' = None) as ->.
  { destruct us; try done; simpl in Hw, Hwm; congruence. }
  simpl. eauto.
Qed.

(** A value without [exp] makes the Reasoning panel throw. *)
Lemma ReasoningPanel_no_exp (us : json) :
  us <> JNull -> field "exp" us = None -> exists e, ReasoningPanel (Some us) = inl e.
Proof.
  intros Hn He. unfold ReasoningPanel.
  apply sbind_err. intros exp' Hx. assert (exp' = None) as ->.
  { destruct us; try done; simpl in Hx, He; congruence. }
  do 5 (apply sbind_err; intros ? _). simpl. eauto.
Qed.

Lemma validate_truthy (payload : json) (us : option json) :
  validate_payload (inr payload) = inr payload ->
  get_prop (Some payload) "updatedSchema" = inr us -> truthy us = true.
Proof.
  unfold validate_payload. intros Hv Hus. rewrite Hus in Hv.
  by destruct (truthy us).
Qed.

(** A schema of the interface's type is an object. *)
Lemma decode_schema_obj (v : json) (sch : AgentSchema) :
  decode_schema v = Some sch -> exists fs, v = JObj fs.
Proof. destruct v; try discriminate. eauto. Qed.

(** A payload of the type [AgentUpdatePayload] passes the check of
    [streamAgentCycle]; the converse fails: the check accepts any truthy
    schema. *)
Lemma typed_payload_valid (v : json) (p : AgentUpdatePayload) :
  decode_payload v = Some p -> validate_payload (inr v) = inr v.
Proof.
  unfold decode_payload. intros H. unbind H.
  rename x into us, x0 into sch, x2 into a.
  destruct (decode_schema_obj us sch ltac:(done)) as [fs ->].
  unfold validate_payload. rewrite (field_get_prop "updatedSchema" "updatedSchema" v _ ltac:(done)).
  match goal with Hf : field "updatedSchema" v = _ |- _ => rewrite Hf end. cbn [truthy negb].
  rewrite (field_get_prop "autoContinue" "updatedSchema" v _ ltac:(done)).
  match goal with Hb : dec_bool (field "autoContinue" v) = Some _ |- _ => revert Hb end.
  by destruct (field "autoContinue" v) as [[]|].
Qed.

Lemma appReducer_schema (s s' : AppState) (payload : json) (us : option json) :
  appReducer s (APPLY_AGENT_UPDATE payload) = inr s' ->
  get_prop (Some payload) "updatedSchema" = inr us -> agent_schema s' = us.
Proof.
  cbn [appReducer]. intros Hr Hus. rewrite Hus in Hr.
  destruct (get_prop (Some payload) "fileUpdate"); [done|].
  destruct (file_update_target _) as [|[[p c]|]]; try done; by injection Hr as <-.
Qed.

(** ** Properties of the panels *)

(** C30 (type). A stored schema that has the type of [interface
    AgentSchema] (it decodes) renders in both panels without an
    exception: every property the panels read is there, at the type they
    use it at. *)
Theorem schema_panels_render (v : json) :
  is_Some (decode_schema v) ->
  (exists r, AgentConfigPanel (Some v) = inr r) /\ (exists r, ReasoningPanel (Some v) = inr r).
Proof.
  intros [s Hs]. split; [exact (AgentConfigPanel_ok v s Hs) | exact (ReasoningPanel_ok v s Hs)].
Qed.

(** C31 (error). The protocol accepts any truthy [updatedSchema], and the
    reducer stores it as the schema.  An accepted update whose schema has
    no [wm] and no [exp] (the empty object, [true], a number or a string)
    leaves a state in which the Mission panel and the Reasoning panel both
    throw when they render. *)
Theorem accepted_update_crashes_panels (s s' : AppState) (payload us : json) :
  validate_payload (inr payload) = inr payload ->
  get_prop (Some payload) "updatedSchema" = inr (Some us) ->
  field "wm" us = None -> field "exp" us = None ->
  appReducer s (APPLY_AGENT_UPDATE payload) = inr s' ->
  (exists e, AgentConfigPanel (agent_schema s') = inl e) /\
  (exists e, ReasoningPanel (agent_schema s') = inl e).
Proof.
  intros Hv Hus Hwm Hexp Hr. rewrite (appReducer_schema _ _ _ _ Hr Hus).
  assert (Hn : us <> JNull) by (intros ->; pose proof (validate_truthy _ _ Hv Hus); done).
  split; [by apply AgentConfigPanel_no_wm | by apply ReasoningPanel_no_exp].
Qed.

Lemma schema_panels_render_witness :
  is_Some (decode_schema INITIAL_AGENT_SCHEMA) /\
  (exists r, AgentConfigPanel (Some INITIAL_AGENT_SCHEMA) = inr r) /\
  (exists r, ReasoningPanel (Some INITIAL_AGENT_SCHEMA) = inr r).
Proof.
  assert (H : is_Some (decode_schema INITIAL_AGENT_SCHEMA)) by (vm_compute; eauto).
  split; [exact H | exact (schema_panels_render _ H)].
Defined.

(** The reply that carries the empty schema. *)
Definition empty_schema_payload : json :=
  JObj [("updatedSchema", JObj []); ("fileUpdate", JNull); ("autoContinue", JBool false)].

Lemma accepted_update_crashes_panels_witness :
  process_buffer ("Done." ++ JSON_RESPONSE_SEPARATOR ++ json_stringify2 empty_schema_payload) =
    [EvChunk "Done."; EvUpdate empty_schema_payload] /\
  exists s', appReducer initial_state (APPLY_AGENT_UPDATE empty_schema_payload) = inr s' /\
  (exists e, AgentConfigPanel (agent_schema s') = inl e) /\
  (exists e, ReasoningPanel (agent_schema s') = inl e).
Proof.
  split; [vm_compute; reflexivity|].
  eexists. split; [reflexivity|].
  apply (accepted_update_crashes_panels initial_state _ empty_schema_payload (JObj []));
    [vm_compute; reflexivity .. ].
Defined.

End Panels.
