(* ===== verification/Settings.v ===== *)
(** * Settings persistence: the [localStorage] effects of [src/App.tsx]

    [App] keeps the provider and the API keys in [localStorage].  The
    store is a map from keys to strings, modelled as a function and
    compared pointwise ([storage_equiv]).

    - The load effect (lines 35 to 58) runs once, at mount.  It dispatches
      [SET_LLM_PROVIDER] for a stored provider.  It then parses the stored
      keys with [JSON.parse] and dispatches [SET_API_KEY] for each truthy
      key, OpenRouter first.  An exception in the [try] block is caught
      and logged: the actions dispatched before it stand.  The stored
      theme, or ['light'], becomes the theme.
    - The save effect (lines 60 to 66) writes the provider and
      [JSON.stringify(state.apiKeys)].  It runs after the first render,
      with the initial state, since the load effect's dispatches are not
      applied yet.  It runs again whenever the provider changes or
      [apiKeys] is a new object, and every [SET_API_KEY] makes a new
      object.
    - [handleToggleTheme] (lines 83 to 90) flips the theme and stores it.

    Modelling choices:
    - The keys object always has both providers, [google] first: the
      initial state has both, and the reducer's spread keeps their order.
      [keys_json] prints a [gmap] in that order.
    - A stored provider other than the two names, or a truthy key that is
      not a string, is outside the model (the cast of the code does not
      check it); [load_settings] returns [None] for them. *)

From stdpp Require Import gmap.
From S2P Require Import Prelude JsString DocTree Json JsonFacts Types Reducer.
Import DocTree Json Types Reducer.

Module Settings.

(** ** The store *)

Definition Storage := string -> option string.

Definition setItem (k v : string) (ls : Storage) : Storage :=
  fun k' => if k' ==ₛ k then Some v else ls k'.

Definition storage_equiv (a b : Storage) : Prop := forall k, a k = b k.

(** ** Names and the keys object *)

Definition provider_name (p : LLMProvider) : string :=
  match p with google => "google" | openrouter => "openrouter" end.

Definition provider_of_name (s : string) : option LLMProvider :=
  if s ==ₛ "google" then Some google else if s ==ₛ "openrouter" then Some openrouter else None.

(** The [apiKeys] object, [google] first. *)
Definition keys_json (m : gmap LLMProvider string) : json :=
  JObj (omap (fun p => option_map (fun k => (provider_name p, JStr k)) (m !! p)) [google; openrouter]).

(** ** The save effect *)

Definition save_settings (s : AppState) (ls : Storage) : Storage :=
  setItem "apiKeys" (json_stringify (keys_json (apiKeys s)))
    (setItem "llmProvider" (provider_name (llmProvider s)) ls).

(** ** The load effect *)

(** [if (storedProvider) dispatch(SET_LLM_PROVIDER)]. *)
Definition load_provider (ls : Storage) : option (list Action) :=
  match ls "llmProvider" with
  | Some p => if p ==ₛ "" then Some [] else option_map (fun pr => [SET_LLM_PROVIDER pr]) (provider_of_name p)
  | None => Some []
  end.

(** [if (parsedKeys[p]) dispatch(SET_API_KEY)]; [inl] is the exception of
    reading a property of [null]. *)
Definition load_key (parsed : json) (p : LLMProvider) : option (string + list Action) :=
  match get_prop (Some parsed) (provider_name p) with
  | inl e => Some (inl e)
  | inr o =>
      if truthy o then
        match o with Some (JStr k) => Some (inr [SET_API_KEY p k]) | _ => None end
      else Some (inr [])
  end.

(** The keys part of the [try] block: the actions dispatched and the
    exception it stopped at, if any. *)
Definition load_keys `{JsonParse} (ls : Storage) : option (list Action * option string) :=
  match ls "apiKeys" with
  | None => Some ([], None)
  | Some txt =>
      if txt ==ₛ "" then Some ([], None) else
      match json_parse txt with
      | inl e => Some ([], Some e)
      | inr v =>
          r1 ← load_key v openrouter;
          match r1 with
          | inl e => Some ([], Some e)
          | inr a1 =>
              r2 ← load_key v google;
              match r2 with
              | inl e => Some (a1, Some e)
              | inr a2 => Some ((a1 ++ a2)%list, None)
              end
          end
      end
  end.

Definition load_settings `{JsonParse} (ls : Storage) : option (list Action * option string) :=
  a0 ← load_provider ls; '(a1, err) ← load_keys ls; Some ((a0 ++ a1)%list, err).

(** [localStorage.getItem('theme') || 'light']. *)
Definition initial_theme (ls : Storage) : string :=
  match ls "theme" with Some t => if t ==ₛ "" then "light" else t | None => "light" end.

(** [handleToggleTheme]: the new theme and the store. *)
Definition handleToggleTheme (theme : string) (ls : Storage) : string * Storage :=
  let newTheme := if theme ==ₛ "light" then "dark" else "light" in
  (newTheme, setItem "theme" newTheme ls).

(** ** The mount *)

Fixpoint run_actions (s : AppState) (acts : list Action) : string + AppState :=
  match acts with
  | [] => inr s
  | a :: acts' => s' ←ₑ appReducer s a; run_actions s' acts'
  end.

Definition is_set_api_key (a : Action) : bool :=
  match a with SET_API_KEY _ _ => true | _ => false end.

(** The mount of [App] on a store: the state after the loaded actions,
    the store after the save effects, and the theme. *)
Definition mount `{JsonParse} (ls : Storage) : option (AppState * Storage * string) :=
  '(acts, _) ← load_settings ls;
  let ls1 := save_settings initial_state ls in
  match run_actions initial_state acts with
  | inl _ => None
  | inr s1 =>
      let changed := negb (bool_decide (llmProvider s1 = llmProvider initial_state))
                     || existsb is_set_api_key acts in
      Some (s1, (if changed then save_settings s1 ls1 else ls1), initial_theme ls)
  end.


(** ** Saved states *)

Definition keys_complete (m : gmap LLMProvider string) : Prop :=
  is_Some (m !! google) /\ is_Some (m !! openrouter).

(** The [SET_API_KEY] actions the load effect dispatches for the keys. *)
Definition key_actions (ko kg : string) : list Action :=
  ((if ko ==ₛ "" then [] else [SET_API_KEY openrouter ko]) ++
   (if kg ==ₛ "" then [] else [SET_API_KEY google kg]))%list.

(** A state with an OpenRouter key, and the store its save wrote. *)
Definition openrouter_state : AppState :=
  mkAppState [] None (docStructure initial_state) (Some false) openrouter
    (<[google := ""]> (<[openrouter := "sk-or-1"]> ∅)).

Definition openrouter_store : Storage := save_settings openrouter_state (fun _ => None).

(** ** The store, up to pointwise equality *)

#[export] Instance storage_equiv_equiv : Equivalence storage_equiv.
Proof. split; repeat intro; congruence. Qed.

#[export] Instance setItem_proper k v : Proper (storage_equiv ==> storage_equiv) (setItem k v).
Proof. intros a b E k'. unfold setItem. by rewrite E. Qed.

#[export] Instance save_settings_proper s : Proper (storage_equiv ==> storage_equiv) (save_settings s).
Proof. intros a b E. unfold save_settings. by rewrite E. Qed.

Lemma setItem_setItem k v v' ls : storage_equiv (setItem k v (setItem k v' ls)) (setItem k v ls).
Proof. intros k'. unfold setItem. by destruct (k' ==ₛ k). Qed.

Lemma setItem_comm k1 k2 v1 v2 ls :
  k1 <> k2 -> storage_equiv (setItem k1 v1 (setItem k2 v2 ls)) (setItem k2 v2 (setItem k1 v1 ls)).
Proof.
  intros Hne k'. unfold setItem.
  destruct (String.eqb_spec k' k1), (String.eqb_spec k' k2); congruence.
Qed.

(** A later save overrides an earlier one. *)
Lemma save_settings_save s s' ls : storage_equiv (save_settings s (save_settings s' ls)) (save_settings s ls).
Proof.
  unfold save_settings.
  rewrite (setItem_comm "llmProvider" "apiKeys") by done.
  by rewrite !setItem_setItem, (setItem_comm "apiKeys" "llmProvider") by done.
Qed.

Lemma save_settings_other s ls k : k <> "apiKeys" -> k <> "llmProvider" -> save_settings s ls k = ls k.
Proof.
  intros H1 H2. unfold save_settings, setItem.
  by destruct (String.eqb_spec k "apiKeys"), (String.eqb_spec k "llmProvider").
Qed.

Lemma save_settings_provider s ls : save_settings s ls "llmProvider" = Some (provider_name (llmProvider s)).
Proof. done. Qed.

Lemma save_settings_keys s ls : save_settings s ls "apiKeys" = Some (json_stringify (keys_json (apiKeys s))).
Proof. done. Qed.

Lemma stringify_obj_nonempty fs : (json_stringify (JObj fs) ==ₛ "") = false.
Proof. done. Qed.

Lemma initial_theme_save s ls : initial_theme (save_settings s ls) = initial_theme ls.
Proof. unfold initial_theme. by rewrite save_settings_other. Qed.

Lemma stored_json_back (v : json) : json_parse (json_stringify v) = inr v.
Proof. apply JsonFacts.parse_json_stringify. Qed.

(** ** Reading back what was saved *)

Lemma load_saved s ls kg ko :
  apiKeys s !! google = Some kg -> apiKeys s !! openrouter = Some ko ->
  load_settings (save_settings s ls) = Some (SET_LLM_PROVIDER (llmProvider s) :: key_actions ko kg, None).
Proof.
  intros Hg Ho. unfold key_actions.
  unfold load_settings, load_provider, load_keys.
  assert (E : keys_json (apiKeys s) = JObj [("google", JStr kg); ("openrouter", JStr ko)])
    by (unfold keys_json; cbn -[lookup]; by rewrite Hg, Ho).
  rewrite save_settings_provider, save_settings_keys, E, stringify_obj_nonempty, stored_json_back.
  destruct (llmProvider s); cbn;
    (destruct (ko ==ₛ ""), (kg ==ₛ ""); reflexivity).
Qed.

Lemma keys_ext (m m' : gmap LLMProvider string) :
  m !! google = m' !! google -> m !! openrouter = m' !! openrouter -> m = m'.
Proof. intros. apply map_eq. by intros []. Qed.

Lemma save_settings_ext s s' :
  llmProvider s = llmProvider s' -> apiKeys s = apiKeys s' -> save_settings s = save_settings s'.
Proof. unfold save_settings. by intros -> ->. Qed.

(** Every action but [SET_API_KEY] keeps the keys. *)
Lemma appReducer_keys s a s' :
  is_set_api_key a = false -> appReducer s a = inr s' -> apiKeys s' = apiKeys s.
Proof. destruct a; cbn; intros ? H; repeat case_match; by simplify_eq. Qed.

Lemma run_actions_keys s acts s' :
  existsb is_set_api_key acts = false -> run_actions s acts = inr s' -> apiKeys s' = apiKeys s.
Proof.
  revert s. induction acts as [|a acts IH]; cbn; intros s Hk H; [by simplify_eq|].
  apply orb_false_iff in Hk as [Ha Hk].
  destruct (appReducer s a) as [|s0] eqn:E; [done|].
  rewrite (IH s0 Hk H). by apply (appReducer_keys s a).
Qed.

(** The state the load effect builds from saved keys. *)
Lemma run_loaded p ko kg :
  exists s1, run_actions initial_state (SET_LLM_PROVIDER p :: key_actions ko kg) = inr s1 /\
    llmProvider s1 = p /\ apiKeys s1 !! google = Some kg /\ apiKeys s1 !! openrouter = Some ko.
Proof.
  unfold key_actions.
  destruct (String.eqb_spec ko ""), (String.eqb_spec kg ""); subst; eexists; (split; [reflexivity|]); done.
Qed.

Lemma key_actions_none ko kg : existsb is_set_api_key (key_actions ko kg) = false -> ko = "" /\ kg = "".
Proof.
  unfold key_actions.
  by destruct (String.eqb_spec ko ""), (String.eqb_spec kg "").
Qed.

(** C32 (roundtrip). Mounting [App] on the store its save effect wrote for
    a state restores that state's provider and keys, and leaves the store
    as the save wrote it; the theme is the one stored before. *)
Theorem settings_roundtrip (s : AppState) (ls : Storage) :
  keys_complete (apiKeys s) ->
  exists s1 ls', mount (save_settings s ls) = Some (s1, ls', initial_theme ls) /\
    llmProvider s1 = llmProvider s /\ apiKeys s1 = apiKeys s /\ storage_equiv ls' (save_settings s ls).
Proof.
  intros [[kg Hg] [ko Ho]].
  destruct (run_loaded (llmProvider s) ko kg) as (s1 & Hrun & Hp & Hg1 & Ho1).
  assert (Hk : apiKeys s1 = apiKeys s) by (apply keys_ext; congruence).
  unfold mount. rewrite (load_saved s ls kg ko Hg Ho). cbn [mbind option_bind]. rewrite Hrun, initial_theme_save.
  exists s1. eexists. split; [reflexivity|]. do 2 (split; [done|]).
  destruct (_ || _) eqn:Hc.
  - rewrite (save_settings_ext s1 s) by done. by rewrite !save_settings_save.
  - apply orb_false_iff in Hc as [Hc1 Hc2].
    apply negb_false_iff, bool_decide_eq_true in Hc1.
    destruct (key_actions_none ko kg Hc2) as [-> ->].
    rewrite (save_settings_ext initial_state s); [apply save_settings_save | congruence |].
    apply keys_ext; by rewrite ?Hg, ?Ho.
Qed.

(** C33 (invariant). After the mount, the store holds the provider and the
    keys of the state the mount ends in: the save effect runs again exactly
    when the load effect changed what it saves. *)
Theorem mount_store_in_sync (ls ls' : Storage) (s1 : AppState) (th : string) :
  mount ls = Some (s1, ls', th) ->
  ls' "llmProvider" = Some (provider_name (llmProvider s1)) /\
  ls' "apiKeys" = Some (json_stringify (keys_json (apiKeys s1))).
Proof.
  unfold mount. destruct (load_settings ls) as [[acts e]|]; cbn; [|done].
  destruct (run_actions initial_state acts) as [|s1'] eqn:Hrun; [done|].
  intros H. injection H as <- <- _.
  destruct (_ || _) eqn:Hc; [done|].
  apply orb_false_iff in Hc as [Hc1 Hc2].
  apply negb_false_iff, bool_decide_eq_true in Hc1.
  rewrite (run_actions_keys _ _ _ Hc2 Hrun), Hc1. done.
Qed.

(** C34 (functional). The theme toggle flips between ['light'] and
    ['dark'] and stores the new theme, so a later mount starts with it;
    two toggles give back a stored theme of either value. *)
Theorem toggle_theme_persists (theme : string) (ls : Storage) :
  let '(t', ls') := handleToggleTheme theme ls in
  initial_theme ls' = t' /\ (t' = "light" \/ t' = "dark") /\
  (theme = "light" \/ theme = "dark" -> fst (handleToggleTheme t' ls') = theme).
Proof.
  unfold handleToggleTheme, initial_theme, setItem; cbn.
  destruct (String.eqb_spec theme "light") as [->|Hl]; cbn; (split; [done|]); split; auto.
  by intros [? | ->].
Qed.

Lemma settings_roundtrip_witness :
  keys_complete (apiKeys openrouter_state) /\
  exists s1 ls', mount openrouter_store = Some (s1, ls', initial_theme (fun _ => None)) /\
    llmProvider s1 = openrouter /\ apiKeys s1 = apiKeys openrouter_state /\ storage_equiv ls' openrouter_store.
Proof.
  assert (H : keys_complete (apiKeys openrouter_state)) by (split; eexists; reflexivity).
  split; [exact H|]. exact (settings_roundtrip openrouter_state (fun _ => None) H).
Defined.

Lemma mount_store_in_sync_witness :
  exists s1 ls' th, mount openrouter_store = Some (s1, ls', th) /\
    ls' "llmProvider" = Some (provider_name (llmProvider s1)) /\
    ls' "apiKeys" = Some (json_stringify (keys_json (apiKeys s1))).
Proof.
  do 3 eexists. split; [reflexivity|].
  eapply (mount_store_in_sync openrouter_store). reflexivity.
Defined.
End Settings.
