(* ===== verification/FileViewer.v ===== *)
(** * The file viewer: [src/components/FileViewer.tsx], inside [App]

    [FileViewer] has three pieces of state: the view mode, the edited text
    and the dirty flag.  Its effect on [[node]] resets them when the node
    prop is a new file object.  [handleContentChange] and [handleSave]
    change them on the user's input, and the render shows the node.
    [App] passes [findNodeByPath(state.docStructure, selectedNodePath ||
    '')] as the node (line 177), so the viewer depends on the controller's
    tree and selection.

    React runs the effect when the prop is not the same object
    ([Object.is]).  Objects are not values here, so identity is modelled
    from the code that makes new ones.  [findAndUpdateFile] allocates a
    new object at a path exactly in two branches of [recurse]: the file at
    the target, and the folders the target lies under.  Every other node
    of the new tree is the old object.  Two different selected paths name
    two different objects, unless both resolve to nothing.  [node_renewed]
    is that rule.

    [Ui] pairs the controller with the viewer.  [ui_step] is one input:
    - the viewer's buttons and text area, enabled when they are rendered;
    - a selection in the tree;
    - the update event of a reply ([process_event] of [Controller]);
    - the controller's inputs that touch neither the tree nor the
      selection.
    After each input, the viewer re-renders with the new node. *)

From stdpp Require Import gmap.
From S2P Require Import Prelude JsString DocTree Json Types Backend Cycle Reducer Controller.
Import DocTree Json Types Reducer Controller.

Module FileViewer.

(** ** The component *)

Inductive ViewMode := vm_preview | vm_source.

Record Viewer := mkViewer { viewMode : ViewMode; editedContent : string; isDirty : bool }.

(** [useState('preview')], [useState('')], [useState(false)]. *)
Definition initial_viewer : Viewer := mkViewer vm_preview "" false.

Definition node_description (n : DocNode) : string :=
  match n with DocFolder _ d _ | DocFile _ d _ => d end.

(** The effect on [[node]]: a file resets the three states. *)
Definition node_effect (node : option DocNode) (v : Viewer) : Viewer :=
  match node with
  | Some (DocFile _ _ x) => mkViewer vm_preview x false
  | _ => v
  end.

(** [setViewMode(m)], the Preview and Source buttons. *)
Definition setViewMode (m : ViewMode) (v : Viewer) : Viewer :=
  mkViewer m (editedContent v) (isDirty v).

Definition handleContentChange (node : option DocNode) (value : string) (v : Viewer) : Viewer :=
  mkViewer (viewMode v) value
    (match node with Some (DocFile _ _ x) => negb (value ==ₛ x) | _ => isDirty v end).

(** [handleSave]: the new state and the call [onSave(path, editedContent)]
    it makes, if any. *)
Definition handleSave (path : option string) (v : Viewer) : Viewer * option (string * string) :=
  match path with
  | Some p =>
      if negb (p ==ₛ "") && isDirty v
      then (mkViewer (viewMode v) (editedContent v) false, Some (p, editedContent v))
      else (v, None)
  | None => (v, None)
  end.

Definition is_source (v : Viewer) : bool :=
  match viewMode v with vm_source => true | vm_preview => false end.

(** What the render shows: the placeholder ([None]) or the node's view. *)
Inductive Body := BodyHtml (html : string) | BodyTextarea (value : string).

Record FileView := mkFileView {
  fv_folder_icon : bool;
  fv_name : string;
  fv_toggle : option ViewMode;     (** the active button of the toggle, for a file *)
  fv_purpose : string;
  fv_save_button : bool;
  fv_body : option Body }.

(** The options of [new showdown.Converter({...})]. *)
Record ConverterOptions := mkConverterOptions {
  tables : bool; simplifiedAutoLink : bool; strikethrough : bool; tasklists : bool;
  ghCompatibleHeaderId : bool; simpleLineBreaks : bool }.

(** [converter]: [useMemo] with no dependencies builds it once, with these
    options. *)
Definition converter : ConverterOptions := mkConverterOptions true true true true true true.

Section Render.
(** [makeHtml] of a showdown converter with the given options, a library. *)
Context (makeHtml : ConverterOptions -> string -> string).

Definition contentHtml (node : option DocNode) (v : Viewer) : string :=
  match node with
  | Some (DocFile _ _ x) => makeHtml converter (match viewMode v with vm_preview => x | vm_source => editedContent v end)
  | _ => ""
  end.

Definition render (node : option DocNode) (v : Viewer) : option FileView :=
  match node with
  | None => None
  | Some n =>
      let file := negb (is_folder n) in
      Some (mkFileView (is_folder n) (node_name n)
              (if file then Some (viewMode v) else None)
              (node_description n)
              (file && isDirty v && is_source v)
              (if file then
                 Some (match viewMode v with
                       | vm_preview => BodyHtml (contentHtml node v)
                       | vm_source => BodyTextarea (editedContent v)
                       end)
               else None))
  end.
End Render.

(** ** Node identity *)

(** [recurse], called on the node [m] at path [q] for the target [p],
    returns a new object: the file at the target, or a folder the target
    lies under. *)
Definition rebuilds (p q : string) (m : DocNode) : bool :=
  if q ==ₛ p then negb (is_folder m) else is_folder m && String.prefix (q ++ "/") p.

(** The file write of an action, as the reducer performs it. *)
Definition tree_write (a : Action) : option (string * string) :=
  match a with
  | SAVE_FILE_CONTENT p x => Some (p, x)
  | APPLY_AGENT_UPDATE v =>
      match get_prop (Some v) "updatedSchema", get_prop (Some v) "fileUpdate" with
      | inr _, inr fu => match file_update_target fu with inr w => w | inl _ => None end
      | _, _ => None
      end
  | _ => None
  end.

Definition apply_write (w : option (string * string)) (t : DocNode) : DocNode :=
  match w with Some (p, x) => findAndUpdateFile t p x | None => t end.

(** Line 177: the node the viewer gets. *)
Definition selected_node (c : Ctrl) : option DocNode :=
  findNodeByPath (docStructure (st c)) (default "" (selected c)).

Definition renewed_by (t : DocNode) (w : option (string * string)) (q : string) : bool :=
  match w, findNodeByPath t q with
  | Some (p, _), Some m => rebuilds p q m
  | _, _ => false
  end.

(** The node prop of the render after [c'] is a new object: [c'] followed
    [c] with the write [w] on the tree. *)
Definition node_renewed (c : Ctrl) (w : option (string * string)) (c' : Ctrl) : bool :=
  if decide (selected c = selected c') then renewed_by (docStructure (st c)) w (default "" (selected c))
  else match selected_node c, selected_node c' with None, None => false | _, _ => true end.

(** ** The viewer inside the app *)

Record Ui := mkUi { ctrl : Ctrl; viewer : Viewer }.

Definition initial_ui : Ui := mkUi initial_ctrl initial_viewer.

(** The re-render after the controller went from [c] to [c']. *)
Definition rerender (c : Ctrl) (w : option (string * string)) (c' : Ctrl) (v : Viewer) : Ui :=
  mkUi c' (if node_renewed c w c' then node_effect (selected_node c') v else v).

Inductive ViewerEvent := ClickPreview | ClickSource | Edit (value : string) | ClickSave.

Inductive UiInput :=
| UView (e : ViewerEvent)
| USelect (path : string)
| UAgent (payload : json)
| UCtrl (i : Input).

(** The controller's inputs that leave the tree and the selection alone. *)
Definition tree_neutral (i : Input) : bool :=
  match i with
  | UserSend _ | TimerFire | Stop | SetProvider _ | SetApiKey _ _ => true
  | Deliver _ _ | SaveFile _ _ | SelectNode _ => false
  end.

Definition is_file (o : option DocNode) : bool :=
  match o with Some (DocFile _ _ _) => true | _ => false end.

(** One input, [None] when it is not enabled: the toggle is rendered for a
    file, the text area in source mode, the Save button when the text is
    dirty in source mode. *)
Definition ui_step (u : Ui) (i : UiInput) : option Ui :=
  let c := ctrl u in
  let v := viewer u in
  let node := selected_node c in
  match i with
  | UView ClickPreview => if is_file node then Some (mkUi c (setViewMode vm_preview v)) else None
  | UView ClickSource => if is_file node then Some (mkUi c (setViewMode vm_source v)) else None
  | UView (Edit x) =>
      if is_file node && is_source v then Some (mkUi c (handleContentChange node x v)) else None
  | UView ClickSave =>
      if is_file node && isDirty v && is_source v then
        let '(v', call) := handleSave (selected c) v in
        match call with
        | Some (p, x) => Some (rerender c (Some (p, x)) (handleSaveFile c p x) v')
        | None => Some (mkUi c v')
        end
      else None
  | USelect p => Some (rerender c None (with_selected c (Some p)) v)
  | UAgent payload =>
      Some (rerender c (tree_write (APPLY_AGENT_UPDATE payload))
              (fst (process_event (c, "") (EvUpdate payload))) v)
  | UCtrl i => if tree_neutral i then c' ← step c i; Some (mkUi c' v) else None
  end.

Fixpoint ui_run (u : Ui) (ins : list UiInput) : option Ui :=
  match ins with
  | [] => Some u
  | i :: ins' => u' ← ui_step u i; ui_run u' ins'
  end.

(** An update payload that writes [y] into the file at [q]. *)
Definition file_payload (us : json) (q y : string) (b : bool) : json :=
  JObj [("updatedSchema", us); ("fileUpdate", JObj [("fileName", JStr q); ("content", JStr y)]);
        ("autoContinue", JBool b)].

(** The dirty flag says whether the edited text differs from the file. *)
Definition viewer_wf (node : option DocNode) (v : Viewer) : bool :=
  match node with
  | Some (DocFile _ _ x) => Bool.eqb (isDirty v) (negb (editedContent v ==ₛ x))
  | _ => true
  end.


(** ** Examples *)

Definition example_tree : DocNode :=
  DocFolder "docs" "Docs" [DocFile "a.md" "Notes" "old"; DocFile "b.md" "Plan" "plan"].

(** The viewer on [docs/a.md] of [example_tree], with an unsaved edit. *)
Definition editing_ui : Ui :=
  mkUi (with_selected (with_st initial_ctrl (set_doc initial_state example_tree)) (Some "docs/a.md"))
       (mkViewer vm_source "new" true).

(** ** The controller's tree and selection *)

Definition same_view (c c' : Ctrl) : Prop :=
  docStructure (st c') = docStructure (st c) /\ selected c' = selected c.

Lemma dispatch_tree (c : Ctrl) (a : Action) :
  docStructure (st (dispatch c a)) = apply_write (tree_write a) (docStructure (st c)) /\
  selected (dispatch c a) = selected c.
Proof. unfold dispatch. destruct a; simpl; repeat case_match; simplify_eq; done. Qed.

Lemma same_view_dispatch (c : Ctrl) (a : Action) : tree_write a = None -> same_view c (dispatch c a).
Proof. intros Hw. pose proof (dispatch_tree c a) as [H1 H2]. rewrite Hw in H1. done. Qed.

Lemma same_view_trans (c1 c2 c3 : Ctrl) : same_view c1 c2 -> same_view c2 c3 -> same_view c1 c3.
Proof. intros [] []; split; congruence. Qed.

Lemma same_view_set_next (c : Ctrl) (x : option string) : same_view c (set_next c x).
Proof. unfold set_next. by case_decide. Qed.

#[local] Hint Resolve same_view_dispatch same_view_set_next : core.

Lemma same_view_send (c : Ctrl) (m : string) (s : AppState) : same_view c (handleSendMessage c m s).
Proof.
  unfold handleSendMessage. by repeat case_match.
Qed.

Lemma same_view_step (c c' : Ctrl) (i : Input) :
  tree_neutral i = true -> step c i = Some c' -> same_view c c'.
Proof.
  destruct i; cbn [tree_neutral step]; intros Hn H; try discriminate Hn.
  - case_match; simplify_eq. apply same_view_send.
  - case_match; simplify_eq. unfold executeNextStep. case_match; [done|].
    eapply same_view_trans; [|apply same_view_send].
    eapply (same_view_trans _ (with_timer c None)); [done | apply same_view_set_next].
  - case_match; simplify_eq. unfold handleStop.
    eapply same_view_trans; [apply same_view_set_next | done].
  - simplify_eq. by apply same_view_dispatch.
  - simplify_eq. by apply same_view_dispatch.
Qed.

Lemma process_update_tree (c : Ctrl) (full : string) (v : json) :
  docStructure (st (fst (process_event (c, full) (EvUpdate v)))) =
  apply_write (tree_write (APPLY_AGENT_UPDATE v)) (docStructure (st c)).
Proof.
  cbn [process_event fst]. destruct (dispatch_tree c (APPLY_AGENT_UPDATE v)) as [<- _].
  destruct (note_file_keeps (dispatch c (APPLY_AGENT_UPDATE v)) v) as (_ & Hst & _).
  rewrite <- Hst. case_match; [by rewrite isLoading_set_next | done].
Qed.

(** ** Node identity *)

(** Where [recurse] allocates nothing, it returns the node it was given. *)
Lemma recurse_not_rebuilt (p x q : string) (m : DocNode) :
  rebuilds p q m = false -> recurse p x m q = m.
Proof.
  unfold rebuilds. destruct m; cbn [recurse is_folder];
    destruct (q ==ₛ p); cbn; try done; by intros ->.
Qed.

(** Without a new object, the node prop keeps its value. *)
Lemma node_stable (c c' : Ctrl) (w : option (string * string)) :
  docStructure (st c') = apply_write w (docStructure (st c)) ->
  node_renewed c w c' = false -> selected_node c' = selected_node c.
Proof.
  unfold node_renewed, selected_node. intros Ht.
  case_decide as Hs; [|by repeat case_match].
  rewrite <- Hs, Ht. unfold renewed_by.
  destruct w as [[p x]|]; [|done]. cbn [apply_write]. rewrite findNodeByPath_update.
  destruct (findNodeByPath _ _) as [m|]; [|done]. intros H. cbn. by rewrite recurse_not_rebuilt.
Qed.

Lemma node_effect_wf (n : option DocNode) (v : Viewer) : viewer_wf n (node_effect n v) = true.
Proof. destruct n as [[]|]; cbn; [done | | done]. by rewrite String.eqb_refl. Qed.

Lemma rerender_wf (c c' : Ctrl) (w : option (string * string)) (v : Viewer) :
  docStructure (st c') = apply_write w (docStructure (st c)) ->
  viewer_wf (selected_node c) v = true ->
  viewer_wf (selected_node c') (viewer (rerender c w c' v)) = true.
Proof.
  intros Ht Hwf. unfold rerender. cbn [viewer].
  destruct (node_renewed c w c') eqn:E.
  - apply node_effect_wf.
  - by rewrite (node_stable c c' w).
Qed.

(** ** The viewer's inputs *)

Lemma selected_file (c : Ctrl) :
  is_file (selected_node c) = true -> exists p, selected c = Some p /\ (p ==ₛ "") = false.
Proof.
  unfold selected_node, findNodeByPath. destruct (selected c) as [p|]; cbn; [|done].
  intros H. exists p. split; [done|]. by destruct (p ==ₛ "").
Qed.

(** Saving the file at the selected path [p] writes the edited text there. *)
Lemma save_node (c : Ctrl) (p e nm d x : string) :
  selected c = Some p -> selected_node c = Some (DocFile nm d x) ->
  selected_node (handleSaveFile c p e) = Some (DocFile nm d e) /\
  node_renewed c (Some (p, e)) (handleSaveFile c p e) = true.
Proof.
  intros Hs Hn. unfold handleSaveFile. destruct (dispatch_tree c (SAVE_FILE_CONTENT p e)) as [Ht Hsel].
  unfold selected_node in *. rewrite Hsel, Ht, Hs in *. cbn [default apply_write tree_write] in *.
  rewrite findNodeByPath_update, Hn. cbn [option_map recurse]. rewrite String.eqb_refl.
  split; [done|]. unfold node_renewed. rewrite Hsel, decide_True by done.
  unfold renewed_by. rewrite Hs. cbn [default]. rewrite Hn. unfold rebuilds. by rewrite String.eqb_refl.
Qed.

Lemma ui_step_save (c : Ctrl) (v : Viewer) (p nm d x : string) :
  selected c = Some p -> selected_node c = Some (DocFile nm d x) ->
  isDirty v = true -> is_source v = true ->
  ui_step (mkUi c v) (UView ClickSave) =
  Some (mkUi (handleSaveFile c p (editedContent v)) (mkViewer vm_preview (editedContent v) false)).
Proof.
  intros Hs Hn Hd Hsrc.
  destruct (selected_file c) as (p' & Hs' & Hp); [by rewrite Hn|]. rewrite Hs in Hs'. injection Hs' as <-.
  destruct (save_node c p (editedContent v) nm d x Hs Hn) as [Hn' Hr].
  cbn [ui_step ctrl viewer]. rewrite Hn, Hd, Hsrc, Hs. cbn [is_file andb handleSave].
  rewrite Hp, Hd. cbn [negb andb]. unfold rerender. by rewrite Hr, Hn'.
Qed.

Lemma viewer_wf_mode (n : option DocNode) (m : ViewMode) (v : Viewer) :
  viewer_wf n (setViewMode m v) = viewer_wf n v.
Proof. done. Qed.

Lemma ui_step_wf (u u' : Ui) (i : UiInput) :
  viewer_wf (selected_node (ctrl u)) (viewer u) = true -> ui_step u i = Some u' ->
  viewer_wf (selected_node (ctrl u')) (viewer u') = true.
Proof.
  destruct u as [c v]. cbn [ctrl viewer]. intros Hwf.
  destruct i as [[| | x |]| p | pl | i]; cbn [ui_step ctrl viewer].
  - case_match; [|done]. intros [= <-]. cbn [ctrl viewer]. by rewrite viewer_wf_mode.
  - case_match; [|done]. intros [= <-]. cbn [ctrl viewer]. by rewrite viewer_wf_mode.
  - case_match; [|done]. intros [= <-]. cbn. destruct (selected_node c) as [[]|]; cbn; [done| |done].
    by rewrite Bool.eqb_reflx.
  - destruct (is_file _ && _ && _) eqn:E; [|done].
    apply andb_prop in E as [[Hf Hd]%andb_prop Hsrc].
    destruct (selected_file c Hf) as (p & Hs & Hp).
    destruct (selected_node c) as [[|nm d x]|] eqn:Hn; try done.
    destruct (save_node c p (editedContent v) nm d x Hs Hn) as [_ Hr].
    rewrite Hs. cbn [handleSave]. rewrite Hp, Hd. cbn [negb andb].
    intros [= <-]. unfold rerender. rewrite Hr. apply node_effect_wf.
  - intros [= <-]. apply rerender_wf; [done | by rewrite Hwf].
  - intros [= <-]. apply rerender_wf; [apply (process_update_tree c "") | done].
  - destruct (tree_neutral i) eqn:Hi; [|done].
    destruct (step c i) as [c'|] eqn:Hstep; cbn; [|done]. intros [= <-].
    destruct (same_view_step c c' i Hi Hstep) as [Ht Hsel].
    unfold selected_node. cbn [ctrl viewer]. rewrite Ht, Hsel. done.
Qed.

Lemma ui_run_wf (ins : list UiInput) (u u' : Ui) :
  viewer_wf (selected_node (ctrl u)) (viewer u) = true -> ui_run u ins = Some u' ->
  viewer_wf (selected_node (ctrl u')) (viewer u') = true.
Proof.
  revert u. induction ins as [|i ins IH]; cbn; intros u Hwf H; [by simplify_eq|].
  destruct (ui_step u i) as [u1|] eqn:E; [|done]. eapply IH; [|exact H]. by eapply ui_step_wf.
Qed.

(** ** An update event of a reply that writes a file *)

Lemma tree_write_file_payload (us : json) (q y : string) (b : bool) :
  q <> "" -> y <> "" -> tree_write (APPLY_AGENT_UPDATE (file_payload us q y b)) = Some (q, y).
Proof.
  intros Hq Hy. cbn. apply String.eqb_neq in Hq, Hy. by rewrite Hq, Hy.
Qed.

Lemma process_file_payload (c : Ctrl) (us : json) (q y : string) (b : bool) :
  q <> "" -> selected (fst (process_event (c, "") (EvUpdate (file_payload us q y b)))) = Some q.
Proof.
  intros Hq. apply String.eqb_neq in Hq.
  cbn [process_event fst]. unfold note_file. simpl. rewrite Hq. destruct b; simpl; [|done].
  unfold set_next. by case_decide.
Qed.

(** An update that writes [y] into an existing file [q] selects [q] and
    puts the viewer on [q]'s new content. *)
Lemma ui_step_file_payload (c : Ctrl) (v : Viewer) (us : json) (q nm d x y : string) (b : bool) :
  findNodeByPath (docStructure (st c)) q = Some (DocFile nm d x) -> y <> "" ->
  exists c', ui_step (mkUi c v) (UAgent (file_payload us q y b)) =
               Some (mkUi c' (mkViewer vm_preview y false)) /\
             selected c' = Some q /\ selected_node c' = Some (DocFile nm d y).
Proof.
  intros Hn Hy.
  assert (Hq : q <> "") by (intros ->; discriminate Hn).
  set (c' := fst (process_event (c, "") (EvUpdate (file_payload us q y b)))).
  assert (Hs : selected c' = Some q) by apply process_file_payload, Hq.
  assert (Hn' : selected_node c' = Some (DocFile nm d y)).
  { unfold selected_node. rewrite Hs. unfold c'. rewrite process_update_tree, tree_write_file_payload by done.
    cbn [default id apply_write]. rewrite findNodeByPath_update, Hn. cbn. by rewrite String.eqb_refl. }
  exists c'. split; [|done]. cbn [ui_step ctrl viewer]. unfold rerender. fold c'.
  rewrite tree_write_file_payload by done.
  enough (Hr : node_renewed c (Some (q, y)) c' = true) by (rewrite Hr, Hn'; done).
  unfold node_renewed. rewrite Hs. case_decide as E.
  - unfold renewed_by. rewrite E. cbn [default id]. rewrite Hn. unfold rebuilds. by rewrite String.eqb_refl.
  - rewrite Hn'. by destruct (selected_node c).
Qed.

(** ** Properties of the viewer *)

(** C35 (invariant). In every session from the start, the viewer's dirty
    flag says exactly whether the edited text differs from the content of
    the selected file: after edits, saves, selections, the controller's
    inputs and the update events of replies. *)
Theorem viewer_dirty_consistent (ins : list UiInput) (u : Ui) :
  ui_run initial_ui ins = Some u -> viewer_wf (selected_node (ctrl u)) (viewer u) = true.
Proof. apply ui_run_wf. done. Qed.

(** C36 (roundtrip). Save, on a dirty file in source mode, writes the
    edited text into the selected file; the new file object resets the
    viewer, which is clean and back in preview mode, showing the saved
    text. *)
Theorem viewer_save_writes_file (u : Ui) (p nm d x : string) :
  selected (ctrl u) = Some p -> selected_node (ctrl u) = Some (DocFile nm d x) ->
  isDirty (viewer u) = true -> viewMode (viewer u) = vm_source ->
  exists u', ui_step u (UView ClickSave) = Some u' /\
    selected_node (ctrl u') = Some (DocFile nm d (editedContent (viewer u))) /\
    viewer u' = mkViewer vm_preview (editedContent (viewer u)) false.
Proof.
  destruct u as [c v]. cbn [ctrl viewer]. intros Hs Hn Hd Hm.
  eexists. split; [apply (ui_step_save c v p nm d x); try done; unfold is_source; by rewrite Hm|].
  split; [|done]. by apply save_node with (x := x).
Qed.

(** C37 (error). An update event whose file update writes [y] into an
    existing file [q] selects [q] and resets the viewer to [y], clean and in
    preview, whatever it held: unsaved edits of the selected file, or of
    another one, are dropped without a warning, even when [y] is the
    content the file already had. *)
Theorem agent_write_resets_viewer (u : Ui) (us : json) (q nm d x y : string) (b : bool) :
  findNodeByPath (docStructure (st (ctrl u))) q = Some (DocFile nm d x) -> y <> "" ->
  exists u', ui_step u (UAgent (file_payload us q y b)) = Some u' /\
    selected (ctrl u') = Some q /\ selected_node (ctrl u') = Some (DocFile nm d y) /\
    viewer u' = mkViewer vm_preview y false.
Proof.
  destruct u as [c v]. cbn [ctrl]. intros Hn Hy.
  destruct (ui_step_file_payload c v us q nm d x y b Hn Hy) as (c' & H & Hs & Hn').
  by exists (mkUi c' (mkViewer vm_preview y false)).
Qed.

(** C38 (functional). The preview renders the stored content, not the
    edit: after typing [e] in source mode and switching to preview, the
    view shows the file's content [x] and no Save button; back in source
    mode it shows [e], with Save exactly when [e] differs from [x]. *)
Theorem preview_hides_edits (makeHtml : ConverterOptions -> string -> string) (u : Ui) (nm d x e : string) :
  selected_node (ctrl u) = Some (DocFile nm d x) -> viewMode (viewer u) = vm_source ->
  exists u1 u2,
    ui_run u [UView (Edit e); UView ClickPreview] = Some u1 /\
    render makeHtml (selected_node (ctrl u1)) (viewer u1) =
      Some (mkFileView false nm (Some vm_preview) d false (Some (BodyHtml (makeHtml converter x)))) /\
    ui_step u1 (UView ClickSource) = Some u2 /\
    render makeHtml (selected_node (ctrl u2)) (viewer u2) =
      Some (mkFileView false nm (Some vm_source) d (negb (e ==ₛ x)) (Some (BodyTextarea e))).
Proof.
  destruct u as [c v]. cbn [ctrl viewer]. intros Hn Hm.
  do 2 eexists. cbn [ui_run ui_step ctrl viewer]. rewrite Hn. unfold is_source. rewrite Hm.
  cbn. rewrite Hn. cbn. split; [reflexivity|].
  cbn [ctrl viewer]. rewrite Hn. split; [cbn; by rewrite andb_false_r|]. split; [reflexivity|]. cbn. rewrite Hn. cbn. by rewrite andb_true_r.
Qed.

(** ** Witnesses *)

Lemma viewer_dirty_consistent_witness :
  exists u, ui_run initial_ui [USelect "docs/README.md"; UView ClickSource; UView (Edit "# Project")] = Some u /\
    viewer_wf (selected_node (ctrl u)) (viewer u) = true.
Proof.
  destruct (ui_run initial_ui [USelect "docs/README.md"; UView ClickSource; UView (Edit "# Project")])
    as [u|] eqn:E; [| vm_compute in E; discriminate].
  exists u. split; [reflexivity|]. exact (viewer_dirty_consistent _ u E).
Defined.

Lemma viewer_save_writes_file_witness :
  exists u', ui_step editing_ui (UView ClickSave) = Some u' /\
    selected_node (ctrl u') = Some (DocFile "a.md" "Notes" "new") /\
    viewer u' = mkViewer vm_preview "new" false.
Proof. exact (viewer_save_writes_file editing_ui "docs/a.md" "a.md" "Notes" "old" eq_refl eq_refl eq_refl eq_refl). Defined.

Lemma agent_write_resets_viewer_witness :
  exists u', ui_step editing_ui (UAgent (file_payload (JObj []) "docs/a.md" "old" false)) = Some u' /\
    selected (ctrl u') = Some "docs/a.md" /\ selected_node (ctrl u') = Some (DocFile "a.md" "Notes" "old") /\
    viewer u' = mkViewer vm_preview "old" false.
Proof.
  exact (agent_write_resets_viewer editing_ui (JObj []) "docs/a.md" "a.md" "Notes" "old" "old" false
           eq_refl ltac:(discriminate)).
Defined.

Lemma preview_hides_edits_witness :
  exists u1 u2,
    ui_run editing_ui [UView (Edit "draft"); UView ClickPreview] = Some u1 /\
    render (fun _ s => s) (selected_node (ctrl u1)) (viewer u1) =
      Some (mkFileView false "a.md" (Some vm_preview) "Notes" false (Some (BodyHtml "old"))) /\
    ui_step u1 (UView ClickSource) = Some u2 /\
    render (fun _ s => s) (selected_node (ctrl u2)) (viewer u2) =
      Some (mkFileView false "a.md" (Some vm_source) "Notes" (negb ("draft" ==ₛ "old")) (Some (BodyTextarea "draft"))).
Proof. exact (preview_hides_edits (fun _ s => s) editing_ui "a.md" "Notes" "old" "draft" eq_refl eq_refl). Defined.

End FileViewer.
