(* ===== verification/ChatPanel.v ===== *)
(** * The chat panel: [src/components/ChatPanel.tsx]

    The panel renders the history.  The last message, when it is the
    assistant's, is searched for the three follow-up questions the system
    instruction asks for:
    [/(🔍\s*\[Investigation\?\]\s*🔭\s*\[Exploration\?\]\s*🎯\s*\[Exploitation\?\])$/].
    When they are found, they are cut from the text and shown as buttons,
    unless a cycle is loading.  The form sends the trimmed input, and a
    button sends its question.

    The regex is a sequence of tokens: literals and [\s*].  [seq_rests]
    lists what remains of the text after each way the engine can match
    them, in its backtracking order (greedy [\s*] first).  The [$] at the
    end accepts the first way that leaves nothing.  [exec] tries the
    start positions from the left.  [\s] is [is_js_space], the white space
    8-bit code units can hold.  The emoji are literals of four code units
    (their UTF-8 bytes). *)

From stdpp Require Import base list.
From S2P Require Import Prelude JsString DocTree Json Types Cycle.
Import Json Types Cycle.

Module ChatPanel.

(** ** The suggestion regex *)

Inductive Tok := TLit (l : string) | TSpaces.

Definition suggestionRegex : list Tok :=
  [TLit "🔍"; TSpaces; TLit "[Investigation?]"; TSpaces; TLit "🔭"; TSpaces;
   TLit "[Exploration?]"; TSpaces; TLit "🎯"; TSpaces; TLit "[Exploitation?]"].

(** [\s*]: the rests after the most spaces first, then fewer. *)
Fixpoint spaces_rests (s : string) : list string :=
  match s with
  | String c s' => if is_js_space c then (spaces_rests s' ++ [s])%list else [s]
  | EmptyString => [s]
  end.

Definition tok_rests (t : Tok) (s : string) : list string :=
  match t with
  | TLit l => if String.prefix l s then [str_drop (String.length l) s] else []
  | TSpaces => spaces_rests s
  end.

Fixpoint seq_rests (ts : list Tok) (s : string) : list string :=
  match ts with
  | [] => [s]
  | t :: ts' => flat_map (seq_rests ts') (tok_rests t s)
  end.

(** The group followed by [$], at the start of [s]. *)
Definition matches_here (s : string) : bool :=
  existsb (fun r => r ==ₛ "") (seq_rests suggestionRegex s).

(** [RegExp.prototype.exec] without the [g] flag: the first start
    position, from [i] on, where the regex matches. *)
Fixpoint first_match (s : string) (i : nat) : option nat :=
  if matches_here s then Some i else
  match s with
  | EmptyString => None
  | String _ s' => first_match s' (S i)
  end.

(** [msg.content.match(suggestionRegex)]: the start of the match, which
    runs to the end of the text. *)
Definition suggestion_match (s : string) : option nat := first_match s 0.

(** [msg.content.replace(suggestionRegex, '')]. *)
Definition strip_suggestions (s : string) : string :=
  match suggestion_match s with Some i => str_take i s | None => s end.

(** ** The render *)

Definition suggestions : list string := ["Investigation?"; "Exploration?"; "Exploitation?"].

Record MessageView := mkMessageView {
  mv_user : bool;             (** the [user-message] class *)
  mv_content : string;
  mv_suggestions : bool }.    (** the three buttons *)

Definition render_message (isLast isLoading : bool) (msg : Message) : MessageView :=
  let m := if isLast && (author msg ==ₛ "assistant") then suggestion_match (content msg) else None in
  let shown := match m with Some _ => js_trim (strip_suggestions (content msg)) | None => content msg end in
  mkMessageView (author msg ==ₛ "user") shown
    (match m with Some _ => negb isLoading | None => false end).

Definition render_history (history : list Message) (isLoading : bool) : list MessageView :=
  imap (fun index msg => render_message (bool_decide (index = List.length history - 1)) isLoading msg) history.

Record ChatView := mkChatView {
  cv_messages : list MessageView;
  cv_typing : bool;            (** the three dots *)
  cv_input_disabled : bool;
  cv_stop_button : bool }.     (** Stop in place of the submit button *)

Definition ChatPanel (history : list Message) (isLoading : bool) : ChatView :=
  mkChatView (render_history history isLoading) isLoading isLoading isLoading.

(** ** The handlers: the new input and the message sent, if any *)

Definition handleSubmit (inputValue : string) (isLoading : bool) : string * option string :=
  let t := js_trim inputValue in
  if negb (t ==ₛ "") && negb isLoading then ("", Some t) else (inputValue, None).

Definition handleSuggestionClick (isLoading : bool) (suggestion : string) : option string :=
  if isLoading then None else Some suggestion.

(** The three questions on new lines, as the system instruction of
    [src/services/geminiService.ts] asks the chat message to end. *)
Definition suggestion_block : string :=
  "🔍 [Investigation?]" ++ nl ++ "🔭 [Exploration?]" ++ nl ++ "🎯 [Exploitation?]".


(** ** What a match looks like *)

(** The first code unit of each emoji of the regex. *)
Definition lead : ascii := Ascii.ascii_of_nat 240.

Fixpoint count_lead (s : string) : nat :=
  match s with
  | EmptyString => 0
  | String c s' => (if Ascii.eqb c lead then 1 else 0) + count_lead s'
  end.

(** The texts a token sequence matches. *)
Fixpoint shape (ts : list Tok) (p : string) : Prop :=
  match ts with
  | [] => p = ""
  | TLit l :: ts' => exists q, p = l ++ q /\ shape ts' q
  | TSpaces :: ts' => exists a q, p = a ++ q /\ all_space a = true /\ shape ts' q
  end.

Lemma count_lead_app (a b : string) : count_lead (a ++ b) = count_lead a + count_lead b.
Proof. induction a as [|c a IH]; simpl; [done | rewrite IH; lia]. Qed.

Lemma count_lead_space (a : string) : all_space a = true -> count_lead a = 0.
Proof.
  induction a as [|c a IH]; cbn; [done|]. intros [Hc Ha]%andb_prop.
  rewrite IH by done. destruct (Ascii.eqb_spec c lead) as [->|]; [done | done].
Qed.

Lemma spaces_rests_in (r s : string) :
  In r (spaces_rests s) -> exists a, s = a ++ r /\ all_space a = true.
Proof.
  induction s as [|c s IH]; cbn.
  - intros [<-|[]]. by exists "".
  - destruct (is_js_space c) eqn:Hc.
    + rewrite in_app_iff. intros [H | [<-|[]]].
      * destruct (IH H) as (a & -> & Ha). exists (String c a). cbn. by rewrite Hc, Ha.
      * by exists "".
    + intros [<-|[]]. by exists "".
Qed.

Lemma seq_rests_in (ts : list Tok) (r s : string) :
  In r (seq_rests ts s) -> exists p, s = p ++ r /\ shape ts p.
Proof.
  revert s. induction ts as [|[l|] ts IH]; intros s; cbn.
  - intros [<-|[]]. by exists "".
  - destruct (String.prefix l s) eqn:Hp; [|done]. cbn. rewrite app_nil_r.
    apply prefix_spec in Hp as [q ->]. rewrite str_drop_app_length.
    intros (p & -> & Hs)%IH. exists (l ++ p). split; [by rewrite str_app_assoc | by exists p].
  - rewrite in_flat_map. intros (x & Hx & (p & -> & Hs)%IH).
    destruct (spaces_rests_in _ _ Hx) as (a & -> & Ha).
    exists (a ++ p). split; [by rewrite str_app_assoc | by exists a, p].
Qed.

(** A text the regex matches at its start, up to [$]: it opens with the
    magnifier, holds three emoji, and ends with the last bracket. *)
Lemma matches_here_shape (s : string) :
  matches_here s = true ->
  "🔍" ⊑ₛ s /\ count_lead s = 3 /\ exists p, s = p ++ "]".
Proof.
  unfold matches_here. intros (r & Hr & Hnil)%existsb_exists.
  apply String.eqb_eq in Hnil as ->.
  destruct (seq_rests_in _ _ _ Hr) as (p & -> & Hs). rewrite str_app_nil_r.
  cbn [shape suggestionRegex] in Hs.
  destruct Hs as (q1 & -> & a1 & q2 & -> & Ha1 & q3 & -> & a2 & q4 & -> & Ha2 & q5 & -> &
                  a3 & q6 & -> & Ha3 & q7 & -> & a4 & q8 & -> & Ha4 & q9 & -> & a5 & q10 & -> & Ha5 &
                  q11 & -> & ->).
  split; [apply prefix_app|]. split.
  - rewrite !count_lead_app, (count_lead_space a1), (count_lead_space a2), (count_lead_space a3),
      (count_lead_space a4), (count_lead_space a5) by done. reflexivity.
  - eexists. rewrite str_app_nil_r. change "[Exploitation?]" with ("[Exploitation?" ++ "]").
    rewrite <- !str_app_assoc. reflexivity.
Qed.


Lemma block_matches : matches_here suggestion_block = true.
Proof. reflexivity. Qed.

(** No match starts before the block: a match holds one magnifier and
    three emoji in all. *)
Lemma no_match_before (x : string) : x <> "" -> matches_here (x ++ suggestion_block) = false.
Proof.
  intros Hx. destruct (matches_here _) eqn:E; [|done].
  destruct (matches_here_shape _ E) as (Hp & Hc & _).
  rewrite count_lead_app in Hc. change (count_lead suggestion_block) with 3 in Hc.
  destruct x as [|c x]; [done|]. apply prefix_spec in Hp as [r Hr].
  injection Hr as Hc0 _. subst c.
  change (count_lead (String "240"%char x)) with (1 + count_lead x) in Hc. lia.
Qed.

Lemma first_match_unfold (s : string) (i : nat) :
  first_match s i =
  if matches_here s then Some i else match s with EmptyString => None | String _ s' => first_match s' (S i) end.
Proof. by destruct s. Qed.

Lemma first_match_cons (c : ascii) (s : string) (i : nat) :
  first_match (String c s) i = if matches_here (String c s) then Some i else first_match s (S i).
Proof. done. Qed.

Lemma first_match_block (body : string) (i : nat) :
  first_match (body ++ suggestion_block) i = Some (i + String.length body).
Proof.
  revert i. induction body as [|c body IH]; intros i.
  - change ("" ++ suggestion_block) with suggestion_block.
    rewrite first_match_unfold, block_matches. f_equal. cbn. lia.
  - change (String c body ++ suggestion_block) with (String c (body ++ suggestion_block)).
    rewrite first_match_cons.
    change (String c (body ++ suggestion_block)) with (String c body ++ suggestion_block).
    rewrite no_match_before by done. rewrite IH. cbn. f_equal. lia.
Qed.

Lemma first_match_none (s : string) (i : nat) :
  (forall p t, s = p ++ t -> matches_here t = false) -> first_match s i = None.
Proof.
  revert i. induction s as [|c s IH]; intros i H.
  - by rewrite first_match_unfold, (H "" "").
  - rewrite first_match_cons, (H "" (String c s)) by done.
    apply IH. intros p t ->. by apply (H (String c p)).
Qed.

Lemma last_char_space (ws : string) :
  all_space ws = true -> ws <> "" -> exists c, last_char ws = Some c /\ is_js_space c = true.
Proof.
  induction ws as [|c ws IH]; [done|]. cbn [all_space]. intros [Hc Hws]%andb_prop _.
  destruct (String.eqb_spec ws "") as [->|Hne]; [exists c; by rewrite last_char_single|].
  change (String c ws) with (String c "" ++ ws). rewrite last_char_app by done. by apply IH.
Qed.

(** With white space after the block, no position matches: a match ends
    with the last bracket. *)
Lemma no_match_trailing (s ws : string) :
  all_space ws = true -> ws <> "" -> forall p t, s ++ ws = p ++ t -> matches_here t = false.
Proof.
  intros Hws Hne p t E. destruct (matches_here t) eqn:Hm; [|done].
  destruct (matches_here_shape t Hm) as (_ & _ & q & ->).
  destruct (last_char_space ws Hws Hne) as (c & Hc & Hsp).
  assert (Hl : last_char (s ++ ws) = last_char (p ++ q ++ "]")) by by rewrite E.
  rewrite (last_char_app s ws Hne), Hc, (last_char_app p (q ++ "]")) in Hl by (by destruct q).
  rewrite (last_char_app q "]"), last_char_single in Hl by done.
  injection Hl as ->. done.
Qed.


(** The system instruction asks for the block. *)
Lemma instruction_has_block (agentSchema : option json) (fileList : string) :
  index_of suggestion_block (getSystemInstruction agentSchema fileList) = Some 1814.
Proof. vm_compute. reflexivity. Qed.

(** ** Properties of the panel *)

(** C39 (functional). The system instruction asks the chat message to end
    with the three questions on new lines ([suggestion_block]).  The panel
    recognises them only when they end the message exactly: with nothing
    after them, the last assistant message shows the trimmed text before
    them and the three buttons; with any white space after them (a line
    break before the separator, say), it shows the raw text and no
    button. *)
Theorem suggestions_only_at_end (agentSchema : option json) (fileList body ws : string) :
  all_space ws = true ->
  (exists a b, getSystemInstruction agentSchema fileList = a ++ suggestion_block ++ b) /\
  render_message true false (mkMessage "assistant" (body ++ suggestion_block ++ ws)) =
    if ws ==ₛ "" then mkMessageView false (js_trim body) true
    else mkMessageView false (body ++ suggestion_block ++ ws) false.
Proof.
  intros Hws. split.
  { eexists _, _. apply index_of_split, instruction_has_block. }
  unfold render_message, strip_suggestions, suggestion_match. cbn [author content].
  destruct (String.eqb_spec ws "") as [->|Hne].
  - rewrite str_app_nil_r, first_match_block. cbn -[js_trim]. by rewrite str_take_app_length.
  - rewrite (first_match_none (body ++ suggestion_block ++ ws) 0); [done|].
    intros p t E. apply (no_match_trailing (body ++ suggestion_block) ws Hws Hne p t).
    by rewrite str_app_assoc.
Qed.

Lemma suggestions_only_at_end_witness :
  all_space nl = true /\
  (exists a b, getSystemInstruction None "" = a ++ suggestion_block ++ b) /\
  render_message true false (mkMessage "assistant" ("Done." ++ suggestion_block ++ nl)) =
    if nl ==ₛ "" then mkMessageView false (js_trim "Done.") true
    else mkMessageView false ("Done." ++ suggestion_block ++ nl) false.
Proof.
  assert (H : all_space nl = true) by reflexivity.
  split; [exact H | exact (suggestions_only_at_end None "" "Done." nl H)].
Defined.

End ChatPanel.
