(* ===== verification/FileTree.v ===== *)
(** * The document tree panel: [src/components/FileTree.tsx]

    [FileTree] renders [TreeNode] for the root at level 0 and path
    [node.name].  A [TreeNode] has the state [isExpanded], which starts as
    [level < 2].  It renders one row, and its children's [TreeNode]s when
    it is an expanded folder, each child at path [`${path}/${child.name}`].
    Clicking a row flips a folder's state and calls
    [onNodeSelect(path)], which is [setSelectedNodePath] of [App].

    React keeps the state of a mounted [TreeNode] only: the children of a
    collapsed folder unmount, and when the folder expands again they mount
    with [level < 2] again.  [Expansion] is the state of the mounted
    instances, by path; [None] is an instance that has its initial state.
    The rows are the tree's render, in order. *)

From stdpp Require Import base list.
From S2P Require Import Prelude JsString DocTree Json Types Reducer Controller Archive FileViewer.
Import DocTree Types Reducer Controller Archive FileViewer.

Module FileTree.

Definition Expansion := string -> option bool.

Record Row := mkRow {
  row_path : string;
  row_level : nat;
  row_node : DocNode;         (** the [node] prop: the icon and the name shown *)
  row_expanded : bool;        (** the chevron's rotation, for a folder *)
  row_active : bool;          (** [path === selectedNodePath] *)
  row_modified : bool }.      (** [path === lastUpdatedFile] *)

Definition isExpanded (ex : Expansion) (level : nat) (path : string) : bool :=
  match ex path with Some b => b | None => Nat.ltb level 2 end.

(** [TreeNode] at [level] and [path], and the nodes it renders. *)
Fixpoint TreeNode (ex : Expansion) (selectedNodePath lastUpdatedFile : option string)
    (node : DocNode) (level : nat) (path : string) : list Row :=
  let expanded := isExpanded ex level path in
  mkRow path level node expanded
    (bool_decide (Some path = selectedNodePath)) (bool_decide (Some path = lastUpdatedFile)) ::
  match node with
  | DocFolder _ _ children =>
      if expanded then
        flat_map (fun child => TreeNode ex selectedNodePath lastUpdatedFile child (S level)
                                 (path ++ "/" ++ node_name child)) children
      else []
  | DocFile _ _ _ => []
  end.

Definition FileTree (node : DocNode) (selectedNodePath lastUpdatedFile : option string) (ex : Expansion)
    : list Row :=
  TreeNode ex selectedNodePath lastUpdatedFile node 0 (node_name node).

(** [handleToggle] on a row: the new states and the path selected.  A
    folder that collapses unmounts the instances below it. *)
Definition handleToggle (r : Row) (ex : Expansion) : Expansion * string :=
  let p := row_path r in
  if is_folder (row_node r) then
    let now := negb (row_expanded r) in
    (fun q => if q ==ₛ p then Some now
              else if negb now && String.prefix (p ++ "/") q then None else ex q, p)
  else (ex, p).

(** A click on the [i]-th rendered row, with [App]: the selection becomes
    the row's path. *)
Definition click_row (c : Ctrl) (ex : Expansion) (i : nat) : option (Ctrl * Expansion) :=
  r ← nth_error (FileTree (docStructure (st c)) (selected c) (lastUpdated c) ex) i;
  let '(ex', p) := handleToggle r ex in Some (with_selected c (Some p), ex').


(** ** Rows and paths *)

(** Every row of a well-formed node is the node a walk reaches, at the
    path of the walk. *)
Lemma TreeNode_walk (ex : Expansion) (sel lu : option string) (n : DocNode) (level : nat) (P : string)
    (r : Row) :
  wf_doc n = true -> In r (TreeNode ex sel lu n level P) ->
  exists segs, walk n segs = Some (row_node r) /\ row_path r = path_of P segs.
Proof.
  revert level P. induction n as [nm d x | nm d ch IH] using DocNode_ind'; intros level P Hw; cbn [TreeNode].
  - intros [<-|[]]. by exists [].
  - intros [<-|Hin]; [by exists []|].
    destruct (isExpanded ex level P); [|done].
    apply in_flat_map in Hin as (c & Hc & Hr).
    apply wf_doc_children in Hw as [Hu Hwc]. rewrite List.Forall_forall in IH.
    destruct (IH c Hc (S level) _ (Hwc c Hc) Hr) as (segs & Hwk & Hp).
    exists (node_name c :: segs). cbn [walk]. rewrite names_unique_find by done.
    split; [done|]. by rewrite path_of_cons.
Qed.

(** C40 (refinement). On a well-formed tree, clicking any row the tree
    renders, whatever is expanded, selects the row's path, and the file
    viewer then gets exactly the node that row shows: the paths the tree
    builds are the paths [findNodeByPath] resolves. *)
Theorem tree_click_selects_row (c : Ctrl) (ex : Expansion) (i : nat) (r : Row) :
  root_wf (docStructure (st c)) = true -> node_name (docStructure (st c)) <> "" ->
  nth_error (FileTree (docStructure (st c)) (selected c) (lastUpdated c) ex) i = Some r ->
  exists c' ex', click_row c ex i = Some (c', ex') /\
    selected c' = Some (row_path r) /\ selected_node c' = Some (row_node r).
Proof.
  intros Hwf Hne Hi. unfold click_row. rewrite Hi. cbn [mbind option_bind].
  destruct (handleToggle r ex) as [ex' p] eqn:Ht.
  assert (Hp : p = row_path r) by (unfold handleToggle in Ht; case_match; by simplify_eq).
  subst p. exists (with_selected c (Some (row_path r))), ex'. do 2 (split; [done|]).
  apply andb_prop in Hwf as [_ Hwf].
  destruct (TreeNode_walk _ _ _ _ _ _ r Hwf (nth_error_In _ _ Hi)) as (segs & Hwk & ->).
  by apply findNodeByPath_walk.
Qed.

Lemma tree_click_selects_row_witness :
  exists r c' ex', nth_error (FileTree (docStructure initial_state) None None (fun _ => None)) 1 = Some r /\
    click_row initial_ctrl (fun _ => None) 1 = Some (c', ex') /\
    selected c' = Some (row_path r) /\ selected_node c' = Some (row_node r).
Proof.
  destruct (nth_error (FileTree (docStructure initial_state) None None (fun _ => None)) 1) as [r|] eqn:E;
    [| vm_compute in E; discriminate].
  destruct (tree_click_selects_row initial_ctrl (fun _ => None) 1 r) as (c' & ex' & H);
    [vm_compute; reflexivity | discriminate | exact E |].
  exists r, c', ex'. split; [reflexivity | exact H].
Defined.

End FileTree.
