(* ===== verification/Widgets.v ===== *)
(** * The header, the tabs and the settings panel, inside [App]

    [src/components/Header.tsx], [src/components/Tabs.tsx] and
    [src/components/SettingsPanel.tsx], with the props [App] passes them
    (lines 169 to 222 of [src/App.tsx]): the header's two buttons call the
    download and the theme toggle, the tabs set [activeTab], which chooses
    the panel of the right column, and the settings panel dispatches
    [SET_LLM_PROVIDER] and [SET_API_KEY].  The texts are the sources'
    literals, byte for byte (the tab labels and icons of [App] are stored
    there already mis-encoded, and are kept so). *)

From stdpp Require Import base list gmap.
From S2P Require Import Prelude JsString DocTree Json Types Schema Cycle Reducer Controller Archive Download Panels Settings ChatPanel.
Import DocTree Json Types Reducer Controller Archive Download Panels Settings ChatPanel.

Module Widgets.

(** ** The header *)

Definition header_title : string := "AGENTX: DocGen".

Inductive HeaderClick := ClickDownload | ClickTheme.

(** The effect of a header button: the download of the archive through
    [saveAs] on the page, or the new theme and store. *)
Definition Header_click (e : HeaderClick) (c : Ctrl) (theme : string) (ls : Storage) (pg : Page Store)
    : (string + Page Store) + (string * Storage) :=
  match e with
  | ClickDownload => inl (download_scaffold (docStructure (st c)) pg)
  | ClickTheme => inr (handleToggleTheme theme ls)
  end.

(** ** The tabs *)

Record Tab := mkTab { tab_id : string; tab_label : string; tab_icon : string }.

Definition TABS : list Tab :=
  [mkTab "chat" "Chat" "üí¨";
   mkTab "mission" "Mission" "‚öôÔ∏è";
   mkTab "reasoning" "Raisonnement" "üî¨";
   mkTab "settings" "Param√®tres" "üîß"].

Record TabButton := mkTabButton { tb_text : string; tb_active : bool }.

(** [{tab.icon} {tab.label}], and the [active] class. *)
Definition Tabs (activeTab : string) (tabs : list Tab) : list TabButton :=
  map (fun tab => mkTabButton (tab_icon tab ++ " " ++ tab_label tab) (activeTab ==ₛ tab_id tab)) tabs.

Definition setActiveTab (c : Ctrl) (tabId : string) : Ctrl := with_tab c tabId.

(** ** The settings panel *)

Definition provider_label (p : LLMProvider) : string :=
  match p with google => "Google Gemini" | openrouter => "OpenRouter" end.

Record SettingsView := mkSettingsView {
  sv_title : string;
  sv_select : string;          (** the selected option *)
  sv_key_label : string;
  sv_key_value : string;
  sv_placeholder : string;
  sv_note : string }.

Definition SettingsPanel (provider : LLMProvider) (apiKeys : gmap LLMProvider string) : SettingsView :=
  mkSettingsView "🔧 Paramètres" (provider_name provider)
    ("Clé d'API " ++ provider_label provider)
    (match apiKeys !! provider with Some k => k | None => "" end)
    ("Entrez votre clé d'API " ++ provider_label provider)
    ("Note : " ++ "Le changement de fournisseur LLM affectera les futurs appels de l'agent."
     ++ (match provider with
         | openrouter => " Assurez-vous que votre clé est valide et que votre compte OpenRouter a accès au modèle `google/gemini-flash-1.5`."
         | google => "" end)
     ++ (match provider with
         | google => " Votre clé d'API Google Gemini est nécessaire pour utiliser ce fournisseur."
         | openrouter => "" end)).

(** The select's [onChange]: its options are the two providers. *)
Definition settings_select (c : Ctrl) (value : string) : option Ctrl :=
  p ← provider_of_name value; step c (SetProvider p).

(** The key input's [onChange]. *)
Definition settings_key_input (c : Ctrl) (value : string) : option Ctrl :=
  step c (SetApiKey (llmProvider (st c)) value).

(** ** The right column of [App] *)

Inductive SidePanel :=
| SPChat (v : ChatView)
| SPMission (r : string + list (string * string))
| SPReasoning (r : string + list (string * list (list string)))
| SPSettings (v : SettingsView)
| SPNone.

Definition side_panel (c : Ctrl) : SidePanel :=
  let s := st c in
  if activeTab c ==ₛ "chat" then SPChat (ChatPanel.ChatPanel (conversation_history s) (loading c))
  else if activeTab c ==ₛ "mission" then SPMission (AgentConfigPanel (agent_schema s))
  else if activeTab c ==ₛ "reasoning" then SPReasoning (ReasoningPanel (agent_schema s))
  else if activeTab c ==ₛ "settings" then SPSettings (SettingsPanel (llmProvider s) (apiKeys s))
  else SPNone.

End Widgets.
